(** * Multi-agent study assistant: orchestration core

    A shallow embedding of the router / memory / specialist / synthesizer
    pipeline ([src/graph.py]), of the agents' deterministic logic
    ([src/agents.py]), of the session store ([src/memory.py]) and of the
    record shapes ([src/models.py]), followed by the properties of the
    design document that can be stated over them.

    Conventions of the embedding.
    - Text is [string] (a sequence of 8-bit characters); [str.lower] acts on
      the ASCII letters and leaves every other character alone, and
      [str.split] cuts at the ASCII white space.
    - The language-model chains, the subprocess behind the snippet runner and
      the clock are collaborators outside the program: they are fields of an
      environment record [Env], and every statement quantifies over it.
    - The store object [self.memory] is threaded explicitly; an exception is
      an outcome [Raise msg] that keeps the store as mutated so far, as in
      Python.  The store is taken to have the layout [_init_memory] gives it
      (a history list and a profile dictionary).  Persistence to disk
      ([_save_memory]) swallows its own errors and does not feed back into a
      run, so it is not represented; neither is console output.
    - An exception that reaches the [try] block of a stage from outside the
      modelled code is given by [fault] of the environment and is raised as
      the block is entered. *)

From stdpp Require Import gmap strings list fin_maps.
From Stdlib Require Import Ascii DecimalString.


(** ** Python string primitives *)

Module Py.

Definition nl : string := String (ascii_of_nat 10) "".

Definition lower_char (c : ascii) : ascii :=
  let n := nat_of_ascii c in
  if (65 <=? n)%nat && (n <=? 90)%nat then ascii_of_nat (n + 32) else c.

(** [s.lower()] *)
Fixpoint lower (s : string) : string :=
  match s with
  | EmptyString => EmptyString
  | String c s' => String (lower_char c) (lower s')
  end.

(** [s.startswith(p)] *)
Fixpoint startswith (p s : string) : bool :=
  match p, s with
  | EmptyString, _ => true
  | String _ _, EmptyString => false
  | String a p', String b s' => if Ascii.eqb a b then startswith p' s' else false
  end.

(** [sub in s] *)
Fixpoint contains (sub s : string) : bool :=
  startswith sub s ||
  match s with
  | EmptyString => false
  | String _ s' => contains sub s'
  end.

(** [s[:n]] *)
Fixpoint slice_to (n : nat) (s : string) : string :=
  match n, s with
  | S n', String c s' => String c (slice_to n' s')
  | _, _ => EmptyString
  end.

(** [l[-n:]] for a non-negative [n]; note that [l[-0:]] is the whole list. *)
Definition last_n {A} (n : nat) (l : list A) : list A :=
  match n with
  | O => l
  | _ => drop (length l - n) l
  end.

(** Truthiness of a [str]. *)
Definition truthy (s : string) : bool := negb (String.eqb s "").

(** Truthiness of an [Optional[str]]. *)
Definition truthy_opt (o : option string) : bool :=
  match o with
  | Some s => truthy s
  | None => false
  end.

Definition is_space (c : ascii) : bool :=
  let n := nat_of_ascii c in
  ((9 <=? n)%nat && (n <=? 13)%nat) || ((28 <=? n)%nat && (n <=? 32)%nat).

Fixpoint split_go (cur : string) (s : string) : list string :=
  match s with
  | EmptyString => if truthy cur then [cur] else []
  | String c s' =>
      if is_space c
      then (if truthy cur then cur :: split_go "" s' else split_go "" s')
      else split_go (cur +:+ String c "") s'
  end.

(** [s.split()] *)
Definition split (s : string) : list string := split_go "" s.

(** [s.split(c)[0]] *)
Fixpoint before_char (c : ascii) (s : string) : string :=
  match s with
  | EmptyString => EmptyString
  | String a s' => if Ascii.eqb a c then EmptyString else String a (before_char c s')
  end.

(** [any(word in s for word in words)] *)
Definition any_in (words : list string) (s : string) : bool :=
  existsb (fun word => contains word s) words.

(** [sep.join(l)] *)
Definition join (sep : string) (l : list string) : string := String.concat sep l.

(** [str(n)] for a natural number. *)
Definition str_nat (n : nat) : string := NilEmpty.string_of_uint (Nat.to_uint n).

(** [list(set(l))]: the order Python gives is unspecified; the statements
    below only look at membership. *)
Definition list_set (l : list string) : list string := remove_dups l.

End Py.

(** ** Record shapes ([src/models.py]) *)

Inductive QueryType := THEORY | CODE | PLANNING | GENERAL | MEMORY.

Module RoutingDecision.
Record t := mk {
  query_type : QueryType;
  target_agents : list string;
  reasoning : string;
  priority : Z;
  needs_memory : bool;
  needs_tools : bool
}.
End RoutingDecision.

Module TheoryExplanation.
Record t := mk {
  concept : string;
  explanation : string;
  key_points : list string;
  examples : list string;
  related_concepts : list string;
  difficulty_level : string
}.
End TheoryExplanation.

Module CodeHelp.
Record t := mk {
  problem_description : string;
  solution_approach : string;
  code_example : option string;
  explanation : string;
  best_practices : list string;
  common_pitfalls : list string
}.
End CodeHelp.

(** One entry of [StudyPlan.steps]: a dictionary of which the program reads
    the keys ['description'] and ['estimated_time'] (rendered as text). *)
Record Step := {
  step_description : option string;
  step_estimated_time : option string
}.

Module StudyPlan.
Record t := mk {
  goal : string;
  steps : list Step;
  total_estimated_time : string;
  priority_order : list Z;
  resources : list string;
  milestones : list string
}.
End StudyPlan.

Module MemoryUpdate.
Record t := mk {
  action : string;
  key : string;
  value : option string;
  retrieved_context : option string;
  reasoning : string
}.
End MemoryUpdate.

Module FinalResponse.
Record t := mk {
  answer : string;
  agents_involved : list string;
  tools_used : list string;
  memory_accessed : bool;
  confidence : string
}.
End FinalResponse.

(** ** The session store ([src/memory.py]) *)

Record Interaction := {
  timestamp : string;
  query : string;
  response : string;
  agents : list string
}.

(** A value of the [user_profile] dictionary: a list of tags, or anything
    else (here always text), which [isinstance(_, list)] tells apart. *)
Inductive ProfileValue :=
| PList (items : list string)
| PScalar (v : string).

Record Memory := {
  session_history : list Interaction;
  user_profile : gmap string ProfileValue
}.

Definition _init_memory : Memory :=
  {| session_history := [];
     user_profile :=
       <["topics_asked" := PList []]>
         (<["coding_languages" := PList []]>
            (<["study_goals" := PList []]> ∅)) |}.

(** [store_interaction]; [now] is the value of [datetime.now().isoformat()]. *)
Definition store_interaction (now : string) (q resp : string) (ags : list string)
    (m : Memory) : Memory :=
  let interaction :=
    {| timestamp := now; query := q; response := Py.slice_to 500 resp; agents := ags |} in
  let appended := session_history m ++ [interaction] in
  {| session_history :=
       if (20 <? length appended)%nat then Py.last_n 20 appended else appended;
     user_profile := user_profile m |}.

Definition retrieve_recent_context (limit : nat) (m : Memory) : list Interaction :=
  Py.last_n limit (session_history m).

Definition update_user_profile (key value : string) (m : Memory) : Memory :=
  {| session_history := session_history m;
     user_profile :=
       match user_profile m !! key with
       | Some (PList items) =>
           if bool_decide (value ∈ items) then user_profile m
           else <[key := PList (items ++ [value])]> (user_profile m)
       | Some (PScalar _) => <[key := PScalar value]> (user_profile m)
       | None => <[key := PScalar value]> (user_profile m)
       end |}.

Definition get_user_profile (m : Memory) : gmap string ProfileValue := user_profile m.

Definition search_history (keyword : string) (m : Memory) : list Interaction :=
  let keyword_lower := Py.lower keyword in
  List.filter
    (fun interaction =>
       Py.contains keyword_lower (Py.lower (query interaction)) ||
       Py.contains keyword_lower (Py.lower (response interaction)))
    (session_history m).

Definition clear_memory (m : Memory) : Memory := _init_memory.

(** ** Effects: the store and exceptions *)

Inductive Outcome (A : Type) :=
| Ok (a : A)
| Raise (msg : string).
Arguments Ok {A} a.
Arguments Raise {A} msg.

(** A computation reads and updates the store and either returns or raises;
    [msg] is [str(e)] of the exception. *)
Definition M (A : Type) : Type := Memory -> Outcome A * Memory.

Definition ret {A} (a : A) : M A := fun m => (Ok a, m).

Definition raise {A} (msg : string) : M A := fun m => (Raise msg, m).

Definition bind {A B} (c : M A) (k : A -> M B) : M B :=
  fun m =>
    match c m with
    | (Ok a, m') => k a m'
    | (Raise msg, m') => (Raise msg, m')
    end.

(** [try: body  except Exception as e: handler(str(e))] *)
Definition try_except {A} (body : M A) (handler : string -> M A) : M A :=
  fun m =>
    match body m with
    | (Ok a, m') => (Ok a, m')
    | (Raise msg, m') => handler msg m'
    end.

Definition read_store : M Memory := fun m => (Ok m, m).

Definition modify_store (f : Memory -> Memory) : M unit := fun m => (Ok tt, f m).

Declare Scope py_scope.
Delimit Scope py_scope with py.
Notation "'let!' x ':=' c 'in' k" := (bind c (fun x => k))
  (at level 10, x name, c at level 100, k at level 200, only parsing) : py_scope.
Notation "'run!' c 'in' k" := (bind c (fun _ => k))
  (at level 10, c at level 100, k at level 200, only parsing) : py_scope.
Open Scope py_scope.

(** ** Collaborators outside the program *)

(** The stages of the workflow graph. *)
Inductive Node :=
| router | memory_manager | theory_explainer | code_helper | planner | synthesizer.

Global Instance Node_eq_dec : EqDecision Node.
Proof. solve_decision. Defined.

(** What [subprocess.run] does with a snippet. *)
Inductive Subprocess :=
| Completed (returncode : Z) (stdout stderr : string)
| TimeoutExpired
| Failed (msg : string).

Record Env := {
  (** [prompt | llm | parser] of each agent, as a function of what the prompt
      is built from; [None] is any exception of the chain (time-out,
      unparseable output after the retries). *)
  router_chain : string -> list Interaction -> option RoutingDecision.t;
  theory_chain : string -> option string -> option TheoryExplanation.t;
  code_chain : string -> option string -> option CodeHelp.t;
  planner_chain : string -> gmap string ProfileValue -> option StudyPlan.t;
  subprocess_run : string -> Subprocess;
  (** [datetime.now().isoformat()] *)
  now : string;
  (** An exception that escapes into the [try] block of a stage from the
      runtime or from a library call that the agents do not guard; [Some msg]
      carries [str(e)]. *)
  fault : Node -> option string
}.

Definition check_fault (env : Env) (n : Node) : M unit :=
  match fault env n with
  | Some msg => raise msg
  | None => ret tt
  end.

(** ** Tools ([src/tools.py]) *)

Record ExecResult := {
  success : bool;
  output : string;
  exec_error : option string
}.

Definition dangerous_keywords : list string :=
  ["import os"; "import sys"; "__import__"; "open("; "file("].

(** [CodeExecutorTool.execute_python] *)
Definition execute_python (env : Env) (code : string) : ExecResult :=
  match List.find (fun keyword => Py.contains keyword (Py.lower code)) dangerous_keywords with
  | Some keyword =>
      {| success := false;
         output := "Error: Potentially unsafe operation detected: " +:+ keyword;
         exec_error := Some "Security restriction" |}
  | None =>
      match subprocess_run env code with
      | Completed returncode stdout stderr =>
          {| success := bool_decide (returncode = 0%Z);
             output := stdout;
             exec_error := if bool_decide (returncode = 0%Z) then None else Some stderr |}
      | TimeoutExpired =>
          {| success := false; output := ""; exec_error := Some "Execution timeout" |}
      | Failed msg =>
          {| success := false; output := ""; exec_error := Some msg |}
      end
  end.

(** ** Agents ([src/agents.py]) *)

Definition theory_keywords : list string :=
  ["what is"; "explain"; "concept"; "theory"; "how does"].
Definition code_keywords : list string :=
  ["code"; "implement"; "python"; "function"; "debug"; "syntax"].
Definition planning_keywords : list string :=
  ["plan"; "schedule"; "learn"; "study"; "steps"].

(** [RouterAgent.route_query] *)
Definition route_query (env : Env) (q : string) : M RoutingDecision.t :=
  let! store := read_store in
  let recent_context := retrieve_recent_context 2 store in
  match router_chain env q recent_context with
  | Some decision => ret decision
  | None =>
      let query_lower := Py.lower q in
      let '(query_type, target_agents) :=
        if Py.any_in theory_keywords query_lower then (THEORY, ["theory_explainer"])
        else if Py.any_in code_keywords query_lower then (CODE, ["code_helper"])
        else if Py.any_in planning_keywords query_lower then (PLANNING, ["planner"])
        else (GENERAL, ["theory_explainer"]) in
      ret (RoutingDecision.mk query_type target_agents
             "Fallback routing based on keywords" 1
             (0 <? length recent_context)%nat false)
  end.

(** [TheoryExplainerAgent.explain]; the knowledge-base lookup only feeds the
    prompt and is a function of the query, as the chain is. *)
Definition explain (env : Env) (q : string) (context : option string) : M TheoryExplanation.t :=
  match theory_chain env q context with
  | Some explanation => ret explanation
  | None =>
      ret (TheoryExplanation.mk
             (if Py.contains "?" q then Py.before_char "?"%char q else Py.slice_to 50 q)
             "I'll help explain this concept. Let me provide a clear explanation..."
             ["Key point 1"; "Key point 2"] [] [] "intermediate")
  end.

(** [CodeHelperAgent.help_with_code] *)
Definition help_with_code (env : Env) (q : string) (context : option string) : M CodeHelp.t :=
  match code_chain env q context with
  | Some code_help =>
      match CodeHelp.code_example code_help with
      | Some code =>
          if Py.truthy code && Py.contains "print" (Py.lower code) then
            let exec_result := execute_python env code in
            if success exec_result then
              ret (CodeHelp.mk
                     (CodeHelp.problem_description code_help)
                     (CodeHelp.solution_approach code_help)
                     (CodeHelp.code_example code_help)
                     (CodeHelp.explanation code_help +:+ Py.nl +:+ Py.nl +:+
                        "Execution result: " +:+ output exec_result)
                     (CodeHelp.best_practices code_help)
                     (CodeHelp.common_pitfalls code_help))
            else ret code_help
          else ret code_help
      | None => ret code_help
      end
  | None =>
      ret (CodeHelp.mk q "Analyze the problem step by step" None
             "I'll help you with this coding question." [] [])
  end.

(** [PlannerAgent.create_plan]; [format_schedule] only reads the steps and
    its text is dropped. *)
Definition create_plan (env : Env) (q : string) (profile : gmap string ProfileValue)
    : M StudyPlan.t :=
  match planner_chain env q profile with
  | Some plan => ret plan
  | None =>
      ret (StudyPlan.mk q
             [ {| step_description := Some "Understand basics";
                  step_estimated_time := Some "2 hours" |};
               {| step_description := Some "Practice examples";
                  step_estimated_time := Some "3 hours" |} ]
             "5 hours" [1%Z; 2%Z] [] [])
  end.

(** [MemoryManagerAgent.manage_memory]; [attached] tells whether
    [set_memory_store] gave the agent a store. *)
Definition manage_memory (attached : bool) (q : string) (action : string) : M MemoryUpdate.t :=
  if negb attached then
    ret (MemoryUpdate.mk "none" "" None None "Memory store not available")
  else
    let query_lower := Py.lower q in
    let action :=
      if String.eqb action "auto" then
        if Py.any_in ["remember"; "store"; "save"] query_lower then "store"
        else if Py.any_in ["what did"; "previous"; "earlier"; "before"] query_lower then "retrieve"
        else "retrieve"
      else action in
    if String.eqb action "retrieve" then
      let! store := read_store in
      let recent := retrieve_recent_context 3 store in
      let context_parts :=
        List.map (fun ctx => "Q: " +:+ query ctx +:+ Py.nl +:+ "A: " +:+
                             Py.slice_to 200 (response ctx)) recent in
      let retrieved_context :=
        match context_parts with
        | [] => "No previous context found"
        | _ => Py.join Py.nl context_parts
        end in
      let keywords := List.filter (fun word => (3 <? String.length word)%nat)
                                  (Py.split query_lower) in
      let search_results :=
        List.flat_map (fun keyword => search_history keyword store) (take 2 keywords) in
      let retrieved_context :=
        match search_results with
        | [] => retrieved_context
        | _ =>
            fold_left
              (fun acc result => acc +:+ "- " +:+ Py.slice_to 100 (query result) +:+ Py.nl)
              (take 2 search_results)
              (retrieved_context +:+ Py.nl +:+ Py.nl +:+
                 "Related previous discussions:" +:+ Py.nl)
        end in
      ret (MemoryUpdate.mk "retrieve" "session_context" None (Some retrieved_context)
             "Retrieved recent session history and related discussions")
    else if String.eqb action "store" then
      ret (MemoryUpdate.mk "store" "user_preference" (Some q) None
             "Storing user preference or information")
    else
      ret (MemoryUpdate.mk "none" "" None None "No memory action needed").

(** ** The workflow ([src/graph.py]) *)

Module MultiAgentState.
Record t := mk {
  user_query : string;
  routing_decision : option RoutingDecision.t;
  theory_explanation : option TheoryExplanation.t;
  code_help : option CodeHelp.t;
  study_plan : option StudyPlan.t;
  memory_update : option MemoryUpdate.t;
  memory_context : option string;
  final_response : option FinalResponse.t;
  agents_involved : list string;
  tools_used : list string;
  error : option string
}.

(** [{**state, "field": v}] for each field a stage writes. *)
Definition with_routing_decision v s :=
  mk (user_query s) v (theory_explanation s) (code_help s) (study_plan s)
     (memory_update s) (memory_context s) (final_response s)
     (agents_involved s) (tools_used s) (error s).
Definition with_theory_explanation v s :=
  mk (user_query s) (routing_decision s) v (code_help s) (study_plan s)
     (memory_update s) (memory_context s) (final_response s)
     (agents_involved s) (tools_used s) (error s).
Definition with_code_help v s :=
  mk (user_query s) (routing_decision s) (theory_explanation s) v (study_plan s)
     (memory_update s) (memory_context s) (final_response s)
     (agents_involved s) (tools_used s) (error s).
Definition with_study_plan v s :=
  mk (user_query s) (routing_decision s) (theory_explanation s) (code_help s) v
     (memory_update s) (memory_context s) (final_response s)
     (agents_involved s) (tools_used s) (error s).
Definition with_memory_update v s :=
  mk (user_query s) (routing_decision s) (theory_explanation s) (code_help s)
     (study_plan s) v (memory_context s) (final_response s)
     (agents_involved s) (tools_used s) (error s).
Definition with_memory_context v s :=
  mk (user_query s) (routing_decision s) (theory_explanation s) (code_help s)
     (study_plan s) (memory_update s) v (final_response s)
     (agents_involved s) (tools_used s) (error s).
Definition with_final_response v s :=
  mk (user_query s) (routing_decision s) (theory_explanation s) (code_help s)
     (study_plan s) (memory_update s) (memory_context s) v
     (agents_involved s) (tools_used s) (error s).
Definition with_agents_involved v s :=
  mk (user_query s) (routing_decision s) (theory_explanation s) (code_help s)
     (study_plan s) (memory_update s) (memory_context s) (final_response s)
     v (tools_used s) (error s).
Definition with_tools_used v s :=
  mk (user_query s) (routing_decision s) (theory_explanation s) (code_help s)
     (study_plan s) (memory_update s) (memory_context s) (final_response s)
     (agents_involved s) v (error s).
Definition with_error v s :=
  mk (user_query s) (routing_decision s) (theory_explanation s) (code_help s)
     (study_plan s) (memory_update s) (memory_context s) (final_response s)
     (agents_involved s) (tools_used s) v.
End MultiAgentState.
Import MultiAgentState.

Definition router_node (env : Env) (state : MultiAgentState.t) : M MultiAgentState.t :=
  try_except
    (run! check_fault env router in
     let! decision := route_query env (user_query state) in
     ret (with_agents_involved ["router"]
            (with_routing_decision (Some decision) state)))
    (fun e =>
       ret (with_routing_decision
              (Some (RoutingDecision.mk GENERAL ["theory_explainer"] "Fallback routing"
                       1 false false))
              (with_error (Some ("Router error: " +:+ e)) state))).

Definition memory_manager_node (env : Env) (state : MultiAgentState.t) : M MultiAgentState.t :=
  try_except
    (run! check_fault env memory_manager in
     let routing := routing_decision state in
     let action :=
       match routing with
       | Some r => if RoutingDecision.needs_memory r then "retrieve" else "auto"
       | None => "auto"
       end in
     (* the system attaches its store to the agent when it is built *)
     let! memory_update := manage_memory true (user_query state) action in
     let new_state :=
       with_agents_involved ["memory_manager"]
         (with_memory_context (MemoryUpdate.retrieved_context memory_update)
            (with_memory_update (Some memory_update) state)) in
     run! (match MemoryUpdate.value memory_update with
           | Some v =>
               if String.eqb (MemoryUpdate.action memory_update) "store" && Py.truthy v
               then modify_store (update_user_profile "user_preferences" v)
               else ret tt
           | None => ret tt
           end) in
     ret new_state)
    (fun e =>
       ret (with_error (Some ("Memory error: " +:+ e))
              (with_memory_context None state))).

Definition theory_explainer_node (env : Env) (state : MultiAgentState.t) : M MultiAgentState.t :=
  try_except
    (run! check_fault env theory_explainer in
     let! explanation := explain env (user_query state) (memory_context state) in
     run! modify_store
            (update_user_profile "topics_asked" (TheoryExplanation.concept explanation)) in
     ret (with_agents_involved ["theory_explainer"]
            (with_theory_explanation (Some explanation) state)))
    (fun e => ret (with_error (Some ("Theory explainer error: " +:+ e)) state)).

Definition code_helper_node (env : Env) (state : MultiAgentState.t) : M MultiAgentState.t :=
  try_except
    (run! check_fault env code_helper in
     let! code_help := help_with_code env (user_query state) (memory_context state) in
     run! (if Py.contains "python" (Py.lower (user_query state))
           then modify_store (update_user_profile "coding_languages" "Python")
           else ret tt) in
     let tools_used :=
       if Py.truthy_opt (CodeHelp.code_example code_help)
       then tools_used state ++ ["code_executor"]
       else tools_used state in
     ret (with_tools_used tools_used
            (with_agents_involved ["code_helper"]
               (with_code_help (Some code_help) state))))
    (fun e => ret (with_error (Some ("Code helper error: " +:+ e)) state)).

Definition planner_node (env : Env) (state : MultiAgentState.t) : M MultiAgentState.t :=
  try_except
    (run! check_fault env planner in
     let! store := read_store in
     let user_profile := get_user_profile store in
     let! plan := create_plan env (user_query state) user_profile in
     run! modify_store (update_user_profile "study_goals" (StudyPlan.goal plan)) in
     let tools_used := tools_used state ++ ["schedule_tool"] in
     ret (with_tools_used tools_used
            (with_agents_involved ["planner"]
               (with_study_plan (Some plan) state))))
    (fun e => ret (with_error (Some ("Planner error: " +:+ e)) state)).

(** ["\n".join(f"- {p}" for p in items)] *)
Definition bullets (items : list string) : string :=
  Py.join Py.nl (List.map (fun p => "- " +:+ p) items).

Definition step_text (field : option string) : string := default "N/A" field.

(** The sections of the answer and the agents they come from: the block
    under "Collect all outputs" of [synthesizer_node]. *)
Definition collect_outputs (state : MultiAgentState.t) : list string * list string :=
  let '(parts, agents_used) :=
    match theory_explanation state with
    | Some exp =>
        ([ "## Explanation: " +:+ TheoryExplanation.concept exp +:+ Py.nl +:+ Py.nl +:+
             TheoryExplanation.explanation exp +:+ Py.nl +:+ Py.nl;
           "**Key Points:**" +:+ Py.nl +:+ bullets (TheoryExplanation.key_points exp) +:+
             Py.nl +:+ Py.nl ] ++
         match TheoryExplanation.examples exp with
         | [] => []
         | exs => [ "**Examples:**" +:+ Py.nl +:+ bullets exs +:+ Py.nl +:+ Py.nl ]
         end,
         ["theory_explainer"])
    | None => ([], [])
    end in
  let '(parts, agents_used) :=
    match code_help state with
    | Some ch =>
        (parts ++
         [ "## Code Help" +:+ Py.nl +:+ Py.nl +:+ CodeHelp.explanation ch +:+ Py.nl +:+ Py.nl;
           "**Approach:** " +:+ CodeHelp.solution_approach ch +:+ Py.nl +:+ Py.nl ] ++
         match CodeHelp.code_example ch with
         | Some code =>
             if Py.truthy code
             then [ "**Code Example:**" +:+ Py.nl +:+ "```python" +:+ Py.nl +:+ code +:+
                      Py.nl +:+ "```" +:+ Py.nl +:+ Py.nl ]
             else []
         | None => []
         end ++
         match CodeHelp.best_practices ch with
         | [] => []
         | bps => [ "**Best Practices:**" +:+ Py.nl +:+ bullets bps +:+ Py.nl +:+ Py.nl ]
         end,
         agents_used ++ ["code_helper"])
    | None => (parts, agents_used)
    end in
  let '(parts, agents_used) :=
    match study_plan state with
    | Some sp =>
        (parts ++
         [ "## Study Plan: " +:+ StudyPlan.goal sp +:+ Py.nl +:+ Py.nl ] ++
         List.flat_map
           (fun '(i, step) =>
              [ "**Step " +:+ Py.str_nat i +:+ ":** " +:+
                  step_text (step_description step) +:+ Py.nl;
                "   Estimated time: " +:+ step_text (step_estimated_time step) +:+
                  Py.nl +:+ Py.nl ])
           (List.combine (List.seq 1 (length (StudyPlan.steps sp))) (StudyPlan.steps sp)) ++
         [ "**Total estimated time:** " +:+ StudyPlan.total_estimated_time sp +:+
             Py.nl +:+ Py.nl ] ++
         match StudyPlan.resources sp with
         | [] => []
         | rs => [ "**Resources:**" +:+ Py.nl +:+ bullets rs +:+ Py.nl +:+ Py.nl ]
         end,
         agents_used ++ ["planner"])
    | None => (parts, agents_used)
    end in
  match memory_update state with
  | Some mu =>
      match MemoryUpdate.retrieved_context mu with
      | Some ctx =>
          if Py.truthy ctx
          then (parts ++
                [ "## Context from Previous Conversations" +:+ Py.nl +:+ Py.nl +:+
                    Py.slice_to 300 ctx +:+ "..." +:+ Py.nl +:+ Py.nl ],
                agents_used ++ ["memory_manager"])
          else (parts, agents_used)
      | None => (parts, agents_used)
      end
  | None => (parts, agents_used)
  end.

Definition no_specialist_answer : string :=
  "I'm here to help! Could you provide more details?".

Definition synthesizer_node (env : Env) (state : MultiAgentState.t) : M MultiAgentState.t :=
  try_except
    (run! check_fault env synthesizer in
     let '(parts, agents_used) := collect_outputs state in
     let final_answer :=
       match parts with
       | [] => no_specialist_answer
       | _ => String.concat "" parts
       end in
     let confidence :=
       if (1 <? length agents_used)%nat && negb (Py.truthy_opt (error state))
       then "high" else "medium" in
     let confidence := if Py.truthy_opt (error state) then "low" else confidence in
     let final_response :=
       FinalResponse.mk final_answer
         (Py.list_set (agents_used ++ agents_involved state))
         (Py.list_set (tools_used state))
         (bool_decide (memory_context state <> None))
         confidence in
     run! modify_store
            (store_interaction (now env) (user_query state) final_answer
               (FinalResponse.agents_involved final_response)) in
     ret (with_final_response (Some final_response) state))
    (fun e =>
       ret (with_final_response
              (Some (FinalResponse.mk ("Error generating response: " +:+ e)
                       (agents_involved state) (tools_used state) false "low"))
              (with_error (Some ("Synthesizer error: " +:+ e)) state))).

Definition first_target (target_agents : list string) : string :=
  match target_agents with
  | [] => "synthesizer"
  | agent :: _ =>
      if String.eqb agent "theory_explainer" then "theory_explainer"
      else if String.eqb agent "code_helper" then "code_helper"
      else if String.eqb agent "planner" then "planner"
      else "synthesizer"
  end.

Definition route_after_router (state : MultiAgentState.t) : string :=
  match routing_decision state with
  | None => "synthesizer"
  | Some routing =>
      if RoutingDecision.needs_memory routing then "memory_manager"
      else first_target (RoutingDecision.target_agents routing)
  end.

Definition route_after_memory (state : MultiAgentState.t) : string :=
  match routing_decision state with
  | None => "synthesizer"
  | Some routing => first_target (RoutingDecision.target_agents routing)
  end.

(** *** The graph of [_build_graph] and its execution *)

Definition node_fn (env : Env) (n : Node) : MultiAgentState.t -> M MultiAgentState.t :=
  match n with
  | router => router_node env
  | memory_manager => memory_manager_node env
  | theory_explainer => theory_explainer_node env
  | code_helper => code_helper_node env
  | planner => planner_node env
  | synthesizer => synthesizer_node env
  end.

(** The branch tables given to [add_conditional_edges]. *)
Definition router_branches : list (string * Node) :=
  [ ("memory_manager", memory_manager); ("theory_explainer", theory_explainer);
    ("code_helper", code_helper); ("planner", planner); ("synthesizer", synthesizer) ].

Definition memory_branches : list (string * Node) :=
  [ ("theory_explainer", theory_explainer); ("code_helper", code_helper);
    ("planner", planner); ("synthesizer", synthesizer) ].

Fixpoint branch (table : list (string * Node)) (name : string) : option Node :=
  match table with
  | [] => None
  | (k, n) :: rest => if String.eqb k name then Some n else branch rest name
  end.

(** Where the graph goes after a stage: [inl None] is [END], [inr name] a
    branch name missing from its table. *)
Definition next_node (n : Node) (state : MultiAgentState.t) : option Node + string :=
  match n with
  | router =>
      match branch router_branches (route_after_router state) with
      | Some n' => inl (Some n')
      | None => inr (route_after_router state)
      end
  | memory_manager =>
      match branch memory_branches (route_after_memory state) with
      | Some n' => inl (Some n')
      | None => inr (route_after_memory state)
      end
  | theory_explainer | code_helper | planner => inl (Some synthesizer)
  | synthesizer => inl None
  end.

(** How the framework folds the dictionary a stage returns into the state:
    [agents_involved] and [tools_used] are declared with the reducer
    [operator.add], every other key is replaced.  A stage returns
    [{**state, ...}], so a list it does not set comes back as it was and is
    added to itself; and the in-place [append] of the code and planner stages
    on the list they were handed can at most repeat an entry once more.  The
    final response goes through [set], which forgets repetitions. *)
Definition apply_update (state returned : MultiAgentState.t) : MultiAgentState.t :=
  with_tools_used (tools_used state ++ tools_used returned)
    (with_agents_involved (agents_involved state ++ agents_involved returned) returned).

(** Runs the graph from stage [n]; [limit] is the framework's bound on the
    number of steps, beyond which it raises.  The list is the stages run. *)
Fixpoint run_from (env : Env) (limit : nat) (n : Node) (state : MultiAgentState.t)
    (visited : list Node) : M (MultiAgentState.t * list Node) :=
  match limit with
  | O => raise "GraphRecursionError"
  | S limit' =>
      let! returned := node_fn env n state in
      let state' := apply_update state returned in
      match next_node n state' with
      | inl None => ret (state', visited ++ [n])
      | inl (Some n') => run_from env limit' n' state' (visited ++ [n])
      | inr name => raise ("KeyError: " +:+ name)
      end
  end.

Definition recursion_limit : nat := 25.

Definition initial_state (q : string) : MultiAgentState.t :=
  MultiAgentState.mk q None None None None None None None [] [] None.

(** [self.app.ainvoke(initial_state)], with the stages it ran. *)
Definition ainvoke (env : Env) (state : MultiAgentState.t) : M (MultiAgentState.t * list Node) :=
  run_from env recursion_limit router state [].

Definition process_query (env : Env) (q : string) : M MultiAgentState.t :=
  let! result := ainvoke env (initial_state q) in
  ret (fst result).

(** ** The other tools ([src/tools.py]) *)

(** [s.replace(old, "")] for a non-empty [old]: the occurrences are removed
    from left to right and do not overlap; [skip] counts the characters of an
    occurrence still to drop. *)
Fixpoint remove_go (old : string) (skip : nat) (s : string) : string :=
  match s with
  | EmptyString => EmptyString
  | String c s' =>
      match skip with
      | S k => remove_go old k s'
      | O =>
          if Py.startswith old s
          then remove_go old (String.length old - 1) s'
          else String c (remove_go old 0 s')
      end
  end.

Definition str_remove (old s : string) : string := remove_go old 0 s.

(** [c in chars] *)
Fixpoint char_in (c : ascii) (chars : string) : bool :=
  match chars with
  | EmptyString => false
  | String a chars' => Ascii.eqb a c || char_in c chars'
  end.

(** [all(p(c) for c in s)] *)
Fixpoint all_chars (p : ascii -> bool) (s : string) : bool :=
  match s with
  | EmptyString => true
  | String c s' => p c && all_chars p s'
  end.

Module CalculatorTool.

Definition allowed_chars : string := "0123456789+-*/.() ".

(** [calculate]; [py_eval] is Python's [eval] followed by [str], or the
    message of the exception it raises. *)
Definition calculate (py_eval : string -> Outcome string) (expression : string) : string :=
  let expression := str_remove "import" expression in
  let expression := str_remove "__" expression in
  let expression := str_remove "exec" expression in
  let expression := str_remove "eval" expression in
  if negb (all_chars (fun c => char_in c allowed_chars) expression)
  then "Error: Invalid characters in expression"
  else
    match py_eval expression with
    | Ok result => result
    | Raise e => "Error: " +:+ e
    end.

End CalculatorTool.

Module KnowledgeBaseTool.

Record Entry := {
  definition : string;
  key_concepts : list string;
  examples : list string
}.

(** The dictionary [self.knowledge], in insertion order. *)
Definition knowledge : list (string * Entry) :=
  [ ("multi-agent system",
     {| definition := "A system composed of multiple interacting agents that work together to solve problems";
        key_concepts := ["agents"; "coordination"; "communication"; "distributed problem solving"];
        examples := ["Router pattern"; "Planner-executor pattern"; "Supervisor pattern"] |});
    ("langgraph",
     {| definition := "A library for building stateful, multi-actor applications with LLMs";
        key_concepts := ["state graph"; "nodes"; "edges"; "conditional routing"];
        examples := ["Multi-agent workflows"; "Agentic applications"] |});
    ("langchain",
     {| definition := "A framework for developing applications powered by language models";
        key_concepts := ["chains"; "agents"; "tools"; "memory"; "prompts"];
        examples := ["RAG systems"; "Agent workflows"; "Tool calling"] |}) ].

(** [search] over a dictionary [kb]. *)
Definition search (kb : list (string * Entry)) (q : string) : option Entry :=
  let query_lower := Py.lower q in
  match List.find (fun item => Py.contains (fst item) query_lower ||
                               Py.contains query_lower (fst item)) kb with
  | Some item => Some (snd item)
  | None =>
      match List.find (fun item =>
                         existsb (fun word => Py.contains word (fst item))
                                 (Py.split query_lower)) kb with
      | Some item => Some (snd item)
      | None => None
      end
  end.



End KnowledgeBaseTool.

(** ** The entry point ([main.py]) *)

(** [main]: [argv] is [sys.argv], [typed] the line read from the prompt;
    the result is [None] when the program says goodbye without running the
    workflow.  The store is the one the system loaded when it was built. *)
Definition main (env : Env) (argv : list string) (typed : string)
    : M (option MultiAgentState.t) :=
  let q := if (1 <? length argv)%nat then Py.join " " (List.tl argv) else typed in
  if existsb (String.eqb (Py.lower q)) ["quit"; "exit"; "q"] then ret None
  else
    let! result := process_query env q in
    ret (Some result).

(** * Vocabulary of the statements *)

(** The arguments of one call to [store_interaction], clock included. *)
Record StoreCall := {
  call_now : string;
  call_query : string;
  call_response : string;
  call_agents : list string
}.

Definition entry_of (c : StoreCall) : Interaction :=
  {| timestamp := call_now c; query := call_query c;
     response := Py.slice_to 500 (call_response c); agents := call_agents c |}.

Definition store_call (m : Memory) (c : StoreCall) : Memory :=
  store_interaction (call_now c) (call_query c) (call_response c) (call_agents c) m.

(** A sequence of calls, oldest first. *)
Definition store_all (calls : list StoreCall) (m : Memory) : Memory :=
  foldl store_call m calls.

(** The keys that [_init_memory] creates as lists. *)
Definition predefined_list_keys : list string :=
  ["topics_asked"; "coding_languages"; "study_goals"].

(** The profiles the program builds: the predefined keys hold lists, and
    no other key does. *)
Definition profile_ok (p : gmap string ProfileValue) : Prop :=
  (forall k, k ∈ predefined_list_keys -> exists items, p !! k = Some (PList items)) /\
  (forall k items, p !! k = Some (PList items) -> k ∈ predefined_list_keys).

(** The keyword groups of the fallback routing as the design document lists
    them: an ordered table, scanned from the top, the first group with a
    keyword in the lower-cased query wins. *)
Definition keyword_groups : list (list string * (QueryType * list string)) :=
  [ (["what is"; "explain"; "concept"; "theory"; "how does"], (THEORY, ["theory_explainer"]));
    (["code"; "implement"; "python"; "function"; "debug"; "syntax"], (CODE, ["code_helper"]));
    (["plan"; "schedule"; "learn"; "study"; "steps"], (PLANNING, ["planner"])) ].

Fixpoint first_match (groups : list (list string * (QueryType * list string)))
    (text : string) : QueryType * list string :=
  match groups with
  | [] => (GENERAL, ["theory_explainer"])
  | (keywords, verdict) :: rest =>
      if Py.any_in keywords text then verdict else first_match rest text
  end.

Definition keyword_fallback (q : string) (recent_nonempty : bool) : RoutingDecision.t :=
  let verdict := first_match keyword_groups (Py.lower q) in
  RoutingDecision.mk (fst verdict) (snd verdict) "Fallback routing based on keywords" 1
    recent_nonempty false.

(** The query contains [word] when case is ignored, which is how every
    keyword test of the program reads the query. *)
Definition mentions (word q : string) : Prop := Py.contains word (Py.lower q) = true.

(** The agents whose output the synthesizer found in the state. *)
Definition contributors (state : MultiAgentState.t) : list string :=
  snd (collect_outputs state).

(** An error slot as the stages fill it: empty, or a non-empty text. *)
Definition error_ok (state : MultiAgentState.t) : Prop :=
  forall e, error state = Some e -> Py.truthy e = true.

(** Number of stages still to run from a stage, itself included, at most. *)
Definition rank (n : Node) : nat :=
  match n with
  | router => 4
  | memory_manager => 3
  | theory_explainer | code_helper | planner => 2
  | synthesizer => 1
  end.

(** What holds of the state when a stage is entered: the memory stage is
    only reached through a decision that asks for memory. *)
Definition entry_ok (n : Node) (state : MultiAgentState.t) : Prop :=
  n = memory_manager ->
  exists r, routing_decision state = Some r /\ RoutingDecision.needs_memory r = true.

(** Collaborators for the examples: every chain fails, nothing else does. *)
Definition quiet_env : Env :=
  {| router_chain := fun _ _ => None;
     theory_chain := fun _ _ => None;
     code_chain := fun _ _ => None;
     planner_chain := fun _ _ => None;
     subprocess_run := fun _ => TimeoutExpired;
     now := "2024-01-01T00:00:00";
     fault := fun _ => None |}.

(** The router's chain asks for memory and the theory explainer; the
    synthesizer fails. *)
Definition env_synthesizer_fails : Env :=
  {| router_chain := fun _ _ =>
       Some (RoutingDecision.mk THEORY ["theory_explainer"] "concept question" 1 true false);
     theory_chain := fun _ _ => None;
     code_chain := fun _ _ => None;
     planner_chain := fun _ _ => None;
     subprocess_run := fun _ => TimeoutExpired;
     now := "2024-01-01T00:00:00";
     fault := fun n => match n with synthesizer => Some "boom" | _ => None end |}.

(** The shape of a [MemoryUpdate] produced by a retrieval. *)
Definition retrieve_shaped (mu : MemoryUpdate.t) : Prop :=
  MemoryUpdate.action mu = "retrieve" /\
  MemoryUpdate.key mu = "session_context" /\
  MemoryUpdate.value mu = None.

Definition remember_query : string := "remember that I like Go".

(** The call the code helper makes to the snippet runner, if it makes one:
    the example must be non-empty and mention "print" in any case. *)
Definition sandbox_run (env : Env) (example : option string) : option ExecResult :=
  match example with
  | Some code =>
      if Py.truthy code && Py.contains "print" (Py.lower code)
      then Some (execute_python env code) else None
  | None => None
  end.

(** The code chain answers with an example that prints nothing. *)
Definition env_example_without_print : Env :=
  {| router_chain := fun _ _ => None;
     theory_chain := fun _ _ => None;
     code_chain := fun q _ =>
       Some (CodeHelp.mk q "Assign the value" (Some "x = 1") "Bind the name x." [] []);
     planner_chain := fun _ _ => None;
     subprocess_run := fun _ => Completed 0 "" "";
     now := "2024-01-01T00:00:00";
     fault := fun _ => None |}.

(** The router's chain classifies the query as a memory request for the
    memory manager and asks for memory; nothing fails. *)
Definition env_router_to_memory : Env :=
  {| router_chain := fun _ _ =>
       Some (RoutingDecision.mk MEMORY ["memory_manager"] "asks to remember" 1 true false);
     theory_chain := fun _ _ => None;
     code_chain := fun _ _ => None;
     planner_chain := fun _ _ => None;
     subprocess_run := fun _ => TimeoutExpired;
     now := "2024-01-01T00:00:00";
     fault := fun _ => None |}.

(** Twenty-one calls to [store_interaction], numbered from 1. *)
Definition sample_calls : list StoreCall :=
  List.map
    (fun i => {| call_now := "2024-01-01T00:00:00"; call_query := Py.str_nat i;
                 call_response := "ok"; call_agents := ["router"] |})
    (List.seq 1 21).

(** Text made only of digits, arithmetic signs, dots, parentheses and
    blanks: what the calculator lets through. *)
Definition arithmetic_only (s : string) : bool :=
  all_chars (fun c => char_in c CalculatorTool.allowed_chars) s.

(** The query [main] works on. *)
Definition main_query (argv : list string) (typed : string) : string :=
  if (1 <? length argv)%nat then Py.join " " (List.tl argv) else typed.

(** The text a stage puts before the message of the exception it caught. *)
Definition error_prefix (n : Node) : string :=
  match n with
  | router => "Router error: "
  | memory_manager => "Memory error: "
  | theory_explainer => "Theory explainer error: "
  | code_helper => "Code helper error: "
  | planner => "Planner error: "
  | synthesizer => "Synthesizer error: "
  end.

(** The name a stage adds to [agents_involved]. *)
Definition agent_name (n : Node) : string :=
  match n with
  | router => "router"
  | memory_manager => "memory_manager"
  | theory_explainer => "theory_explainer"
  | code_helper => "code_helper"
  | planner => "planner"
  | synthesizer => "synthesizer"
  end.

(** The error of the last stage, among those run, that failed. *)
Definition last_fault (env : Env) (visited : list Node) : option string :=
  foldl (fun acc n =>
           match fault env n with
           | Some e => Some (error_prefix n +:+ e)
           | None => acc
           end) None visited.

(** The specialist a list of target agents designates, if any: only its
    first name counts. *)
Definition specialist_of (targets : list string) : list Node :=
  match branch memory_branches (first_target targets) with
  | Some synthesizer => []
  | Some n => [n]
  | None => []
  end.

Definition memory_hop (r : RoutingDecision.t) : list Node :=
  if RoutingDecision.needs_memory r then [memory_manager] else [].

(** The stages a routing decision leads through. *)
Definition path_of (r : RoutingDecision.t) : list Node :=
  router :: memory_hop r ++ specialist_of (RoutingDecision.target_agents r) ++ [synthesizer].

(** The stages run before a stage is entered, under a routing decision. *)
Definition stages_before (n : Node) (r : RoutingDecision.t) : list Node :=
  match n with
  | router => []
  | memory_manager => [router]
  | theory_explainer | code_helper | planner => router :: memory_hop r
  | synthesizer => router :: memory_hop r ++ specialist_of (RoutingDecision.target_agents r)
  end.

(** The decision the router stage leaves in the state of a run on query
    [q] from store [m]: what [route_query] returns, or the fixed fallback
    when the stage itself failed. *)
Definition router_decided (env : Env) (q : string) (m : Memory)
    (r : RoutingDecision.t) : Prop :=
  match fault env router with
  | Some _ => r = RoutingDecision.mk GENERAL ["theory_explainer"] "Fallback routing" 1 false false
  | None => route_query env q m = (Ok r, m)
  end.

(** A stage that has just run and did not fail. *)
Definition fresh (env : Env) (n k : Node) : Prop := n = k /\ fault env n = None.

(** The result field of a stage is filled in. *)
Definition populated (k : Node) (state : MultiAgentState.t) : Prop :=
  match k with
  | theory_explainer => is_Some (theory_explanation state)
  | code_helper => is_Some (code_help state)
  | planner => is_Some (study_plan state)
  | memory_manager => is_Some (memory_update state)
  | router | synthesizer => False
  end.

(** What the lists and result fields of a state record about the stages
    run so far. *)
Definition bookkeeping (env : Env) (state : MultiAgentState.t) (visited : list Node) : Prop :=
  (forall x, x ∈ agents_involved state <->
     exists k, k ∈ visited /\ fault env k = None /\ agent_name k = x) /\
  (forall k, populated k state <-> k ∈ visited /\ k <> router /\ fault env k = None) /\
  ("code_executor" ∈ tools_used state <->
     exists ch, code_help state = Some ch /\
                Py.truthy_opt (CodeHelp.code_example ch) = true) /\
  ("schedule_tool" ∈ tools_used state <-> is_Some (study_plan state)) /\
  (forall x, x ∈ tools_used state -> x = "code_executor" \/ x = "schedule_tool").

(** No two stages of the list have the same rank. *)
Definition distinct_ranks (visited : list Node) : Prop :=
  forall a b, a ∈ visited -> b ∈ visited -> rank a = rank b -> a = b.

(** The router stage fails; every chain fails too. *)
Definition env_router_fails : Env :=
  {| router_chain := fun _ _ => None;
     theory_chain := fun _ _ => None;
     code_chain := fun _ _ => None;
     planner_chain := fun _ _ => None;
     subprocess_run := fun _ => TimeoutExpired;
     now := "2024-01-01T00:00:00";
     fault := fun n => match n with router => Some "boom" | _ => None end |}.

(** The code chain answers with an example that prints, and the snippet
    runs to completion. *)
Definition env_example_prints : Env :=
  {| router_chain := fun _ _ => None;
     theory_chain := fun _ _ => None;
     code_chain := fun q _ =>
       Some (CodeHelp.mk q "Call print" (Some "print(6 * 7)") "Use print." [] []);
     planner_chain := fun _ _ => None;
     subprocess_run := fun _ => Completed 0 "42" "";
     now := "2024-01-01T00:00:00";
     fault := fun _ => None |}.

(** An evaluator that knows one sum. *)
Definition eval_two_plus_two (s : string) : Outcome string :=
  if String.eqb s "2 + 2" then Ok "4" else Raise "invalid syntax".

(** A history of one exchange. *)
Definition one_exchange : Memory :=
  store_interaction "2024-01-01T00:00:00" "What is Recursion?"
    "A function that calls itself." ["router"; "theory_explainer"] _init_memory.

(** The stage has left output in the state: its result field is filled in
    and, for the memory stage, carries a non-empty retrieved context.  The
    router and the synthesizer leave no output of their own. *)
Definition has_output (state : MultiAgentState.t) (k : Node) : bool :=
  match k with
  | theory_explainer =>
      match theory_explanation state with Some _ => true | None => false end
  | code_helper => match code_help state with Some _ => true | None => false end
  | planner => match study_plan state with Some _ => true | None => false end
  | memory_manager =>
      match memory_update state with
      | Some mu => Py.truthy_opt (MemoryUpdate.retrieved_context mu)
      | None => false
      end
  | router | synthesizer => false
  end.

(** The agents that contributed to the answer: those with output in the
    state. *)
Definition contributed (state : MultiAgentState.t) : list Node :=
  List.filter (has_output state) [theory_explainer; code_helper; planner; memory_manager].

(** A memory update in the state carries a non-empty retrieved context. *)
Definition context_retrieved (state : MultiAgentState.t) : Prop :=
  forall mu, memory_update state = Some mu ->
    Py.truthy_opt (MemoryUpdate.retrieved_context mu) = true.


(** Tactics that open a stage: unfold it down to the monad, then split on
    what it branches on. *)

Ltac unfold_stage :=
  unfold node_fn, router_node, memory_manager_node, theory_explainer_node,
    code_helper_node, planner_node, synthesizer_node, route_query, explain,
    help_with_code, create_plan, check_fault, try_except, bind, modify_store,
    read_store, ret, raise in *;
  cbv beta iota zeta in *.

Ltac split_stage H :=
  repeat match type of H with
    | (let '(_, _) := ?x in _) _ = _ => destruct x eqn:?
    | context [match ?x with _ => _ end] =>
        lazymatch x with
        | context [match _ with _ => _ end] => fail
        | _ => destruct x eqn:?
        end
    | context [if ?x then _ else _] =>
        lazymatch x with
        | context [if _ then _ else _] => fail
        | _ => destruct x eqn:?
        end
    end.

(** Opens a stage down to its calls to the agents, which stay folded. *)
Ltac open_stage :=
  unfold node_fn, router_node, memory_manager_node, theory_explainer_node,
    code_helper_node, planner_node, synthesizer_node, check_fault, try_except, bind,
    modify_store, read_store, ret, raise in *;
  cbv beta iota zeta in *.

(** * Properties *)

(** ** The session store *)

Section Store.

Implicit Types (m : Memory) (h : list Interaction).

Lemma last_n_short {A} n (l : list A) : length l <= n -> Py.last_n n l = l.
Proof.
  intros Hle. destruct n as [|n]; [done|]. unfold Py.last_n.
  replace (length l - S n) with 0 by lia. done.
Qed.

Lemma last_n_length {A} n (l : list A) :
  0 < n -> length (Py.last_n n l) = length l `min` n.
Proof.
  intros Hn. destruct n as [|n]; [lia|]. unfold Py.last_n.
  rewrite length_drop. lia.
Qed.

Lemma last_n_app {A} n (l l' : list A) :
  0 < n -> Py.last_n n (Py.last_n n l ++ l') = Py.last_n n (l ++ l').
Proof.
  intros Hn. destruct n as [|n]; [lia|].
  destruct (decide (length l <= S n)) as [Hle|Hgt].
  - by rewrite (last_n_short (S n) l).
  - unfold Py.last_n. rewrite !length_app, length_drop.
    replace (length l - (length l - S n) + length l' - S n) with (length l') by lia.
    replace (length l + length l' - S n) with ((length l - S n) + length l') by lia.
    rewrite <- drop_drop. f_equal.
    rewrite drop_app_le by lia. done.
Qed.

Lemma store_interaction_history now q resp ags m :
  session_history (store_interaction now q resp ags m) =
  Py.last_n 20 (session_history m ++
                  [ {| timestamp := now; query := q;
                       response := Py.slice_to 500 resp; agents := ags |} ]).
Proof.
  unfold store_interaction. cbn [session_history].
  destruct (20 <? _)%nat eqn:E; [done|].
  apply Nat.ltb_ge in E. by rewrite last_n_short.
Qed.

Lemma store_all_snoc calls c m :
  store_all (calls ++ [c]) m = store_call (store_all calls m) c.
Proof. unfold store_all. by rewrite foldl_app. Qed.

Lemma store_all_history calls m :
  calls <> [] ->
  session_history (store_all calls m) =
  Py.last_n 20 (session_history m ++ List.map entry_of calls).
Proof.
  induction calls as [|c calls IH] using rev_ind; [done|]. intros _.
  rewrite store_all_snoc. unfold store_call. rewrite store_interaction_history.
  fold (entry_of c). rewrite List.map_app. cbn [List.map].
  destruct calls as [|c0 calls].
  - reflexivity.
  - rewrite IH by done. rewrite last_n_app by lia. by rewrite app_assoc.
Qed.

Lemma store_all_profile calls m :
  user_profile (store_all calls m) = user_profile m.
Proof.
  induction calls as [|c calls IH] using rev_ind; [done|].
  rewrite store_all_snoc. exact IH.
Qed.

Lemma init_profile_lookup k :
  k ∈ predefined_list_keys -> user_profile _init_memory !! k = Some (PList []).
Proof.
  unfold predefined_list_keys. rewrite !elem_of_cons, elem_of_nil.
  intros [->|[->|[->|[]]]]; reflexivity.
Qed.

Lemma init_profile_ok : profile_ok (user_profile _init_memory).
Proof.
  split.
  - intros k Hk. exists []. by apply init_profile_lookup.
  - intros k items. unfold _init_memory. cbn [user_profile].
    unfold predefined_list_keys. rewrite !elem_of_cons.
    rewrite !lookup_insert. repeat case_decide; subst; auto.
    rewrite lookup_empty. done.
Qed.

Lemma update_user_profile_history key value m :
  session_history (update_user_profile key value m) = session_history m.
Proof. done. Qed.

Lemma update_user_profile_other key key' value m :
  key <> key' ->
  user_profile (update_user_profile key value m) !! key' = user_profile m !! key'.
Proof.
  intros Hne. unfold update_user_profile. cbn [user_profile].
  destruct (user_profile m !! key) as [[items|v]|]; try case_bool_decide;
    by rewrite ?lookup_insert_ne.
Qed.

Lemma update_user_profile_list key value m items :
  user_profile m !! key = Some (PList items) ->
  user_profile (update_user_profile key value m) !! key =
  Some (PList (if bool_decide (value ∈ items) then items else items ++ [value])).
Proof.
  intros Hk. unfold update_user_profile. cbn [user_profile]. rewrite Hk.
  case_bool_decide; [done|]. by rewrite lookup_insert_eq.
Qed.

Lemma update_user_profile_scalar key value m :
  (forall items, user_profile m !! key <> Some (PList items)) ->
  user_profile (update_user_profile key value m) !! key = Some (PScalar value).
Proof.
  intros Hk. unfold update_user_profile. cbn [user_profile].
  destruct (user_profile m !! key) as [[items|v]|] eqn:E.
  - by destruct (Hk items).
  - by rewrite lookup_insert_eq.
  - by rewrite lookup_insert_eq.
Qed.

Lemma update_user_profile_ok key value m :
  profile_ok (user_profile m) -> profile_ok (user_profile (update_user_profile key value m)).
Proof.
  intros [Hlists Honly]. split.
  - intros k Hk. destruct (Hlists k Hk) as [items Hitems].
    destruct (decide (key = k)) as [->|Hne].
    + eexists. by apply update_user_profile_list.
    + exists items. by rewrite update_user_profile_other.
  - intros k items Hk. destruct (decide (key = k)) as [->|Hne].
    + destruct (user_profile m !! k) as [[items0|v]|] eqn:E.
      * by eapply Honly.
      * rewrite update_user_profile_scalar in Hk; [done|]. intros ?. by rewrite E.
      * rewrite update_user_profile_scalar in Hk; [done|]. intros ?. by rewrite E.
    + rewrite update_user_profile_other in Hk by done. by eapply Honly.
Qed.

Lemma update_user_profile_present key value m items :
  user_profile m !! key = Some (PList items) -> value ∈ items ->
  update_user_profile key value m = m.
Proof.
  intros Hk Hin. unfold update_user_profile. rewrite Hk.
  rewrite bool_decide_eq_true_2 by done. by destruct m.
Qed.

End Store.

(** C5.  Whatever the store held before, once [store_interaction] has been
    called at least once the history is the last 20 entries of the old
    history followed by the new entries, in insertion order, and has at most
    20 entries; after more than 20 calls it has exactly 20 entries, the 20
    most recent ones; a call on a full history of 20 drops its oldest entry
    and appends the new one; so the 21st call on a fresh store evicts the
    1st entry. *)
Theorem history_keeps_last_20 (m : Memory) (calls : list StoreCall) :
  let h := session_history (store_all calls m) in
  (calls <> [] ->
     h = Py.last_n 20 (session_history m ++ List.map entry_of calls) /\ length h <= 20) /\
  (20 < length calls ->
     length h = 20 /\ h = drop (length calls - 20) (List.map entry_of calls)) /\
  (forall c, length (session_history m) = 20 ->
     session_history (store_call m c) = drop 1 (session_history m) ++ [entry_of c]) /\
  (session_history m = [] -> length calls = 21 ->
     h = drop 1 (List.map entry_of calls)).
Proof.
  cbn zeta.
  assert (Hlong : 20 < length calls ->
            session_history (store_all calls m) =
            drop (length calls - 20) (List.map entry_of calls)).
  { intros Hlen. rewrite store_all_history by (intros ->; cbn in Hlen; lia).
    unfold Py.last_n. rewrite length_app, length_map.
    rewrite drop_app_ge by lia. f_equal. lia. }
  split; [|split; [|split]].
  - intros Hne. split; [by apply store_all_history|].
    rewrite store_all_history by done.
    rewrite last_n_length by lia. lia.
  - intros Hlen. split; [|by apply Hlong].
    rewrite (Hlong Hlen). rewrite length_drop, length_map. lia.
  - intros c Hlen. unfold store_call. rewrite store_interaction_history.
    fold (entry_of c). unfold Py.last_n. rewrite length_app, Hlen. cbn [length].
    rewrite drop_app_le by lia. done.
  - intros Hempty Hlen. rewrite Hlong by lia. by rewrite Hlen.
Qed.

(** C9.  Starting from the empty profile, two calls of
    [update_user_profile] with the same value leave exactly one copy, for
    ["topics_asked"] and for each of the three predefined keys; and in any
    store a call with a value that the list under the key already holds
    changes nothing. *)
Theorem profile_lists_deduplicated (X : string) :
  user_profile (update_user_profile "topics_asked" X
                  (update_user_profile "topics_asked" X _init_memory))
    !! "topics_asked" = Some (PList [X]) /\
  (forall key, key ∈ predefined_list_keys ->
     user_profile (update_user_profile key X (update_user_profile key X _init_memory))
       !! key = Some (PList [X])) /\
  (forall m key items,
     user_profile m !! key = Some (PList items) -> X ∈ items ->
     update_user_profile key X m = m).
Proof.
  assert (Hkeys : forall key, key ∈ predefined_list_keys ->
     user_profile (update_user_profile key X (update_user_profile key X _init_memory))
       !! key = Some (PList [X])).
  { intros key Hkey.
    pose proof (update_user_profile_list key X _init_memory [] (init_profile_lookup key Hkey))
      as Hfirst.
    rewrite bool_decide_eq_false_2 in Hfirst by apply not_elem_of_nil.
    rewrite (update_user_profile_list key X _ _ Hfirst).
    rewrite bool_decide_eq_true_2; [done|]. cbn. apply elem_of_cons. by left. }
  split; [|split].
  - apply Hkeys. unfold predefined_list_keys. apply elem_of_cons. by left.
  - exact Hkeys.
  - intros m key items. apply update_user_profile_present.
Qed.

(** C10.  In a profile as the program builds it (lists under the three
    predefined keys only), [update_user_profile] on any other key, such as
    ["user_preferences"], stores the value itself, and a second call
    replaces it; the profile keeps its shape; under a predefined key the
    value is appended to the list unless it is already there. *)
Theorem other_keys_last_write_wins (m : Memory) (key v1 v2 : string) :
  profile_ok (user_profile m) ->
  key ∉ predefined_list_keys ->
  user_profile (update_user_profile key v1 m) !! key = Some (PScalar v1) /\
  user_profile (update_user_profile key v2 (update_user_profile key v1 m)) !! key
    = Some (PScalar v2) /\
  profile_ok (user_profile (update_user_profile key v2 (update_user_profile key v1 m))) /\
  ("user_preferences" ∉ predefined_list_keys) /\
  (forall k, k ∈ predefined_list_keys ->
     exists items,
       user_profile m !! k = Some (PList items) /\
       user_profile (update_user_profile k v1 m) !! k =
       Some (PList (if bool_decide (v1 ∈ items) then items else items ++ [v1]))).
Proof.
  intros Hok Hkey.
  assert (Hscalar : forall m', profile_ok (user_profile m') ->
            forall items, user_profile m' !! key <> Some (PList items)).
  { intros m' [_ Honly] items Hl. apply Hkey. by eapply Honly. }
  split; [|split; [|split; [|split]]].
  - apply update_user_profile_scalar. by apply Hscalar.
  - apply update_user_profile_scalar. apply Hscalar. by apply update_user_profile_ok.
  - apply update_user_profile_ok, update_user_profile_ok, Hok.
  - unfold predefined_list_keys. rewrite !elem_of_cons, elem_of_nil.
    intros [?|[?|[?|[]]]]; discriminate.
  - intros k Hk. destruct Hok as [Hlists _]. destruct (Hlists k Hk) as [items Hitems].
    exists items. split; [done|]. by apply update_user_profile_list.
Qed.

(** ** Strings *)

Section Strings.

Lemma startswith_lower p s :
  Py.startswith p s = true -> Py.startswith (Py.lower p) (Py.lower s) = true.
Proof.
  revert s. induction p as [|a p IH]; intros [|b s]; cbn; try done.
  destruct (Ascii.eqb a b) eqn:E; [|done].
  apply Ascii.eqb_eq in E as ->. rewrite Ascii.eqb_refl. apply IH.
Qed.

Lemma contains_lower word s :
  Py.contains word s = true -> Py.contains (Py.lower word) (Py.lower s) = true.
Proof.
  induction s as [|b s IH]; cbn [Py.contains Py.lower]; intros H.
  - apply orb_true_iff in H as [H|H]; [|done].
    apply startswith_lower in H. cbn in H. by rewrite H.
  - apply orb_true_iff in H as [H|H].
    + apply startswith_lower in H. cbn [Py.lower] in H. by rewrite H.
    + rewrite (IH H). apply orb_true_r.
Qed.

(** A lower-case word found in the query as typed is found when case is
    ignored. *)
Lemma contains_mentions word q :
  Py.lower word = word -> Py.contains word q = true -> mentions word q.
Proof. intros Hw H. unfold mentions. rewrite <- Hw. by apply contains_lower. Qed.

Lemma any_in_elem words word s :
  word ∈ words -> Py.contains word s = true -> Py.any_in words s = true.
Proof.
  intros Hin H. unfold Py.any_in. apply existsb_exists.
  exists word. split; [by apply list_elem_of_In|done].
Qed.

Lemma truthy_nonempty s : Py.truthy s = true <-> s <> "".
Proof.
  unfold Py.truthy. rewrite negb_true_iff. split.
  - intros H ->. done.
  - intros H. by apply String.eqb_neq.
Qed.

Lemma truthy_append_l a b : Py.truthy a = true -> Py.truthy (a +:+ b) = true.
Proof. by destruct a. Qed.

(** A text whose first section starts with a heading mark is not the
    answer used when no stage produced anything. *)
Lemma concat_heading_not_fallback p parts :
  Py.startswith "#" p = true -> String.concat "" (p :: parts) <> no_specialist_answer.
Proof.
  destruct p as [|c p]; [done|]. cbn [Py.startswith].
  destruct (Ascii.eqb "#" c) eqn:E; [|done]. apply Ascii.eqb_eq in E as <-. intros _.
  destruct parts; cbn; discriminate.
Qed.

End Strings.

(** ** Router *)

(** C2.  When the router's chain fails, [route_query] returns, without
    touching the store, the decision given by the ordered keyword table
    (theory, then code, then planning, else general with the theory
    explainer), so that a query with both "explain" and "python" goes to
    theory; [needs_memory] holds exactly when the recent context is not
    empty, and [needs_tools] is false. *)
Theorem router_fallback_is_keyword_function (env : Env) (q : string) (m : Memory) :
  router_chain env q (retrieve_recent_context 2 m) = None ->
  exists d,
    route_query env q m = (Ok d, m) /\
    d = keyword_fallback q (bool_decide (retrieve_recent_context 2 m <> [])) /\
    (RoutingDecision.needs_memory d = true <-> retrieve_recent_context 2 m <> []) /\
    RoutingDecision.needs_tools d = false /\
    (mentions "explain" q -> mentions "python" q ->
       RoutingDecision.query_type d = THEORY /\
       RoutingDecision.target_agents d = ["theory_explainer"]) /\
    (Py.contains "explain" q = true -> Py.contains "python" q = true ->
       RoutingDecision.query_type d = THEORY /\
       RoutingDecision.target_agents d = ["theory_explainer"]) /\
    (Py.any_in theory_keywords (Py.lower q) = true ->
       RoutingDecision.query_type d = THEORY /\
       RoutingDecision.target_agents d = ["theory_explainer"]) /\
    (Py.any_in theory_keywords (Py.lower q) = false ->
     Py.any_in code_keywords (Py.lower q) = true ->
       RoutingDecision.query_type d = CODE /\
       RoutingDecision.target_agents d = ["code_helper"]) /\
    (Py.any_in theory_keywords (Py.lower q) = false ->
     Py.any_in code_keywords (Py.lower q) = false ->
     Py.any_in planning_keywords (Py.lower q) = true ->
       RoutingDecision.query_type d = PLANNING /\
       RoutingDecision.target_agents d = ["planner"]) /\
    (Py.any_in theory_keywords (Py.lower q) = false ->
     Py.any_in code_keywords (Py.lower q) = false ->
     Py.any_in planning_keywords (Py.lower q) = false ->
       RoutingDecision.query_type d = GENERAL /\
       RoutingDecision.target_agents d = ["theory_explainer"]).
Proof.
  intros Hfail. unfold route_query, bind, read_store. rewrite Hfail.
  assert (Hexplain : mentions "explain" q -> Py.any_in theory_keywords (Py.lower q) = true).
  { intros H. eapply any_in_elem; [|exact H].
    unfold theory_keywords. rewrite !elem_of_cons. auto. }
  unfold keyword_fallback, keyword_groups, first_match.
  fold theory_keywords code_keywords planning_keywords.
  destruct (retrieve_recent_context 2 m) as [|i recent] eqn:Hrecent.
  - rewrite bool_decide_eq_false_2 by (intros H; by apply H).
    destruct (Py.any_in theory_keywords (Py.lower q)) eqn:Ht;
    destruct (Py.any_in code_keywords (Py.lower q)) eqn:Hc;
    destruct (Py.any_in planning_keywords (Py.lower q)) eqn:Hp;
    cbn; eexists; (split; [reflexivity|]); (split; [reflexivity|]);
    (split; [split; [discriminate|intros H; by destruct H]|]);
    (split; [reflexivity|]);
    repeat split; try done; intros; try discriminate;
    try (by (pose proof (Hexplain ltac:(assumption)); discriminate));
    try (by (pose proof (Hexplain (contains_mentions "explain" q eq_refl ltac:(assumption)));
             discriminate)).
  - rewrite bool_decide_eq_true_2 by done.
    destruct (Py.any_in theory_keywords (Py.lower q)) eqn:Ht;
    destruct (Py.any_in code_keywords (Py.lower q)) eqn:Hc;
    destruct (Py.any_in planning_keywords (Py.lower q)) eqn:Hp;
    cbn; eexists; (split; [reflexivity|]); (split; [reflexivity|]);
    (split; [split; [done|reflexivity]|]);
    (split; [reflexivity|]);
    repeat split; try done; intros; try discriminate;
    try (by (pose proof (Hexplain ltac:(assumption)); discriminate));
    try (by (pose proof (Hexplain (contains_mentions "explain" q eq_refl ltac:(assumption)));
             discriminate)).
Qed.

(** ** Stages *)

Section Stages.

Variable env : Env.

Lemma manage_memory_ok attached q action m :
  exists mu, manage_memory attached q action m = (Ok mu, m).
Proof.
  unfold manage_memory, bind, read_store, ret.
  destruct (negb attached); [eauto|].
  repeat match goal with
    | |- context [if ?x then _ else _] => destruct x
    end; eauto.
Qed.

Lemma fold_left_truthy {A} (f : A -> string) (l : list A) (acc : string) :
  Py.truthy acc = true ->
  Py.truthy (fold_left (fun acc x => acc +:+ f x) l acc) = true.
Proof.
  revert acc. induction l as [|x l IH]; intros acc Hacc; [done|].
  cbn [fold_left]. apply IH. by apply truthy_append_l.
Qed.

(** A retrieval always yields some text, be it only the note that there is
    no previous context. *)
Lemma manage_memory_retrieve q m :
  exists ctx,
    manage_memory true q "retrieve" m =
    (Ok (MemoryUpdate.mk "retrieve" "session_context" None (Some ctx)
           "Retrieved recent session history and related discussions"), m) /\
    Py.truthy ctx = true.
Proof.
  unfold manage_memory, bind, read_store, ret.
  cbn [negb String.eqb Ascii.eqb Bool.eqb].
  eexists. split; [reflexivity|].
  assert (Hbase : Py.truthy
            match List.map (fun ctx => "Q: " +:+ query ctx +:+ Py.nl +:+ "A: " +:+
                                       Py.slice_to 200 (response ctx))
                    (retrieve_recent_context 3 m) with
            | [] => "No previous context found"
            | _ :: _ => Py.join Py.nl
                 (List.map (fun ctx => "Q: " +:+ query ctx +:+ Py.nl +:+ "A: " +:+
                                       Py.slice_to 200 (response ctx))
                    (retrieve_recent_context 3 m))
            end = true).
  { destruct (retrieve_recent_context 3 m) as [|i [|i' recent]]; reflexivity. }
  destruct (List.flat_map _ _) as [|r results]; [exact Hbase|].
  apply (fold_left_truthy (fun result => "- " +:+ Py.slice_to 100 (query result) +:+ Py.nl)).
  by apply truthy_append_l.
Qed.

(** With the action left to the agent, a query that asks to remember
    something is stored under ["user_preference"] with the query as value. *)
Lemma manage_memory_auto_store q m :
  Py.any_in ["remember"; "store"; "save"] (Py.lower q) = true ->
  manage_memory true q "auto" m =
  (Ok (MemoryUpdate.mk "store" "user_preference" (Some q) None
         "Storing user preference or information"), m).
Proof. intros H. unfold manage_memory, ret. cbn -[Py.any_in]. by rewrite H. Qed.

(** What the code helper returns: the produced help, with the output of the
    snippet runner appended to the explanation when it was called and
    succeeded; the canned help, without an example, when the chain fails. *)
Lemma help_with_code_result q context m :
  exists ch,
    help_with_code env q context m = (Ok ch, m) /\
    match code_chain env q context with
    | Some produced =>
        CodeHelp.code_example ch = CodeHelp.code_example produced /\
        CodeHelp.explanation ch =
          match sandbox_run env (CodeHelp.code_example produced) with
          | Some exec_result =>
              if success exec_result
              then CodeHelp.explanation produced +:+ Py.nl +:+ Py.nl +:+
                     "Execution result: " +:+ output exec_result
              else CodeHelp.explanation produced
          | None => CodeHelp.explanation produced
          end
    | None => CodeHelp.code_example ch = None
    end.
Proof.
  unfold help_with_code, sandbox_run, ret.
  destruct (code_chain env q context) as [produced|]; [|eauto].
  destruct (CodeHelp.code_example produced) as [code|] eqn:Ecode; [|eauto].
  destruct (Py.truthy code && Py.contains "print" (Py.lower code)); [|eauto].
  destruct (success (execute_python env code)); eauto.
Qed.

(** Every stage catches what is raised inside it. *)
Lemma node_fn_ok n state m :
  exists returned m', node_fn env n state m = (Ok returned, m').
Proof.
  destruct n; unfold_stage.
  - destruct (fault env router); [eauto|].
    destruct (router_chain _ _ _); [eauto|].
    repeat match goal with
      | |- context [if ?x then _ else _] => destruct x
      end; eauto.
  - destruct (fault env memory_manager); [eauto|].
    destruct (manage_memory_ok true (user_query state)
                match routing_decision state with
                | Some r => if RoutingDecision.needs_memory r then "retrieve" else "auto"
                | None => "auto"
                end m) as [mu ->].
    destruct (MemoryUpdate.value mu); [|eauto].
    destruct (_ && _); eauto.
  - destruct (fault env theory_explainer); [eauto|].
    destruct (theory_chain _ _ _); eauto.
  - destruct (fault env code_helper); [eauto|].
    destruct (code_chain _ _ _) as [ch|].
    + destruct (CodeHelp.code_example ch) as [code|].
      * destruct (_ && _); [destruct (success _)|];
          destruct (Py.contains "python" _); eauto.
      * destruct (Py.contains "python" _); eauto.
    + destruct (Py.contains "python" _); eauto.
  - destruct (fault env planner); [eauto|].
    destruct (planner_chain _ _ _); eauto.
  - destruct (fault env synthesizer); [eauto|].
    destruct (collect_outputs state). eauto.
Qed.

End Stages.

(** ** The graph *)

Section Graph.

Variable env : Env.

Lemma first_target_cases targets :
  first_target targets = "theory_explainer" \/ first_target targets = "code_helper" \/
  first_target targets = "planner" \/ first_target targets = "synthesizer".
Proof.
  unfold first_target. destruct targets as [|agent ?]; [auto|].
  repeat match goal with
    | |- context [if ?x then _ else _] => destruct x
    end; auto.
Qed.

(** Every branch name a routing function returns is in its table, and each
    edge leads to a stage of lower rank. *)
Lemma next_node_ok n state :
  exists o, next_node n state = inl o /\
    match o with
    | Some n' => rank n' < rank n
    | None => n = synthesizer
    end.
Proof.
  destruct n; cbn [next_node]; try (eexists; split; [reflexivity|cbn; lia || done]).
  - unfold route_after_router.
    destruct (routing_decision state) as [r|]; [|eexists; split; [reflexivity|cbn; lia]].
    destruct (RoutingDecision.needs_memory r); [eexists; split; [reflexivity|cbn; lia]|].
    destruct (first_target_cases (RoutingDecision.target_agents r)) as [->|[->|[->| ->]]];
      eexists; (split; [reflexivity|cbn; lia]).
  - unfold route_after_memory.
    destruct (routing_decision state) as [r|]; [|eexists; split; [reflexivity|cbn; lia]].
    destruct (first_target_cases (RoutingDecision.target_agents r)) as [->|[->|[->| ->]]];
      eexists; (split; [reflexivity|cbn; lia]).
Qed.

(** The memory stage is entered only on a decision that asks for memory. *)
Lemma next_node_memory n state :
  next_node n state = inl (Some memory_manager) ->
  n = router /\
  exists r, routing_decision state = Some r /\ RoutingDecision.needs_memory r = true.
Proof.
  destruct n; cbn [next_node]; try discriminate.
  - unfold route_after_router.
    destruct (routing_decision state) as [r|]; [|discriminate].
    destruct (RoutingDecision.needs_memory r) eqn:E; [eauto|].
    destruct (first_target_cases (RoutingDecision.target_agents r)) as [->|[->|[->| ->]]];
      discriminate.
  - unfold route_after_memory.
    destruct (routing_decision state) as [r|]; [|discriminate].
    destruct (first_target_cases (RoutingDecision.target_agents r)) as [->|[->|[->| ->]]];
      discriminate.
Qed.

(** The run ends within the step bound whenever the bound covers the rank
    of the stage it starts from. *)
Lemma run_from_total limit n state visited m :
  rank n <= limit ->
  exists state' visited' m',
    run_from env limit n state visited m = (Ok (state', visited'), m').
Proof.
  revert n state visited m. induction limit as [|limit IH]; intros n state visited m Hrank.
  - destruct n; cbn in Hrank; lia.
  - cbn [run_from]. unfold bind at 1.
    destruct (node_fn_ok env n state m) as (returned & m1 & ->).
    destruct (next_node_ok n (apply_update state returned)) as (o & -> & Ho).
    destruct o as [n'|]; [|unfold ret; eauto].
    apply IH. lia.
Qed.

(** Invariant rule for runs: a property of (stage about to run, state,
    store, stages run) that every stage carries along its outgoing edge
    holds, in its final form, when the run ends. *)
Lemma run_from_post
    (P : Node -> MultiAgentState.t -> Memory -> list Node -> Prop)
    (Q : MultiAgentState.t -> Memory -> list Node -> Prop) :
  (forall n state m visited returned m',
     P n state m visited ->
     entry_ok n state ->
     node_fn env n state m = (Ok returned, m') ->
     match next_node n (apply_update state returned) with
     | inl (Some n') => P n' (apply_update state returned) m' (visited ++ [n])
     | inl None => Q (apply_update state returned) m' (visited ++ [n])
     | inr _ => True
     end) ->
  forall limit n state visited m state' visited' m',
    P n state m visited ->
    entry_ok n state ->
    run_from env limit n state visited m = (Ok (state', visited'), m') ->
    Q state' m' visited'.
Proof.
  intros Hstep. induction limit as [|limit IH];
    intros n state visited m state' visited' m' HP Hentry Hrun.
  - discriminate.
  - cbn [run_from] in Hrun. unfold bind at 1 in Hrun.
    destruct (node_fn env n state m) as [[returned|msg] m1] eqn:Hnode; [|discriminate].
    specialize (Hstep n state m visited returned m1 HP Hentry Hnode).
    destruct (next_node n (apply_update state returned)) as [[n'|]|name] eqn:Hnext;
      [| |discriminate].
    + refine (IH _ _ _ _ _ _ _ Hstep _ Hrun).
      intros ->. by apply next_node_memory in Hnext as [_ ?].
    + unfold ret in Hrun. by simplify_eq.
Qed.

Lemma entry_ok_router state : entry_ok router state.
Proof. intros ?. discriminate. Qed.

Lemma process_query_ainvoke q m state m' :
  process_query env q m = (Ok state, m') <->
  exists visited, ainvoke env (initial_state q) m = (Ok (state, visited), m').
Proof.
  unfold process_query, bind, ret.
  destruct (ainvoke env (initial_state q) m) as [[[s v]|msg] m1]; cbn; split.
  - intros H. simplify_eq. eauto.
  - intros [v' H]. by simplify_eq.
  - discriminate.
  - intros [v' H]. discriminate.
Qed.

Lemma ainvoke_total state m :
  exists state' visited m', ainvoke env state m = (Ok (state', visited), m').
Proof. apply run_from_total. cbn. unfold recursion_limit. lia. Qed.

End Graph.

(** ** What each stage changes *)

Section Frames.

Variable env : Env.

Lemma collect_outputs_ext s1 s2 :
  theory_explanation s1 = theory_explanation s2 ->
  code_help s1 = code_help s2 ->
  study_plan s1 = study_plan s2 ->
  memory_update s1 = memory_update s2 ->
  collect_outputs s1 = collect_outputs s2.
Proof. intros H1 H2 H3 H4. unfold collect_outputs. by rewrite H1, H2, H3, H4. Qed.

(** Each agent is counted once by the synthesizer. *)
Lemma contributors_NoDup state : NoDup (contributors state).
Proof.
  unfold contributors, collect_outputs.
  destruct (theory_explanation state), (code_help state), (study_plan state),
    (memory_update state) as [[? ? ? [ctx|] ?]|];
    cbn; try destruct (Py.truthy ctx); cbn;
    apply (bool_decide_unpack _); by vm_compute.
Qed.

Lemma router_node_frame state m returned m' :
  router_node env state m = (Ok returned, m') ->
  m' = m /\
  user_query returned = user_query state /\
  memory_update returned = memory_update state /\
  memory_context returned = memory_context state /\
  (exists r, routing_decision returned = Some r) /\
  match fault env router with
  | Some e => error returned = Some ("Router error: " +:+ e)
  | None => error returned = error state
  end.
Proof.
  intros H. unfold_stage.
  destruct (fault env router); [simplify_eq; cbn; eauto 10|].
  destruct (router_chain _ _ _); [simplify_eq; cbn; eauto 10|].
  repeat match type of H with
    | context [if ?x then _ else _] => destruct x
    end; simplify_eq; cbn; eauto 10.
Qed.

Lemma memory_manager_node_frame state m returned m' r :
  routing_decision state = Some r ->
  RoutingDecision.needs_memory r = true ->
  memory_manager_node env state m = (Ok returned, m') ->
  m' = m /\
  user_query returned = user_query state /\
  routing_decision returned = routing_decision state /\
  match fault env memory_manager with
  | Some e =>
      memory_context returned = None /\
      memory_update returned = memory_update state /\
      error returned = Some ("Memory error: " +:+ e)
  | None =>
      error returned = error state /\
      exists ctx,
        memory_context returned = Some ctx /\
        memory_update returned =
        Some (MemoryUpdate.mk "retrieve" "session_context" None (Some ctx)
                "Retrieved recent session history and related discussions") /\
        Py.truthy ctx = true
  end.
Proof.
  intros Hr Hneeds H. unfold memory_manager_node in H. rewrite Hr, Hneeds in H.
  unfold_stage. destruct (fault env memory_manager); [simplify_eq; cbn; eauto 10|].
  destruct (manage_memory_retrieve (user_query state) m) as (ctx & Hctx & Htruthy).
  rewrite Hctx in H. cbn in H. simplify_eq. cbn. eauto 10.
Qed.

Lemma specialist_frame n state m returned m' :
  rank n = 2 ->
  node_fn env n state m = (Ok returned, m') ->
  session_history m' = session_history m /\
  user_profile m' !! "user_preferences" = user_profile m !! "user_preferences" /\
  user_query returned = user_query state /\
  routing_decision returned = routing_decision state /\
  memory_update returned = memory_update state /\
  memory_context returned = memory_context state /\
  (error returned = error state \/ exists e, error returned = Some e /\ Py.truthy e = true).
Proof.
  intros Hn H. destruct n; try discriminate; clear Hn.
  - unfold_stage. destruct (fault env theory_explainer); [simplify_eq; cbn; eauto 10|].
    destruct (theory_chain _ _ _); simplify_eq; cbn -[update_user_profile];
      rewrite update_user_profile_other by done; eauto 10.
  - unfold_stage. destruct (fault env code_helper); [simplify_eq; cbn; eauto 10|].
    split_stage H; simplify_eq; cbn -[update_user_profile];
      rewrite ?update_user_profile_other by done; eauto 10.
  - unfold_stage. destruct (fault env planner); [simplify_eq; cbn; eauto 10|].
    destruct (planner_chain _ _ _); simplify_eq; cbn -[update_user_profile];
      rewrite update_user_profile_other by done; eauto 10.
Qed.

Lemma synthesizer_node_frame state m returned m' :
  synthesizer_node env state m = (Ok returned, m') ->
  user_profile m' = user_profile m /\
  user_query returned = user_query state /\
  theory_explanation returned = theory_explanation state /\
  code_help returned = code_help state /\
  study_plan returned = study_plan state /\
  memory_update returned = memory_update state /\
  memory_context returned = memory_context state /\
  match fault env synthesizer with
  | Some e =>
      m' = m /\
      error returned = Some ("Synthesizer error: " +:+ e) /\
      final_response returned =
      Some (FinalResponse.mk ("Error generating response: " +:+ e)
              (agents_involved state) (tools_used state) false "low")
  | None =>
      error returned = error state /\
      exists fr,
        final_response returned = Some fr /\
        FinalResponse.answer fr =
          match fst (collect_outputs state) with
          | [] => no_specialist_answer
          | parts => String.concat "" parts
          end /\
        FinalResponse.memory_accessed fr = bool_decide (memory_context state <> None) /\
        FinalResponse.confidence fr =
          (if Py.truthy_opt (error state) then "low"
           else if (1 <? length (contributors state))%nat then "high" else "medium") /\
        session_history m' =
          Py.last_n 20
            (session_history m ++
               [ {| timestamp := now env; query := user_query state;
                    response := Py.slice_to 500 (FinalResponse.answer fr);
                    agents := FinalResponse.agents_involved fr |} ])
  end.
Proof.
  intros H. unfold_stage. destruct (fault env synthesizer); [simplify_eq; cbn; eauto 10|].
  unfold contributors. destruct (collect_outputs state) as [parts agents_used].
  simplify_eq. cbn -[store_interaction Py.slice_to Py.last_n Nat.ltb].
  repeat (split; [reflexivity|]).
  eexists. split; [reflexivity|]. cbn -[store_interaction Py.slice_to Py.last_n Nat.ltb].
  split; [by destruct parts|]. split; [reflexivity|].
  split; [by destruct (Py.truthy_opt (error state)), (1 <? length agents_used)%nat|].
  apply store_interaction_history.
Qed.

End Frames.

(** ** Whole runs *)

Section Runs.

Variable env : Env.

Lemma node_error_ok n state m returned m' :
  error_ok state ->
  node_fn env n state m = (Ok returned, m') ->
  error_ok returned.
Proof.
  intros Hok H. destruct n.
  - apply router_node_frame in H as (_ & _ & _ & _ & _ & He).
    destruct (fault env router); intros e' He'; rewrite He in He';
      [simplify_eq; reflexivity|eauto].
  - cbn [node_fn] in H. unfold_stage.
    destruct (fault env memory_manager);
      [simplify_eq; intros e' He'; cbn in He'; simplify_eq; reflexivity|].
    destruct (manage_memory_ok true (user_query state)
                match routing_decision state with
                | Some r => if RoutingDecision.needs_memory r then "retrieve" else "auto"
                | None => "auto"
                end m) as [mu Hmu].
    rewrite Hmu in H. split_stage H; simplify_eq; exact Hok.
  - apply specialist_frame in H as (_ & _ & _ & _ & _ & _ & [He|(e & He & Htruthy)]);
      [|intros e' He'; rewrite He in He'; by simplify_eq|done].
    intros e' He'. rewrite He in He'. eauto.
  - apply specialist_frame in H as (_ & _ & _ & _ & _ & _ & [He|(e & He & Htruthy)]);
      [|intros e' He'; rewrite He in He'; by simplify_eq|done].
    intros e' He'. rewrite He in He'. eauto.
  - apply specialist_frame in H as (_ & _ & _ & _ & _ & _ & [He|(e & He & Htruthy)]);
      [|intros e' He'; rewrite He in He'; by simplify_eq|done].
    intros e' He'. rewrite He in He'. eauto.
  - apply synthesizer_node_frame in H as (_ & _ & _ & _ & _ & _ & _ & H).
    destruct (fault env synthesizer).
    + destruct H as (_ & He & _). intros e' He'. rewrite He in He'.
      simplify_eq. reflexivity.
    + destruct H as (He & _). intros e' He'. rewrite He in He'. eauto.
Qed.

Lemma node_history n state m returned m' :
  n <> synthesizer ->
  node_fn env n state m = (Ok returned, m') ->
  session_history m' = session_history m.
Proof.
  intros Hn H. destruct n; try done.
  - by apply router_node_frame in H as (-> & _).
  - cbn [node_fn] in H. unfold_stage.
    destruct (fault env memory_manager); [by simplify_eq|].
    destruct (manage_memory_ok true (user_query state)
                match routing_decision state with
                | Some r => if RoutingDecision.needs_memory r then "retrieve" else "auto"
                | None => "auto"
                end m) as [mu Hmu].
    rewrite Hmu in H. split_stage H; by simplify_eq.
  - by apply specialist_frame in H as (? & _).
  - by apply specialist_frame in H as (? & _).
  - by apply specialist_frame in H as (? & _).
Qed.

End Runs.

(** C1.  Every stage returns normally whatever is raised inside it, and for
    every query, every behaviour of the collaborators and every store,
    [process_query] returns a state that holds a final response; the run
    starts at the router, ends with the synthesizer and takes at most four
    stages, far below the step bound of the framework. *)
Theorem process_query_always_answers (env : Env) (q : string) (m : Memory) :
  (forall n state m0, exists returned m1, node_fn env n state m0 = (Ok returned, m1)) /\
  exists state visited m' fr,
    ainvoke env (initial_state q) m = (Ok (state, visited), m') /\
    process_query env q m = (Ok state, m') /\
    final_response state = Some fr /\
    head visited = Some router /\
    last visited = Some synthesizer /\
    length visited <= 4.
Proof.
  split; [intros; apply node_fn_ok|].
  destruct (ainvoke_total env (initial_state q) m) as (state & visited & m' & Hrun).
  pose proof Hrun as Hpost. unfold ainvoke in Hpost.
  eapply (run_from_post env
            (fun n _ _ vis => head (vis ++ [n]) = Some router /\ length vis + rank n <= 4)
            (fun st _ vis =>
               final_response st <> None /\ head vis = Some router /\
               last vis = Some synthesizer /\ length vis <= 4))
    in Hpost; [| |by cbn|apply entry_ok_router].
  - destruct Hpost as (Hfr & Hhead & Hlast & Hlen).
    destruct (final_response state) as [fr|] eqn:Efr; [|done].
    exists state, visited, m', fr. repeat split; try done.
    apply process_query_ainvoke. eauto.
  - intros n st m0 vis returned m1 [Hhead Hlen] _ Hnode.
    destruct (next_node_ok n (apply_update st returned)) as (o & -> & Ho).
    destruct o as [n'|].
    + split.
      * destruct vis; cbn in *; done.
      * rewrite length_app. cbn. lia.
    + subst n. apply synthesizer_node_frame in Hnode as (_ & _ & _ & _ & _ & _ & _ & H).
      repeat split.
      * cbn. destruct (fault env synthesizer).
        -- destruct H as (_ & _ & ->). done.
        -- destruct H as (_ & fr & -> & _). done.
      * done.
      * by rewrite last_snoc.
      * rewrite length_app. cbn in *. lia.
Qed.

Lemma synthesizer_confidence (env : Env) state m returned m' :
  error_ok state ->
  synthesizer_node env state m = (Ok returned, m') ->
  contributors (apply_update state returned) = contributors state /\
  exists fr,
    final_response returned = Some fr /\
    (FinalResponse.confidence fr = "low" <-> error returned <> None) /\
    (FinalResponse.confidence fr = "high" <->
       error returned = None /\ 1 < length (contributors state)) /\
    (FinalResponse.confidence fr = "medium" <->
       error returned = None /\ length (contributors state) <= 1).
Proof.
  intros Hok H.
  apply synthesizer_node_frame in H as (_ & _ & Ht & Hc & Hp & Hmu & _ & H).
  split.
  { unfold contributors. f_equal. by apply collect_outputs_ext. }
  destruct (fault env synthesizer) as [e|].
  - destruct H as (_ & -> & ->). eexists. split; [reflexivity|]. cbn.
    repeat split; intros; destruct_and?; done.
  - destruct H as (-> & fr & -> & _ & _ & Hconf & _). exists fr. split; [done|].
    rewrite Hconf. clear Hconf.
    destruct (error state) as [e|] eqn:Ee.
    + cbn. rewrite (Hok e Ee).
      repeat split; intros; destruct_and?; done.
    + cbn [Py.truthy_opt]. destruct (1 <? length (contributors state))%nat eqn:Elen.
      * apply Nat.ltb_lt in Elen.
        repeat split; intros; destruct_and?; try done; try congruence; lia.
      * apply Nat.ltb_ge in Elen.
        repeat split; intros; destruct_and?; try done; try congruence; lia.
Qed.

(** C4, as amended.  In every run, [memory_accessed] is true exactly when
    the memory stage ran, did not fail, and the synthesizer did not fail;
    equivalently, exactly when [memory_context] is set at synthesis time and
    the synthesizer did not fail.  What the lookup found plays no part: the
    statement holds for every store. *)
Theorem memory_accessed_iff_lookup_completed (env : Env) (q : string) (m : Memory) :
  exists state visited m' fr,
    ainvoke env (initial_state q) m = (Ok (state, visited), m') /\
    final_response state = Some fr /\
    (FinalResponse.memory_accessed fr = true <->
       memory_manager ∈ visited /\ fault env memory_manager = None /\
       fault env synthesizer = None) /\
    (FinalResponse.memory_accessed fr = true <->
       memory_context state <> None /\ fault env synthesizer = None) /\
    (fault env synthesizer = None -> fault env memory_manager = None ->
       (FinalResponse.memory_accessed fr = true <-> memory_manager ∈ visited)).
Proof.
  destruct (ainvoke_total env (initial_state q) m) as (state & visited & m' & Hrun).
  pose proof Hrun as Hpost. unfold ainvoke in Hpost.
  eapply (run_from_post env
            (fun n st _ vis =>
               (memory_context st <> None <->
                  memory_manager ∈ vis /\ fault env memory_manager = None) /\
               (3 <= rank n -> memory_manager ∉ vis))
            (fun st _ vis =>
               exists fr, final_response st = Some fr /\
                 (memory_context st <> None <->
                    memory_manager ∈ vis /\ fault env memory_manager = None) /\
                 (FinalResponse.memory_accessed fr = true <->
                    memory_context st <> None /\ fault env synthesizer = None)))
    in Hpost; [| |split; [|intros _; apply not_elem_of_nil]|apply entry_ok_router].
  - destruct Hpost as (fr & Hfr & Hctx & Hacc).
    exists state, visited, m', fr. repeat (split; [done|]).
    split; [rewrite Hacc, Hctx; tauto|]. split; [done|].
    intros Hs Hm. rewrite Hacc, Hctx. tauto.
  - intros n st m0 vis returned m1 [Hctx Hfresh] Hentry Hnode.
    destruct (next_node_ok n (apply_update st returned)) as (o & -> & Ho).
    destruct n.
    + (* router *)
      destruct o as [n'|]; [|done].
      apply router_node_frame in Hnode as (_ & _ & _ & Hmc & _).
      cbn [apply_update with_tools_used with_agents_involved memory_context].
      rewrite Hmc. rewrite elem_of_app, list_elem_of_singleton. split.
      * rewrite Hctx. split; [tauto|]. intros [[?|?] ?]; done.
      * intros _ [?|?]; [|done]. apply Hfresh; [cbn; lia|done].
    + (* memory manager *)
      destruct o as [n'|]; [|done]. cbn in Ho.
      destruct (Hentry eq_refl) as (r & Hr & Hneeds).
      apply (memory_manager_node_frame env st m0 returned m1 r Hr Hneeds)
        in Hnode as (_ & _ & _ & H).
      cbn [apply_update with_tools_used with_agents_involved memory_context].
      rewrite elem_of_app, list_elem_of_singleton. split; [|intros ?; lia].
      destruct (fault env memory_manager).
      * destruct H as (-> & _). split; [done|]. intros [_ ?]. done.
      * destruct H as (_ & ctx & -> & _). split; [auto|done].
    + (* theory explainer *)
      destruct o as [n'|]; [|done]. cbn in Ho.
      apply specialist_frame in Hnode as (_ & _ & _ & _ & _ & Hmc & _); [|done].
      cbn [apply_update with_tools_used with_agents_involved memory_context].
      rewrite Hmc, elem_of_app, list_elem_of_singleton. split; [|intros ?; lia].
      rewrite Hctx. split; [tauto|]. intros [[?|?] ?]; done.
    + (* code helper *)
      destruct o as [n'|]; [|done]. cbn in Ho.
      apply specialist_frame in Hnode as (_ & _ & _ & _ & _ & Hmc & _); [|done].
      cbn [apply_update with_tools_used with_agents_involved memory_context].
      rewrite Hmc, elem_of_app, list_elem_of_singleton. split; [|intros ?; lia].
      rewrite Hctx. split; [tauto|]. intros [[?|?] ?]; done.
    + (* planner *)
      destruct o as [n'|]; [|done]. cbn in Ho.
      apply specialist_frame in Hnode as (_ & _ & _ & _ & _ & Hmc & _); [|done].
      cbn [apply_update with_tools_used with_agents_involved memory_context].
      rewrite Hmc, elem_of_app, list_elem_of_singleton. split; [|intros ?; lia].
      rewrite Hctx. split; [tauto|]. intros [[?|?] ?]; done.
    + (* synthesizer *)
      destruct o as [n'|]; [destruct n'; cbn in Ho; lia|].
      apply synthesizer_node_frame in Hnode as (_ & _ & _ & _ & _ & _ & Hmc & H).
      cbn [apply_update with_tools_used with_agents_involved memory_context final_response].
      rewrite Hmc.
      assert (Hctx' : memory_context st <> None <->
                memory_manager ∈ vis ++ [synthesizer] /\ fault env memory_manager = None).
      { rewrite Hctx, elem_of_app, list_elem_of_singleton.
        split; [tauto|]. intros [[?|?] ?]; done. }
      destruct (fault env synthesizer).
      * destruct H as (_ & _ & ->). eexists. split; [reflexivity|]. split; [done|].
        cbn. split; [done|]. intros [_ ?]. done.
      * destruct H as (_ & fr & -> & _ & Hacc & _). exists fr. split; [done|].
        split; [done|]. rewrite Hacc. rewrite bool_decide_eq_true. tauto.
  - split; [done|]. intros [H _]. by apply not_elem_of_nil in H.
Qed.

(** C4 as first stated fails: here the memory stage ran and left its
    context in the state, and the final response still says that memory was
    not accessed, because the synthesizer failed. *)
Lemma memory_accessed_false_after_lookup :
  exists state visited m' fr,
    ainvoke env_synthesizer_fails (initial_state "What is recursion?") _init_memory
      = (Ok (state, visited), m') /\
    final_response state = Some fr /\
    memory_manager ∈ visited /\
    memory_context state <> None /\
    FinalResponse.memory_accessed fr = false.
Proof.
  pose (r := ainvoke env_synthesizer_fails (initial_state "What is recursion?") _init_memory).
  assert (Hr : ainvoke env_synthesizer_fails (initial_state "What is recursion?") _init_memory = r)
    by reflexivity.
  vm_compute in r. subst r.
  eexists _, _, _, _. split; [exact Hr|]. split; [reflexivity|].
  split; [|split; [discriminate|reflexivity]].
  apply elem_of_cons. right. apply elem_of_cons. by left.
Qed.

(** C6.  When the synthesizer fails with message [e], the run still returns
    a final response: its answer is the text "Error generating response: "
    followed by [e], its confidence is "low", [memory_accessed] is false, the
    error is recorded, and the session history is the one the run started
    with. *)
Theorem synthesizer_failure_response (env : Env) (q : string) (m : Memory) (e : string) :
  fault env synthesizer = Some e ->
  exists state m' fr,
    process_query env q m = (Ok state, m') /\
    final_response state = Some fr /\
    FinalResponse.answer fr = "Error generating response: " +:+ e /\
    FinalResponse.confidence fr = "low" /\
    FinalResponse.memory_accessed fr = false /\
    error state = Some ("Synthesizer error: " +:+ e) /\
    session_history m' = session_history m.
Proof.
  intros Hfault.
  destruct (ainvoke_total env (initial_state q) m) as (state & visited & m' & Hrun).
  pose proof Hrun as Hpost. unfold ainvoke in Hpost.
  eapply (run_from_post env
            (fun _ _ m0 _ => session_history m0 = session_history m)
            (fun st m0 _ =>
               session_history m0 = session_history m /\
               error st = Some ("Synthesizer error: " +:+ e) /\
               exists agents tools,
                 final_response st =
                 Some (FinalResponse.mk ("Error generating response: " +:+ e)
                         agents tools false "low")))
    in Hpost; [| |done|apply entry_ok_router].
  - destruct Hpost as (Hhist & Herr & agents & tools & Hfr).
    eexists state, m', _. split; [apply process_query_ainvoke; eauto|].
    split; [exact Hfr|]. done.
  - intros n st m0 vis returned m1 Hhist _ Hnode.
    destruct (next_node_ok n (apply_update st returned)) as (o & -> & Ho).
    destruct o as [n'|].
    + rewrite <- Hhist. eapply node_history; [|exact Hnode].
      intros ->. destruct n'; cbn in Ho; lia.
    + subst n. apply synthesizer_node_frame in Hnode as (_ & _ & _ & _ & _ & _ & _ & H).
      rewrite Hfault in H. destruct H as (-> & Herr & Hfr).
      split; [done|]. split; [done|]. eauto.
Qed.

(** ** The answer text *)

Lemma collect_outputs_head state p parts :
  fst (collect_outputs state) = p :: parts -> Py.startswith "#" p = true.
Proof.
  unfold collect_outputs.
  destruct (theory_explanation state) as [exp|], (code_help state) as [ch|],
    (study_plan state) as [sp|], (memory_update state) as [[? ? ? [ctx|] ?]|];
    cbn -[Py.slice_to bullets List.flat_map Py.truthy];
    try destruct (Py.truthy ctx);
    cbn -[Py.slice_to bullets List.flat_map Py.truthy];
    intros H; simplify_eq; reflexivity.
Qed.

Lemma collect_outputs_memory state mu ctx :
  memory_update state = Some mu ->
  MemoryUpdate.retrieved_context mu = Some ctx ->
  Py.truthy ctx = true ->
  fst (collect_outputs state) <> [].
Proof.
  intros Hmu Hctx Htruthy. unfold collect_outputs. rewrite Hmu, Hctx, Htruthy.
  destruct (theory_explanation state) as [exp|], (code_help state) as [ch|],
    (study_plan state) as [sp|];
    cbn -[Py.slice_to bullets List.flat_map Py.truthy]; done.
Qed.

(** ** The memory stage within a run *)

(** Whatever the query, a run only ever retrieves: the memory update it leaves
    in the state, if any, is a retrieval, the profile entry
    ["user_preferences"] is not written, and when the memory stage and the
    synthesizer both complete the answer carries the retrieved context. *)
Lemma run_only_retrieves (env : Env) (q : string) (m : Memory) :
  exists state visited m' fr,
    ainvoke env (initial_state q) m = (Ok (state, visited), m') /\
    final_response state = Some fr /\
    (forall mu, memory_update state = Some mu -> retrieve_shaped mu) /\
    user_profile m' !! "user_preferences" = user_profile m !! "user_preferences" /\
    (memory_manager ∈ visited -> fault env memory_manager = None ->
     fault env synthesizer = None ->
     FinalResponse.answer fr <> no_specialist_answer).
Proof.
  destruct (ainvoke_total env (initial_state q) m) as (state & visited & m' & Hrun).
  pose proof Hrun as Hpost. unfold ainvoke in Hpost.
  pose (I := fun (st : MultiAgentState.t) (m0 : Memory) (vis : list Node) =>
    user_profile m0 !! "user_preferences" = user_profile m !! "user_preferences" /\
    (forall mu, memory_update st = Some mu -> retrieve_shaped mu) /\
    (memory_manager ∈ vis -> fault env memory_manager = None ->
     exists mu ctx, memory_update st = Some mu /\
       MemoryUpdate.retrieved_context mu = Some ctx /\ Py.truthy ctx = true)).
  eapply (run_from_post env
            (fun n st m0 vis => I st m0 vis)
            (fun st m0 vis =>
               I st m0 vis /\
               exists fr, final_response st = Some fr /\
                 (fault env synthesizer = None ->
                  FinalResponse.answer fr =
                    match fst (collect_outputs st) with
                    | [] => no_specialist_answer
                    | parts => String.concat "" parts
                    end)))
    in Hpost; [| | |apply entry_ok_router].
  - destruct Hpost as ((Hpref & Hshape & Hran) & fr & Hfr & Hanswer).
    exists state, visited, m', fr. repeat (split; [done|]).
    intros Hvis Hmem Hsyn. rewrite (Hanswer Hsyn).
    destruct (Hran Hvis Hmem) as (mu & ctx & Hmu & Hctx & Htruthy).
    pose proof (collect_outputs_memory state mu ctx Hmu Hctx Htruthy) as Hne.
    destruct (fst (collect_outputs state)) as [|p parts] eqn:Eparts; [done|].
    apply concat_heading_not_fallback. by eapply collect_outputs_head.
  - intros n st m0 vis returned m1 (Hpref & Hshape & Hran) Hentry Hnode.
    destruct (next_node_ok n (apply_update st returned)) as (o & -> & Ho).
    assert (Hstep : n <> memory_manager ->
              user_profile m1 !! "user_preferences" = user_profile m0 !! "user_preferences" ->
              memory_update returned = memory_update st ->
              I (apply_update st returned) m1 (vis ++ [n])).
    { intros Hn Hp Hmu. unfold I.
      cbn [apply_update with_tools_used with_agents_involved memory_update].
      rewrite Hp, Hmu. split; [done|]. split; [done|].
      rewrite elem_of_app, list_elem_of_singleton. intros [?|?]; [auto|]. by subst. }
    destruct n.
    + (* router *)
      destruct o as [n'|]; [|done].
      apply router_node_frame in Hnode as (-> & _ & Hmu & _). by apply Hstep.
    + (* memory manager *)
      destruct o as [n'|]; [|done].
      destruct (Hentry eq_refl) as (r & Hr & Hneeds).
      apply (memory_manager_node_frame env st m0 returned m1 r Hr Hneeds)
        in Hnode as (-> & _ & _ & H).
      unfold I. cbn [apply_update with_tools_used with_agents_involved memory_update].
      split; [done|]. destruct (fault env memory_manager).
      * destruct H as (_ & -> & _). split; [done|]. intros _ ?. done.
      * destruct H as (_ & ctx & _ & -> & Htruthy). split.
        -- intros mu ?. simplify_eq. by repeat split.
        -- intros _ _. eauto.
    + (* theory explainer *)
      destruct o as [n'|]; [|done].
      apply specialist_frame in Hnode as (_ & Hp & _ & _ & Hmu & _); [|done].
      by apply Hstep.
    + (* code helper *)
      destruct o as [n'|]; [|done].
      apply specialist_frame in Hnode as (_ & Hp & _ & _ & Hmu & _); [|done].
      by apply Hstep.
    + (* planner *)
      destruct o as [n'|]; [|done].
      apply specialist_frame in Hnode as (_ & Hp & _ & _ & Hmu & _); [|done].
      by apply Hstep.
    + (* synthesizer *)
      destruct o as [n'|]; [destruct n'; cbn in Ho; lia|].
      apply synthesizer_node_frame in Hnode as (Hp & _ & Ht & Hc & Hsp & Hmu & _ & H).
      split; [apply Hstep; [done|by rewrite Hp|done]|].
      cbn [apply_update with_tools_used with_agents_involved final_response].
      rewrite (collect_outputs_ext (apply_update st returned) st) by done.
      destruct (fault env synthesizer).
      * destruct H as (_ & _ & ->). eexists. split; [reflexivity|]. done.
      * destruct H as (_ & fr & -> & Hanswer & _). exists fr. split; [done|]. done.
  - unfold I. split; [done|]. split; [done|]. intros H. by apply not_elem_of_nil in H.
Qed.

(** C7, evaluated on the code.  For the query "remember that I like Go",
    whatever the collaborators do and whatever the store holds: the memory
    agent on its own would choose to store the query under
    ["user_preference"]; yet the run never does so.  Any memory update it
    leaves is a retrieval under ["session_context"] without a value, the
    profile entry ["user_preferences"] is left as it was, and when the memory
    stage and the synthesizer complete, the answer is not the text used when
    no stage produced anything. *)
Theorem remember_query_is_not_stored (env : Env) (m : Memory) :
  manage_memory true remember_query "auto" m =
    (Ok (MemoryUpdate.mk "store" "user_preference" (Some remember_query) None
           "Storing user preference or information"), m) /\
  exists state visited m' fr,
    ainvoke env (initial_state remember_query) m = (Ok (state, visited), m') /\
    final_response state = Some fr /\
    (forall mu, memory_update state = Some mu -> retrieve_shaped mu) /\
    user_profile m' !! "user_preferences" = user_profile m !! "user_preferences" /\
    (memory_manager ∈ visited -> fault env memory_manager = None ->
     fault env synthesizer = None ->
     FinalResponse.answer fr <> no_specialist_answer).
Proof.
  split; [by apply manage_memory_auto_store|]. apply run_only_retrieves.
Qed.

(** ** The code stage *)

(** C8, as amended.  When the code stage does not fail: the profile is
    updated with "Python" under ["coding_languages"] exactly when the query
    mentions "python" in any case, after which a list under that key holds
    "Python"; the tool "code_executor" is appended to the tools exactly when
    the example of the result is non-empty, whether or not it has a print
    call; the snippet runner is called only for a non-empty example that
    mentions "print", and its output is appended to the explanation only
    when the execution succeeded. *)
Theorem code_stage_marks_executor (env : Env) (state : MultiAgentState.t) (m : Memory) :
  fault env code_helper = None ->
  exists returned m' ch,
    code_helper_node env state m = (Ok returned, m') /\
    code_help returned = Some ch /\
    m' = (if Py.contains "python" (Py.lower (user_query state))
          then update_user_profile "coding_languages" "Python" m else m) /\
    (mentions "python" (user_query state) ->
     forall langs, user_profile m !! "coding_languages" = Some (PList langs) ->
       exists langs',
         user_profile m' !! "coding_languages" = Some (PList langs') /\
         "Python" ∈ langs' /\ (langs' = langs \/ langs' = langs ++ ["Python"])) /\
    tools_used returned =
      tools_used state ++
      (if Py.truthy_opt (CodeHelp.code_example ch) then ["code_executor"] else []) /\
    ("code_executor" ∈ tools_used returned <->
       "code_executor" ∈ tools_used state \/
       Py.truthy_opt (CodeHelp.code_example ch) = true) /\
    match code_chain env (user_query state) (memory_context state) with
    | Some produced =>
        CodeHelp.code_example ch = CodeHelp.code_example produced /\
        CodeHelp.explanation ch =
          match sandbox_run env (CodeHelp.code_example produced) with
          | Some exec_result =>
              if success exec_result
              then CodeHelp.explanation produced +:+ Py.nl +:+ Py.nl +:+
                     "Execution result: " +:+ output exec_result
              else CodeHelp.explanation produced
          | None => CodeHelp.explanation produced
          end
    | None => CodeHelp.code_example ch = None
    end.
Proof.
  intros Hfault.
  destruct (help_with_code_result env (user_query state) (memory_context state) m)
    as (ch & Hhelp & Hproduced).
  assert (Htools :
            (if Py.truthy_opt (CodeHelp.code_example ch)
             then tools_used state ++ ["code_executor"] else tools_used state) =
            tools_used state ++
            (if Py.truthy_opt (CodeHelp.code_example ch) then ["code_executor"] else [])).
  { destruct (Py.truthy_opt (CodeHelp.code_example ch)); by rewrite ?app_nil_r. }
  assert (Hmark :
            "code_executor" ∈ tools_used state ++
              (if Py.truthy_opt (CodeHelp.code_example ch) then ["code_executor"] else []) <->
            "code_executor" ∈ tools_used state \/
            Py.truthy_opt (CodeHelp.code_example ch) = true).
  { rewrite elem_of_app. destruct (Py.truthy_opt (CodeHelp.code_example ch)).
    - rewrite list_elem_of_singleton. tauto.
    - rewrite elem_of_nil. split; [tauto|]. intros [?|?]; [auto|done]. }
  unfold mentions.
  unfold code_helper_node, try_except, bind, check_fault, modify_store, ret.
  rewrite Hfault. cbv beta iota zeta. rewrite Hhelp.
  destruct (Py.contains "python" (Py.lower (user_query state))) eqn:Epython;
    cbv beta iota zeta; eexists _, _, ch;
    (split; [reflexivity|]); (split; [reflexivity|]); (split; [reflexivity|]);
    cbn [tools_used with_tools_used]; rewrite Htools;
    (split; [|split; [reflexivity|split; [exact Hmark|exact Hproduced]]]).
  - (* the query mentions python: the profile is updated *)
    intros _ langs Hlangs. rewrite (update_user_profile_list _ _ _ _ Hlangs).
    case_bool_decide as Hin; eexists; (split; [reflexivity|]); split; auto.
    apply elem_of_app. right. by apply list_elem_of_singleton.
  - (* it does not: the store is left alone *)
    discriminate.
Qed.

(** C8 as first stated fails: the example "x = 1" has no print call and the
    snippet runner is not called on it, and the tool is marked used all the
    same. *)
Lemma executor_marked_without_print :
  exists returned m' ch code,
    code_helper_node env_example_without_print (initial_state "How do I bind a name?")
      _init_memory = (Ok returned, m') /\
    code_help returned = Some ch /\
    CodeHelp.code_example ch = Some code /\
    Py.contains "print" (Py.lower code) = false /\
    sandbox_run env_example_without_print (Some code) = None /\
    "code_executor" ∈ tools_used returned.
Proof.
  pose (r := code_helper_node env_example_without_print
               (initial_state "How do I bind a name?") _init_memory).
  assert (Hr : code_helper_node env_example_without_print
                 (initial_state "How do I bind a name?") _init_memory = r) by reflexivity.
  vm_compute in r. subst r.
  eexists _, _, _, _. split; [exact Hr|]. repeat (split; [reflexivity|]).
  apply elem_of_cons. by left.
Qed.

(** When the memory stage is run with the action left to the agent (no
    decision, or one that does not ask for memory) on a query that asks to
    remember something, it writes the query under ["user_preferences"], as a
    plain value when the profile has the shape the program builds. *)
Lemma memory_stage_store_path (env : Env) (state : MultiAgentState.t) (m : Memory) :
  fault env memory_manager = None ->
  routing_decision state = None ->
  Py.any_in ["remember"; "store"; "save"] (Py.lower (user_query state)) = true ->
  exists returned,
    memory_manager_node env state m =
      (Ok returned, update_user_profile "user_preferences" (user_query state) m) /\
    (profile_ok (user_profile m) ->
     user_profile (update_user_profile "user_preferences" (user_query state) m)
       !! "user_preferences" = Some (PScalar (user_query state))).
Proof.
  intros Hfault Hrouting Hremember.
  assert (Htruthy : Py.truthy (user_query state) = true).
  { apply truthy_nonempty. intros Hq. rewrite Hq in Hremember. discriminate. }
  unfold memory_manager_node, try_except, bind, check_fault, modify_store, ret.
  rewrite Hfault, Hrouting. cbv beta iota zeta.
  rewrite (manage_memory_auto_store (user_query state) m Hremember).
  cbn [MemoryUpdate.value MemoryUpdate.action String.eqb Ascii.eqb Bool.eqb andb].
  rewrite Htruthy. eexists. split; [reflexivity|].
  intros [_ Honly]. apply update_user_profile_scalar.
  intros items Hl. apply Honly in Hl. revert Hl.
  unfold predefined_list_keys. rewrite !elem_of_cons, elem_of_nil.
  intros [?|[?|[?|[]]]]; discriminate.
Qed.

(** * Instances on concrete inputs *)

Lemma router_fallback_is_keyword_function_witness :
  exists d,
    route_query quiet_env "Explain Python decorators" _init_memory = (Ok d, _init_memory) /\
    RoutingDecision.query_type d = THEORY /\
    RoutingDecision.target_agents d = ["theory_explainer"] /\
    RoutingDecision.needs_tools d = false.
Proof.
  destruct (router_fallback_is_keyword_function quiet_env "Explain Python decorators"
              _init_memory eq_refl) as (d & Hd & _ & _ & Htools & Hboth & _).
  exists d. split; [exact Hd|].
  destruct Hboth as [Hq Ht]; [reflexivity|reflexivity|]. by repeat split.
Defined.

Lemma history_keeps_last_20_witness :
  length (session_history (store_all sample_calls _init_memory)) = 20 /\
  session_history (store_all sample_calls _init_memory) =
  drop 1 (List.map entry_of sample_calls).
Proof.
  destruct (history_keeps_last_20 _init_memory sample_calls) as (_ & H20 & _ & H21).
  split.
  - apply H20. vm_compute. lia.
  - apply H21; reflexivity.
Defined.

Lemma profile_lists_deduplicated_witness :
  user_profile (update_user_profile "study_goals" "learn Go"
                  (update_user_profile "study_goals" "learn Go" _init_memory))
    !! "study_goals" = Some (PList ["learn Go"]) /\
  update_user_profile "topics_asked" "recursion"
    (update_user_profile "topics_asked" "recursion" _init_memory) =
  update_user_profile "topics_asked" "recursion" _init_memory.
Proof.
  destruct (profile_lists_deduplicated "learn Go") as (_ & Hkeys & _).
  destruct (profile_lists_deduplicated "recursion") as (_ & _ & Hpresent).
  split.
  - apply Hkeys. apply (bool_decide_unpack _). vm_compute. exact I.
  - apply (Hpresent _ "topics_asked" ["recursion"]).
    + reflexivity.
    + apply (bool_decide_unpack _). vm_compute. exact I.
Defined.

Lemma other_keys_last_write_wins_witness :
  user_profile (update_user_profile "user_preferences" "likes Rust"
                  (update_user_profile "user_preferences" "likes Go" _init_memory))
    !! "user_preferences" = Some (PScalar "likes Rust").
Proof.
  destruct (other_keys_last_write_wins _init_memory "user_preferences" "likes Go" "likes Rust")
    as (_ & Hsecond & _).
  - exact init_profile_ok.
  - apply (bool_decide_unpack _). vm_compute. exact I.
  - exact Hsecond.
Defined.

Lemma synthesizer_failure_response_witness :
  exists state m' fr,
    process_query env_synthesizer_fails "What is recursion?" _init_memory = (Ok state, m') /\
    final_response state = Some fr /\
    FinalResponse.answer fr = "Error generating response: boom" /\
    session_history m' = [].
Proof.
  destruct (synthesizer_failure_response env_synthesizer_fails "What is recursion?"
              _init_memory "boom" eq_refl)
    as (state & m' & fr & Hrun & Hfr & Hanswer & _ & _ & _ & Hhist).
  exists state, m', fr. by repeat split.
Defined.

Lemma memory_accessed_iff_lookup_completed_witness :
  exists state visited m' fr,
    ainvoke quiet_env (initial_state "What is recursion?") _init_memory
      = (Ok (state, visited), m') /\
    final_response state = Some fr /\
    (FinalResponse.memory_accessed fr = true <-> memory_manager ∈ visited).
Proof.
  destruct (memory_accessed_iff_lookup_completed quiet_env "What is recursion?" _init_memory)
    as (state & visited & m' & fr & Hrun & Hfr & _ & _ & Hiff).
  exists state, visited, m', fr. split; [exact Hrun|]. split; [exact Hfr|].
  apply Hiff; reflexivity.
Defined.

Lemma remember_query_is_not_stored_witness :
  exists state visited m' fr,
    ainvoke quiet_env (initial_state remember_query) _init_memory
      = (Ok (state, visited), m') /\
    final_response state = Some fr /\
    user_profile m' !! "user_preferences" = None.
Proof.
  destruct (remember_query_is_not_stored quiet_env _init_memory)
    as (_ & state & visited & m' & fr & Hrun & Hfr & _ & Hpref & _).
  exists state, visited, m', fr. split; [exact Hrun|]. split; [exact Hfr|].
  rewrite Hpref. reflexivity.
Defined.

Lemma code_stage_marks_executor_witness :
  exists returned m' ch,
    code_helper_node env_example_without_print (initial_state "fix my Python loop")
      _init_memory = (Ok returned, m') /\
    code_help returned = Some ch /\
    m' = update_user_profile "coding_languages" "Python" _init_memory.
Proof.
  destruct (code_stage_marks_executor env_example_without_print
              (initial_state "fix my Python loop") _init_memory eq_refl)
    as (returned & m' & ch & Hnode & Hch & Hm & _).
  exists returned, m', ch. split; [exact Hnode|]. split; [exact Hch|]. exact Hm.
Defined.

(** * Scenarios *)

(** "What is recursion?" on a fresh store, every chain failing: the keyword
    fallback picks the theory explainer without memory, the answer opens with
    the explanation heading and the confidence is "medium". *)
Example scenario_what_is_recursion :
  exists state visited m' fr,
    ainvoke quiet_env (initial_state "What is recursion?") _init_memory
      = (Ok (state, visited), m') /\
    visited = [router; theory_explainer; synthesizer] /\
    final_response state = Some fr /\
    Py.startswith "## Explanation: What is recursion" (FinalResponse.answer fr) = true /\
    FinalResponse.confidence fr = "medium" /\
    FinalResponse.memory_accessed fr = false /\
    length (session_history m') = 1.
Proof.
  pose (r := ainvoke quiet_env (initial_state "What is recursion?") _init_memory).
  assert (Hr : ainvoke quiet_env (initial_state "What is recursion?") _init_memory = r)
    by reflexivity.
  vm_compute in r. subst r.
  eexists _, _, _, _. split; [exact Hr|]. by repeat split.
Qed.

(** "remember that I like Go" on a fresh store, every chain failing: no
    keyword group matches, the theory explainer answers, the memory stage is
    not run and the query ends up among the topics. *)
Example scenario_remember_on_fresh_store :
  exists state visited m' fr,
    ainvoke quiet_env (initial_state remember_query) _init_memory
      = (Ok (state, visited), m') /\
    visited = [router; theory_explainer; synthesizer] /\
    memory_update state = None /\
    final_response state = Some fr /\
    Py.startswith "## Explanation: remember that I like Go" (FinalResponse.answer fr) = true /\
    user_profile m' !! "topics_asked" = Some (PList [remember_query]) /\
    user_profile m' !! "user_preferences" = None.
Proof.
  pose (r := ainvoke quiet_env (initial_state remember_query) _init_memory).
  assert (Hr : ainvoke quiet_env (initial_state remember_query) _init_memory = r)
    by reflexivity.
  vm_compute in r. subst r.
  eexists _, _, _, _. split; [exact Hr|]. by repeat split.
Qed.

(** The same query when the router's chain sends it to the memory manager
    and asks for memory: the memory stage runs and retrieves, nothing is
    stored, and the answer is the context section. *)
Example scenario_remember_routed_to_memory :
  exists state visited m' fr mu,
    ainvoke env_router_to_memory (initial_state remember_query) _init_memory
      = (Ok (state, visited), m') /\
    visited = [router; memory_manager; synthesizer] /\
    memory_update state = Some mu /\
    MemoryUpdate.action mu = "retrieve" /\
    MemoryUpdate.retrieved_context mu = Some "No previous context found" /\
    final_response state = Some fr /\
    Py.startswith "## Context from Previous Conversations" (FinalResponse.answer fr) = true /\
    FinalResponse.memory_accessed fr = true /\
    user_profile m' = user_profile _init_memory.
Proof.
  pose (r := ainvoke env_router_to_memory (initial_state remember_query) _init_memory).
  assert (Hr : ainvoke env_router_to_memory (initial_state remember_query) _init_memory = r)
    by reflexivity.
  vm_compute in r. subst r.
  eexists _, _, _, _, _. split; [exact Hr|]. by repeat split.
Qed.

(** * Further properties of the store *)

Lemma last_n_suffix {A} n (l : list A) : exists older, l = older ++ Py.last_n n l.
Proof.
  destruct n as [|n]; [by exists []|].
  exists (take (length l - S n) l). unfold Py.last_n. by rewrite take_drop.
Qed.

Lemma last_n_snoc {A} n (l : list A) (x : A) :
  0 < n -> Py.last_n n (l ++ [x]) = drop (S (length l) - n) l ++ [x].
Proof.
  intros Hn. destruct n as [|n]; [lia|]. unfold Py.last_n.
  rewrite length_app. cbn [length].
  replace (length l + 1 - S n) with (S (length l) - S n) by lia.
  apply drop_app_le. lia.
Qed.

Lemma slice_to_length n s : String.length (Py.slice_to n s) <= n.
Proof.
  revert s. induction n as [|n IH]; intros [|c s]; cbn; try lia.
  specialize (IH s). lia.
Qed.

Lemma slice_to_prefix n s : exists rest, s = Py.slice_to n s +:+ rest.
Proof.
  revert s. induction n as [|n IH]; intros [|c s]; cbn; eauto.
  destruct (IH s) as [rest Hrest]. exists rest.
  change (String c s = String c (Py.slice_to n s +:+ rest)). by f_equal.
Qed.

(** [retrieve_recent_context] returns the tail end of the history: with a
    positive limit, the last [limit] entries (all of them when there are
    fewer); with limit 0, because [l[-0:]] is [l[0:]], the whole history. *)
Theorem retrieve_recent_context_is_suffix (limit : nat) (m : Memory) :
  (exists older, session_history m = older ++ retrieve_recent_context limit m) /\
  (0 < limit ->
     length (retrieve_recent_context limit m) = limit `min` length (session_history m)) /\
  (limit = 0 -> retrieve_recent_context limit m = session_history m).
Proof.
  unfold retrieve_recent_context. split; [apply last_n_suffix|]. split.
  - intros Hlimit. rewrite last_n_length by done. lia.
  - by intros ->.
Qed.

(** Right after [store_interaction] the new entry is the most recent one:
    it is the last entry of any non-empty window and the only entry of a
    window of one; the response it keeps is the first 500 characters of the
    one given. *)
Theorem stored_interaction_is_most_recent
    (now q resp : string) (ags : list string) (m : Memory) (limit : nat) :
  0 < limit ->
  let e := {| timestamp := now; query := q; response := Py.slice_to 500 resp;
              agents := ags |} in
  last (retrieve_recent_context limit (store_interaction now q resp ags m)) = Some e /\
  retrieve_recent_context 1 (store_interaction now q resp ags m) = [e] /\
  String.length (response e) <= 500 /\
  exists rest, resp = response e +:+ rest.
Proof.
  intros Hlimit e. unfold retrieve_recent_context.
  rewrite store_interaction_history. fold e.
  rewrite (last_n_snoc 20) by lia.
  split; [|split; [|split]].
  - rewrite last_n_snoc by done. apply last_snoc.
  - rewrite last_n_snoc by lia.
    replace (S (length (drop (S (length (session_history m)) - 20) (session_history m))) - 1)
      with (length (drop (S (length (session_history m)) - 20) (session_history m))) by lia.
    by rewrite drop_all.
  - apply slice_to_length.
  - apply slice_to_prefix.
Qed.

Lemma contains_empty s : Py.contains "" s = true.
Proof. by destruct s. Qed.




(** Updates of the profile under different keys do not interfere: they
    give the same store in either order. *)
Theorem update_user_profile_commutes (k1 k2 v1 v2 : string) (m : Memory) :
  k1 <> k2 ->
  update_user_profile k1 v1 (update_user_profile k2 v2 m) =
  update_user_profile k2 v2 (update_user_profile k1 v1 m).
Proof.
  intros Hne. destruct m as [h p]. unfold update_user_profile.
  cbn [user_profile session_history]. f_equal.
  assert (H1 : forall (p' : gmap string ProfileValue) x, <[k2:=x]> p' !! k1 = p' !! k1)
    by (intros; by apply lookup_insert_ne).
  assert (H2 : forall (p' : gmap string ProfileValue) x, <[k1:=x]> p' !! k2 = p' !! k2)
    by (intros; by apply lookup_insert_ne).
  destruct (p !! k1) as [[l1|s1]|] eqn:E1, (p !! k2) as [[l2|s2]|] eqn:E2;
    repeat case_bool_decide; rewrite ?H1, ?H2, ?E1, ?E2;
    repeat case_bool_decide; try done; by apply insert_insert_ne.
Qed.

(** No update of the profile, under whatever key, removes or reorders what a
    list holds: the list keeps its items and gets at most the new value at
    its end, and only when the value is new to it; a list without
    repetitions stays so. *)
Theorem profile_lists_only_grow (key key' value : string) (m : Memory) (items : list string) :
  user_profile m !! key = Some (PList items) ->
  exists more,
    user_profile (update_user_profile key' value m) !! key = Some (PList (items ++ more)) /\
    (more = [] \/ (more = [value] /\ key' = key /\ value ∉ items)) /\
    (NoDup items -> NoDup (items ++ more)).
Proof.
  intros Hitems. destruct (decide (key' = key)) as [->|Hne].
  - rewrite (update_user_profile_list _ _ _ _ Hitems). case_bool_decide as Hin.
    + exists []. rewrite app_nil_r. auto.
    + exists [value]. split; [done|]. split; [auto|].
      intros Hnd. apply NoDup_app. split; [done|]. split; [|apply NoDup_singleton].
      intros x Hx Hx'. apply list_elem_of_singleton in Hx'. by subst.
  - exists []. rewrite app_nil_r, update_user_profile_other by done. auto.
Qed.

(** * Further properties of the agents *)

Lemma flat_map_all_nil {A B} (f : A -> list B) (l : list A) :
  (forall x, f x = []) -> List.flat_map f l = [].
Proof. intros Hf. induction l as [|x l IH]; cbn; [done|]. by rewrite Hf, IH. Qed.

(** How the memory agent picks its action.  Without a store it answers
    "none" whatever is asked.  With one, and the action left to it, it stores
    exactly when the query mentions "remember", "store" or "save" (even if
    it also asks about earlier exchanges) and retrieves otherwise; an action
    it does not know gives "none".  The store is never changed. *)
Theorem manage_memory_decision (q : string) (m : Memory) :
  (forall action,
     manage_memory false q action m =
     (Ok (MemoryUpdate.mk "none" "" None None "Memory store not available"), m)) /\
  (exists mu,
     manage_memory true q "auto" m = (Ok mu, m) /\
     (MemoryUpdate.action mu = "store" <->
        Py.any_in ["remember"; "store"; "save"] (Py.lower q) = true) /\
     (MemoryUpdate.action mu = "retrieve" <->
        Py.any_in ["remember"; "store"; "save"] (Py.lower q) = false)) /\
  (forall action,
     action <> "auto" -> action <> "retrieve" -> action <> "store" ->
     manage_memory true q action m =
     (Ok (MemoryUpdate.mk "none" "" None None "No memory action needed"), m)).
Proof.
  split; [done|]. split.
  - destruct (Py.any_in ["remember"; "store"; "save"] (Py.lower q)) eqn:Estore.
    + rewrite (manage_memory_auto_store q m Estore). eexists. split; [reflexivity|].
      cbn. split; split; done.
    + unfold manage_memory, bind, read_store, ret.
      cbn [negb String.eqb Ascii.eqb Bool.eqb]. rewrite Estore.
      destruct (Py.any_in ["what did"; "previous"; "earlier"; "before"] (Py.lower q));
        cbn [String.eqb Ascii.eqb Bool.eqb];
        (eexists; split; [reflexivity|]); cbn; split; split; done.
  - intros action Hauto Hretrieve Hstore. unfold manage_memory, ret. cbn [negb].
    apply String.eqb_neq in Hauto, Hretrieve, Hstore.
    by rewrite Hauto, Hretrieve, Hstore.
Qed.

(** A retrieval on an empty history yields the note "No previous context
    found" and nothing more, whatever the query. *)
Theorem manage_memory_on_empty_history (q action : string) (m : Memory) :
  session_history m = [] ->
  action = "retrieve" \/
    (action = "auto" /\ Py.any_in ["remember"; "store"; "save"] (Py.lower q) = false) ->
  manage_memory true q action m =
  (Ok (MemoryUpdate.mk "retrieve" "session_context" None (Some "No previous context found")
         "Retrieved recent session history and related discussions"), m).
Proof.
  intros Hempty Haction.
  assert (Hsearch : forall keyword, search_history keyword m = []).
  { intros keyword. unfold search_history. by rewrite Hempty. }
  assert (Hretrieve :
    manage_memory true q "retrieve" m =
    (Ok (MemoryUpdate.mk "retrieve" "session_context" None (Some "No previous context found")
           "Retrieved recent session history and related discussions"), m)).
  { unfold manage_memory, bind, read_store, ret.
    cbn [negb String.eqb Ascii.eqb Bool.eqb].
    rewrite (flat_map_all_nil _ _ Hsearch).
    unfold retrieve_recent_context. rewrite Hempty. reflexivity. }
  destruct Haction as [->|[-> Hstore]]; [exact Hretrieve|].
  rewrite <- Hretrieve. unfold manage_memory.
  cbn [negb String.eqb Ascii.eqb Bool.eqb]. rewrite Hstore.
  by destruct (Py.any_in ["what did"; "previous"; "earlier"; "before"] (Py.lower q)).
Qed.

Lemma contains_char c b s :
  Py.contains (String c "") (String b s) = Ascii.eqb c b || Py.contains (String c "") s.
Proof. cbn. by destruct (Ascii.eqb c b). Qed.

Lemma before_char_without c s : Py.contains (String c "") (Py.before_char c s) = false.
Proof.
  induction s as [|a s IH]; [done|]. cbn [Py.before_char].
  destruct (Ascii.eqb a c) eqn:E; [done|].
  rewrite contains_char, IH, Ascii.eqb_sym, E. done.
Qed.

Lemma before_char_prefix c s : exists rest, s = Py.before_char c s +:+ rest.
Proof.
  induction s as [|a s [rest IH]]; [by exists ""|]. cbn [Py.before_char].
  destruct (Ascii.eqb a c); [by eexists|].
  exists rest. change (String a s = String a (Py.before_char c s +:+ rest)). by f_equal.
Qed.

Lemma slice_to_without c n s :
  Py.contains (String c "") s = false ->
  Py.contains (String c "") (Py.slice_to n s) = false.
Proof.
  revert s. induction n as [|n IH]; intros [|b s]; try done.
  rewrite contains_char. intros H. apply orb_false_iff in H as [Hb Hs].
  cbn [Py.slice_to]. rewrite contains_char, Hb. by apply IH.
Qed.

(** When the theory chain fails, the concept of the canned explanation is
    the start of the query: up to the first question mark if there is one,
    the first 50 characters otherwise.  It never holds a question mark, and
    is empty when the query starts with one. *)
Theorem explain_fallback_concept (env : Env) (q : string) (context : option string)
    (m : Memory) :
  theory_chain env q context = None ->
  exists exp,
    explain env q context m = (Ok exp, m) /\
    Py.contains "?" (TheoryExplanation.concept exp) = false /\
    (exists rest, q = TheoryExplanation.concept exp +:+ rest) /\
    (Py.contains "?" q = true ->
       TheoryExplanation.concept exp = Py.before_char "?" q) /\
    (Py.contains "?" q = false ->
       TheoryExplanation.concept exp = Py.slice_to 50 q /\
       String.length (TheoryExplanation.concept exp) <= 50) /\
    (Py.startswith "?" q = true -> TheoryExplanation.concept exp = "").
Proof.
  intros Hfail. unfold explain, ret. rewrite Hfail. eexists. split; [reflexivity|].
  cbn [TheoryExplanation.concept].
  destruct (Py.contains "?" q) eqn:Emark.
  - split; [apply before_char_without|]. split; [apply before_char_prefix|].
    split; [done|]. split; [done|].
    destruct q as [|c q]; [done|]. cbn [Py.startswith Py.before_char].
    rewrite (Ascii.eqb_sym c). by destruct (Ascii.eqb "?" c).
  - split; [by apply slice_to_without|]. split; [apply slice_to_prefix|].
    split; [done|]. split; [split; [done|apply slice_to_length]|].
    destruct q as [|c q]; [done|]. intros Hstart. rewrite contains_char in Emark.
    cbn [Py.startswith] in Hstart. destruct (Ascii.eqb "?" c); done.
Qed.

(** * Properties of the tools *)

Lemma find_dangerous code :
  (exists keyword, keyword ∈ dangerous_keywords /\ mentions keyword code) <->
  List.find (fun keyword => Py.contains keyword (Py.lower code)) dangerous_keywords <> None.
Proof.
  split.
  - intros (keyword & Hin & Hfound) Hnone. unfold mentions in Hfound.
    apply list_elem_of_In in Hin.
    pose proof (find_none _ _ Hnone keyword Hin) as Hnot. cbv beta in Hnot. congruence.
  - destruct (List.find _ _) as [keyword|] eqn:E; [intros _|done].
    apply find_some in E as [Hin Hfound]. exists keyword. split; [by apply list_elem_of_In|done].
Qed.

Lemma execute_python_refuses (env : Env) (code keyword : string) :
  keyword ∈ dangerous_keywords -> mentions keyword code ->
  success (execute_python env code) = false /\
  exec_error (execute_python env code) = Some "Security restriction" /\
  forall env', execute_python env' code = execute_python env code.
Proof.
  intros Hin Hfound. pose proof (find_dangerous code) as [Hfind _].
  unfold execute_python.
  destruct (List.find _ dangerous_keywords) as [found|]; [done|].
  destruct Hfind; eauto.
Qed.

(** The snippet runner and its denylist: a snippet that mentions, in any
    capitalisation, "import os", "import sys", "__import__", "open(" or
    "file(" is refused without the subprocess being consulted; a run
    succeeds exactly when the snippet is clean and the subprocess exits with
    code 0, and then the output is its standard output. *)
Theorem execute_python_denylist (env : Env) (code : string) :
  (forall keyword,
     keyword ∈ dangerous_keywords -> mentions keyword code ->
     success (execute_python env code) = false /\
     exec_error (execute_python env code) = Some "Security restriction" /\
     forall env', execute_python env' code = execute_python env code) /\
  (success (execute_python env code) = true <->
     (forall keyword, keyword ∈ dangerous_keywords -> ~ mentions keyword code) /\
     exists out err, subprocess_run env code = Completed 0 out err) /\
  (forall out err,
     success (execute_python env code) = true ->
     subprocess_run env code = Completed 0 out err ->
     output (execute_python env code) = out).
Proof.
  pose proof (find_dangerous code) as Hfind. unfold execute_python.
  destruct (List.find _ dangerous_keywords) as [found|]; split; [|split| |split].
  - intros. done.
  - split; [done|]. intros [Hclean _]. destruct Hfind as [_ Hfind].
    destruct Hfind as (keyword & Hin & Hfound); [done|]. by destruct (Hclean keyword).
  - done.
  - intros keyword Hin Hfound. destruct Hfind as [Hfind _].
    destruct Hfind; eauto.
  - assert (Hclean : forall keyword, keyword ∈ dangerous_keywords -> ~ mentions keyword code).
    { intros keyword Hin Hfound. destruct Hfind as [Hfind _]. destruct Hfind; eauto. }
    destruct (subprocess_run env code) as [returncode out err| |msg]; cbn.
    + case_bool_decide as Hcode.
      * subst. split; [eauto|done].
      * split; [done|]. intros (_ & out' & err' & H). by simplify_eq.
    + split; [done|]. intros (_ & out' & err' & H). done.
    + split; [done|]. intros (_ & out' & err' & H). done.
  - intros out err Hsuccess Hrun. rewrite Hrun in *. done.
Qed.

Lemma string_app_empty s : s +:+ "" = s.
Proof.
  induction s as [|c s IH]; [done|].
  change (String c (s +:+ "") = String c s). by f_equal.
Qed.

(** The code helper only ever adds to what the chain produced: every field
    but the explanation is kept, and the explanation is kept as a prefix.
    Something is added only for an example that mentions "print" and whose
    run succeeded; an example that trips the denylist leaves the produced
    help untouched. *)
Theorem help_with_code_keeps_produced (env : Env) (q : string) (context : option string)
    (m : Memory) (produced : CodeHelp.t) :
  code_chain env q context = Some produced ->
  exists ch suffix,
    help_with_code env q context m = (Ok ch, m) /\
    ch = CodeHelp.mk (CodeHelp.problem_description produced)
           (CodeHelp.solution_approach produced) (CodeHelp.code_example produced)
           (CodeHelp.explanation produced +:+ suffix)
           (CodeHelp.best_practices produced) (CodeHelp.common_pitfalls produced) /\
    (suffix <> "" ->
       exists code,
         CodeHelp.code_example produced = Some code /\ mentions "print" code /\
         success (execute_python env code) = true) /\
    (forall code keyword,
       CodeHelp.code_example produced = Some code ->
       keyword ∈ dangerous_keywords -> mentions keyword code ->
       ch = produced).
Proof.
  intros Hchain. unfold help_with_code, ret. rewrite Hchain.
  assert (Hsame : forall p : CodeHelp.t, p =
            CodeHelp.mk (CodeHelp.problem_description p)
              (CodeHelp.solution_approach p) (CodeHelp.code_example p)
              (CodeHelp.explanation p +:+ "")
              (CodeHelp.best_practices p) (CodeHelp.common_pitfalls p)).
  { intros p. rewrite string_app_empty. by destruct p. }
  destruct (CodeHelp.code_example produced) as [code|] eqn:Ecode.
  - destruct (Py.truthy code && Py.contains "print" (Py.lower code)) eqn:Eprint.
    + destruct (success (execute_python env code)) eqn:Esuccess.
      * eexists _, _. split; [reflexivity|]. split; [reflexivity|].
        apply andb_true_iff in Eprint as [_ Eprint]. split; [eauto|].
        intros code' keyword Hcode Hin Hfound. simplify_eq.
        destruct (execute_python_refuses env code' keyword Hin Hfound). congruence.
      * exists produced, "". rewrite <- Ecode. split; [done|]. split; [apply Hsame|done].
    + exists produced, "". rewrite <- Ecode. split; [done|]. split; [apply Hsame|done].
  - exists produced, "". rewrite <- Ecode. split; [done|]. split; [apply Hsame|done].
Qed.

Lemma remove_absent old s : Py.contains old s = false -> str_remove old s = s.
Proof.
  unfold str_remove. induction s as [|c s IH]; [done|].
  cbn [Py.contains]. intros H. apply orb_false_iff in H as [Hstart Hrest].
  cbn [remove_go]. rewrite Hstart. f_equal. by apply IH.
Qed.

Lemma word_absent (p : ascii -> bool) (a : ascii) (word s : string) :
  p a = false -> all_chars p s = true -> Py.contains (String a word) s = false.
Proof.
  intros Ha. induction s as [|b s IH]; [done|].
  cbn [all_chars Py.contains Py.startswith]. intros H.
  apply andb_true_iff in H as [Hb Hs]. rewrite (IH Hs).
  destruct (Ascii.eqb a b) eqn:E; [|done].
  apply Ascii.eqb_eq in E as ->. congruence.
Qed.

(** The calculator's guard.  An expression made only of digits, arithmetic
    signs, dots, parentheses and blanks reaches [eval] exactly as typed, and
    the answer is what [eval] gives or "Error: " and its message.  [eval] is
    never given anything else: two evaluators that agree on such text give
    the same answers on every input.  An expression with another character
    and none of the words the tool strips is refused. *)
Theorem calculate_guard (py_eval : string -> Outcome string) (expression : string) :
  (arithmetic_only expression = true ->
     CalculatorTool.calculate py_eval expression =
     match py_eval expression with
     | Ok result => result
     | Raise e => "Error: " +:+ e
     end) /\
  (forall py_eval',
     (forall s, arithmetic_only s = true -> py_eval' s = py_eval s) ->
     CalculatorTool.calculate py_eval' expression =
     CalculatorTool.calculate py_eval expression) /\
  (arithmetic_only expression = false ->
   Py.contains "import" expression = false -> Py.contains "__" expression = false ->
   Py.contains "exec" expression = false -> Py.contains "eval" expression = false ->
     CalculatorTool.calculate py_eval expression =
     "Error: Invalid characters in expression").
Proof.
  unfold arithmetic_only, CalculatorTool.calculate. split; [|split].
  - intros Hok.
    rewrite (remove_absent "import" expression)
      by (apply (word_absent (fun c => char_in c CalculatorTool.allowed_chars));
          [reflexivity|exact Hok]).
    rewrite (remove_absent "__" expression)
      by (apply (word_absent (fun c => char_in c CalculatorTool.allowed_chars));
          [reflexivity|exact Hok]).
    rewrite (remove_absent "exec" expression)
      by (apply (word_absent (fun c => char_in c CalculatorTool.allowed_chars));
          [reflexivity|exact Hok]).
    rewrite (remove_absent "eval" expression)
      by (apply (word_absent (fun c => char_in c CalculatorTool.allowed_chars));
          [reflexivity|exact Hok]).
    by rewrite Hok.
  - intros py_eval' Hagree. cbv zeta.
    destruct (all_chars _ _) eqn:Hok; [|done]. cbn [negb].
    by rewrite (Hagree _ Hok).
  - intros Hbad Himport Hunder Hexec Heval.
    rewrite (remove_absent "import" expression) by done.
    rewrite (remove_absent "__" expression) by done.
    rewrite (remove_absent "exec" expression) by done.
    rewrite (remove_absent "eval" expression) by done.
    by rewrite Hbad.
Qed.





(** The knowledge base never invents an entry, and answers every query that
    mentions one of its keys, in any capitalisation.  The empty query is
    contained in every key, so it gets the first entry. *)
Theorem search_finds_mentioned_key (kb : list (string * KnowledgeBaseTool.Entry))
    (q : string) :
  (forall key entry,
     (key, entry) ∈ kb -> mentions key q ->
     is_Some (KnowledgeBaseTool.search kb q)) /\
  (forall entry,
     KnowledgeBaseTool.search kb q = Some entry -> exists key, (key, entry) ∈ kb) /\
  (forall item rest,
     kb = item :: rest -> KnowledgeBaseTool.search kb "" = Some (snd item)).
Proof.
  unfold KnowledgeBaseTool.search. split; [|split].
  - intros key entry Hin Hfound.
    destruct (List.find _ kb) as [item|] eqn:Efind; [done|].
    apply list_elem_of_In in Hin.
    pose proof (find_none _ _ Efind (key, entry) Hin) as Hnot.
    cbn [fst] in Hnot. unfold mentions in Hfound. rewrite Hfound in Hnot. done.
  - intros entry. destruct (List.find _ kb) as [[key e]|] eqn:Efind.
    + intros [= <-]. apply find_some in Efind as [Hin _].
      exists key. by apply list_elem_of_In.
    + clear Efind.
      destruct (List.find _ kb) as [[key e]|] eqn:Epartial; [|discriminate].
      intros [= <-]. apply find_some in Epartial as [Hin _].
      exists key. by apply list_elem_of_In.
  - intros item rest ->. cbn [Py.lower List.find].
    by rewrite contains_empty, orb_true_r.
Qed.




(** * The entry point *)

(** [main] runs the workflow unless the query, with case ignored, is "quit",
    "exit" or "q"; then it returns at once and leaves the store alone.  The
    query is the line typed, or, when words are given on the command line,
    those words joined by blanks. *)
Theorem main_quits_on_sentinel (env : Env) (argv : list string) (typed : string)
    (m : Memory) :
  exists r m',
    main env argv typed m = (Ok r, m') /\
    (r = None <-> Py.lower (main_query argv typed) ∈ ["quit"; "exit"; "q"]) /\
    (r = None -> m' = m) /\
    (forall state, r = Some state ->
       process_query env (main_query argv typed) m = (Ok state, m')).
Proof.
  unfold main. fold (main_query argv typed).
  assert (Hsentinel :
    existsb (String.eqb (Py.lower (main_query argv typed))) ["quit"; "exit"; "q"] = true <->
    Py.lower (main_query argv typed) ∈ ["quit"; "exit"; "q"]).
  { rewrite existsb_exists. split.
    - intros (x & Hx & Heq). apply String.eqb_eq in Heq as ->. by apply list_elem_of_In.
    - intros Hin. eexists. split; [by apply list_elem_of_In|]. apply String.eqb_refl. }
  destruct (existsb _ _) eqn:Equit.
  - exists None, m. split; [done|]. split; [by rewrite <- Hsentinel|]. done.
  - destruct (ainvoke_total env (initial_state (main_query argv typed)) m)
      as (state & visited & m' & Hrun).
    assert (Hprocess : process_query env (main_query argv typed) m = (Ok state, m'))
      by (apply process_query_ainvoke; eauto).
    exists (Some state), m'. unfold bind, ret. rewrite Hprocess.
    split; [done|]. split; [|split; [done|by intros ? [= <-]]].
    split; [done|]. intros Hin. apply Hsentinel in Hin. done.
Qed.

(** * Further properties of whole runs *)

Section StageSummary.

Variable env : Env.

Lemma route_query_ok q m : exists d, route_query env q m = (Ok d, m).
Proof.
  unfold route_query, bind, read_store, ret.
  destruct (router_chain _ _ _); [eauto|].
  repeat match goal with
    | |- context [if ?x then _ else _] => destruct x
    end; eauto.
Qed.

Lemma explain_ok q context m : exists exp, explain env q context m = (Ok exp, m).
Proof. unfold explain, ret. destruct (theory_chain _ _ _); eauto. Qed.

Lemma create_plan_ok q profile m : exists plan, create_plan env q profile m = (Ok plan, m).
Proof. unfold create_plan, ret. destruct (planner_chain _ _ _); eauto. Qed.

(** What a stage other than the synthesizer hands back, field by field. *)
Lemma stage_summary n state m returned m' :
  n <> synthesizer ->
  entry_ok n state ->
  node_fn env n state m = (Ok returned, m') ->
  user_query returned = user_query state /\
  (n <> router -> routing_decision returned = routing_decision state) /\
  error returned =
    match fault env n with
    | Some e => Some (error_prefix n +:+ e)
    | None => error state
    end /\
  agents_involved returned =
    match fault env n with
    | Some _ => agents_involved state
    | None => [agent_name n]
    end /\
  (fresh env n theory_explainer -> is_Some (theory_explanation returned)) /\
  (~ fresh env n theory_explainer ->
     theory_explanation returned = theory_explanation state) /\
  (fresh env n code_helper -> is_Some (code_help returned)) /\
  (~ fresh env n code_helper -> code_help returned = code_help state) /\
  (fresh env n planner -> is_Some (study_plan returned)) /\
  (~ fresh env n planner -> study_plan returned = study_plan state) /\
  (fresh env n memory_manager -> is_Some (memory_update returned)) /\
  (~ fresh env n memory_manager -> memory_update returned = memory_update state) /\
  exists added,
    tools_used returned = tools_used state ++ added /\
    forall x, x ∈ added <->
      fault env n = None /\
      ((n = code_helper /\ x = "code_executor" /\
        exists ch, code_help returned = Some ch /\
                   Py.truthy_opt (CodeHelp.code_example ch) = true) \/
       (n = planner /\ x = "schedule_tool")).
Proof.
  intros Hn Hentry H. unfold fresh.
  assert (Hnone : forall x : string, x ∈ @nil string <-> False) by apply elem_of_nil.
  destruct n; [| | | | |done].
  - (* router *)
    open_stage. destruct (fault env router) eqn:Hfault.
    + simplify_eq. cbn. repeat (split; [try done; by intros [? ?]|]).
      exists []. rewrite app_nil_r. split; [done|]. intros x. rewrite Hnone.
      split; [done|]. by intros [? _].
    + destruct (route_query_ok (user_query state) m) as [d Hd]. rewrite Hd in H.
      simplify_eq. cbn. repeat (split; [try done; by intros [? ?]|]).
      exists []. rewrite app_nil_r. split; [done|]. intros x. rewrite Hnone.
      split; [done|]. intros [_ [[? _]|[? _]]]; done.
  - (* memory manager *)
    destruct (Hentry eq_refl) as (r & Hr & Hneeds).
    unfold node_fn, memory_manager_node in H. rewrite Hr, Hneeds in H.
    open_stage. destruct (fault env memory_manager) eqn:Hfault.
    + simplify_eq. cbn. repeat (split; [try done; by intros [? ?]|]).
      exists []. rewrite app_nil_r. split; [done|]. intros x. rewrite Hnone.
      split; [done|]. by intros [? _].
    + destruct (manage_memory_retrieve (user_query state) m) as (ctx & Hctx & _).
      rewrite Hctx in H. cbn in H. simplify_eq. cbn.
      repeat (split; [try done; try (by intros [? ?]); try (by intros H; destruct H)|]).
      exists []. rewrite app_nil_r. split; [done|]. intros x. rewrite Hnone.
      split; [done|]. intros [_ [[? _]|[? _]]]; done.
  - (* theory explainer *)
    open_stage. destruct (fault env theory_explainer) eqn:Hfault.
    + simplify_eq. cbn. repeat (split; [try done; by intros [? ?]|]).
      exists []. rewrite app_nil_r. split; [done|]. intros x. rewrite Hnone.
      split; [done|]. by intros [? _].
    + destruct (explain_ok (user_query state) (memory_context state) m) as [exp Hexp].
      rewrite Hexp in H. simplify_eq. cbn.
      repeat (split; [try done; try (by intros [? ?]); try (by intros H; destruct H)|]).
      exists []. rewrite app_nil_r. split; [done|]. intros x. rewrite Hnone.
      split; [done|]. intros [_ [[? _]|[? _]]]; done.
  - (* code helper *)
    open_stage. destruct (fault env code_helper) eqn:Hfault.
    + simplify_eq. cbn. repeat (split; [try done; by intros [? ?]|]).
      exists []. rewrite app_nil_r. split; [done|]. intros x. rewrite Hnone.
      split; [done|]. by intros [? _].
    + destruct (help_with_code_result env (user_query state) (memory_context state) m)
        as (ch & Hch & _).
      rewrite Hch in H.
      destruct (Py.contains "python" (Py.lower (user_query state))); simplify_eq; cbn;
        (repeat (split; [try done; try (by intros [? ?]); try (by intros H; destruct H)|]));
        destruct (Py.truthy_opt (CodeHelp.code_example ch)) eqn:Etruthy.
      all: first [ exists ["code_executor"]; split; [done|]
                 | exists []; rewrite app_nil_r; split; [done|] ].
      all: intros x; rewrite ?list_elem_of_singleton, ?Hnone; split.
      all: try (intros ->; split; [done|]; left; eauto 10).
      all: try done.
      all: try (intros [_ [(_ & -> & _)|(? & _)]]; done).
      all: intros [_ [(_ & _ & ch' & ? & ?)|(? & _)]]; [|done]; simplify_eq; congruence.
  - (* planner *)
    open_stage. destruct (fault env planner) eqn:Hfault.
    + simplify_eq. cbn. repeat (split; [try done; by intros [? ?]|]).
      exists []. rewrite app_nil_r. split; [done|]. intros x. rewrite Hnone.
      split; [done|]. by intros [? _].
    + destruct (create_plan_ok (user_query state) (get_user_profile m) m) as [plan Hplan].
      rewrite Hplan in H. simplify_eq. cbn.
      repeat (split; [try done; try (by intros [? ?]); try (by intros H; destruct H)|]).
      exists ["schedule_tool"]. split; [done|]. intros x. rewrite list_elem_of_singleton.
      split; [intros ->; auto|]. intros [_ [(? & _)|(_ & ->)]]; done.
Qed.

End StageSummary.

Section Bookkeeping.

Variable env : Env.

Lemma contributors_populated state x :
  x ∈ contributors state ->
  exists k, populated k state /\ agent_name k = x.
Proof.
  unfold contributors, collect_outputs.
  destruct (theory_explanation state) as [exp|] eqn:Et, (code_help state) as [ch|] eqn:Ec,
    (study_plan state) as [sp|] eqn:Ep, (memory_update state) as [[? ? ? [ctx|] ?]|] eqn:Em;
    cbn -[Py.slice_to bullets List.flat_map Py.truthy];
    try destruct (Py.truthy ctx);
    cbn -[Py.slice_to bullets List.flat_map Py.truthy];
    intros Hx;
    repeat (apply elem_of_cons in Hx as [->|Hx];
            [first [ exists theory_explainer; cbn; rewrite Et; by eauto
                   | exists code_helper; cbn; rewrite Ec; by eauto
                   | exists planner; cbn; rewrite Ep; by eauto
                   | exists memory_manager; cbn; rewrite Em; by eauto ]|]);
    by apply elem_of_nil in Hx.
Qed.

Lemma synthesizer_summary state m returned m' :
  synthesizer_node env state m = (Ok returned, m') ->
  routing_decision returned = routing_decision state /\
  agents_involved returned = agents_involved state /\
  tools_used returned = tools_used state /\
  error returned =
    match fault env synthesizer with
    | Some e => Some (error_prefix synthesizer +:+ e)
    | None => error state
    end /\
  exists fr,
    final_response returned = Some fr /\
    (forall x, x ∈ FinalResponse.agents_involved fr <->
       x ∈ agents_involved state \/
       (fault env synthesizer = None /\ x ∈ contributors state)) /\
    (forall x, x ∈ FinalResponse.tools_used fr <-> x ∈ tools_used state) /\
    (fault env synthesizer = None ->
       NoDup (FinalResponse.agents_involved fr) /\ NoDup (FinalResponse.tools_used fr)).
Proof.
  intros H. open_stage. unfold contributors.
  destruct (fault env synthesizer) eqn:Hfault.
  - simplify_eq. cbn. repeat (split; [done|]). eexists. split; [done|]. cbn.
    split; [|split; [done|done]]. intros x. split; [auto|]. intros [?|[? _]]; done.
  - destruct (collect_outputs state) as [parts agents_used]. simplify_eq.
    cbn -[store_interaction Py.slice_to Py.last_n Nat.ltb].
    repeat (split; [done|]). eexists. split; [done|].
    cbn -[store_interaction Py.slice_to Py.last_n Nat.ltb]. unfold Py.list_set.
    split; [|split].
    + intros x. rewrite elem_of_remove_dups, elem_of_app. split; [|intros [?|[_ ?]]; auto].
      intros [?|?]; auto.
    + intros x. apply elem_of_remove_dups.
    + intros _. split; apply NoDup_remove_dups.
Qed.

Lemma populated_apply_update k state returned :
  populated k (apply_update state returned) = populated k returned.
Proof. by destruct k. Qed.

(** One stage keeps the books. *)
Lemma bookkeeping_step n state m visited returned m' :
  n <> synthesizer ->
  entry_ok n state ->
  n ∉ visited ->
  bookkeeping env state visited ->
  node_fn env n state m = (Ok returned, m') ->
  bookkeeping env (apply_update state returned) (visited ++ [n]).
Proof.
  intros Hn Hentry Hnew (Hagents & Hpop & Hce & Hsched & Honly) Hnode.
  apply stage_summary in Hnode
    as (_ & _ & _ & Hag & Ht1 & Ht2 & Hc1 & Hc2 & Hp1 & Hp2 & Hm1 & Hm2 &
        added & Htools & Hadded); [|done|done].
  assert (Hpop' : forall k,
            populated k returned <-> populated k state \/ (fresh env n k /\ k <> router)).
  { intros k. unfold fresh in *.
    destruct k; cbn [populated].
    - split; [done|]. intros [[]|[_ ?]]. done.
    - destruct (decide (n = memory_manager /\ fault env n = None)) as [Hf|Hf].
      + split; [auto|]. intros _. by apply Hm1.
      + rewrite (Hm2 Hf). split; [auto|]. intros [?|[? _]]; done.
    - destruct (decide (n = theory_explainer /\ fault env n = None)) as [Hf|Hf].
      + split; [auto|]. intros _. by apply Ht1.
      + rewrite (Ht2 Hf). split; [auto|]. intros [?|[? _]]; done.
    - destruct (decide (n = code_helper /\ fault env n = None)) as [Hf|Hf].
      + split; [auto|]. intros _. by apply Hc1.
      + rewrite (Hc2 Hf). split; [auto|]. intros [?|[? _]]; done.
    - destruct (decide (n = planner /\ fault env n = None)) as [Hf|Hf].
      + split; [auto|]. intros _. by apply Hp1.
      + rewrite (Hp2 Hf). split; [auto|]. intros [?|[? _]]; done.
    - split; [done|]. intros [[]|[[-> _] _]]. done. }
  assert (Hentry_empty : forall k, n = k -> ~ populated k state).
  { intros k <- Hk. apply Hpop in Hk as [? _]. done. }
  unfold bookkeeping.
  cbn [apply_update with_tools_used with_agents_involved agents_involved tools_used
       code_help study_plan].
  split; [|split; [|split; [|split]]].
  - (* agents *)
    intros x. rewrite elem_of_app, Hag. split.
    + intros [Hx|Hx].
      * apply Hagents in Hx as (k & Hk & Hfault & Hname).
        exists k. rewrite elem_of_app. auto.
      * destruct (fault env n) eqn:Hfault.
        -- apply Hagents in Hx as (k & Hk & Hfault' & Hname).
           exists k. rewrite elem_of_app. auto.
        -- apply list_elem_of_singleton in Hx as ->.
           exists n. rewrite elem_of_app, list_elem_of_singleton. auto.
    + intros (k & Hk & Hfault & Hname). apply elem_of_app in Hk as [Hk|Hk].
      * left. apply Hagents. eauto.
      * apply list_elem_of_singleton in Hk as ->. right. rewrite Hfault.
        apply list_elem_of_singleton. done.
  - (* results *)
    intros k. rewrite populated_apply_update, Hpop', Hpop, elem_of_app,
      list_elem_of_singleton. unfold fresh. split.
    + intros [(? & ? & ?)|[[-> ?] ?]]; auto.
    + intros ([?| ->] & ? & ?); auto.
  - (* code executor *)
    rewrite Htools, !elem_of_app, Hadded.
    destruct (decide (n = code_helper /\ fault env n = None)) as [[-> Hfault]|Hf].
    + assert (Hnone : code_help state = None).
      { destruct (code_help state) eqn:E; [|done].
        destruct (Hentry_empty code_helper eq_refl). cbn. rewrite E. eauto. }
      rewrite Hce, Hnone. split.
      * intros [(ch & ? & _)|[(ch & ? & _)|(_ & [(_ & _ & H)|(? & _)])]]; done.
      * intros H. right. right. split; [done|]. left. auto.
    + rewrite (Hc2 Hf), Hce. split; [|auto].
      intros [?|[?|(Hfault & [(-> & _)|(_ & ?)])]]; try done. destruct Hf. auto.
  - (* schedule tool *)
    rewrite Htools, !elem_of_app, Hadded.
    destruct (decide (n = planner /\ fault env n = None)) as [[-> Hfault]|Hf].
    + split; [intros _; by apply Hp1|]. intros _. right. right. auto.
    + rewrite (Hp2 Hf), Hsched. split; [|auto].
      intros [?|[?|(Hfault & [(_ & ? & _)|(-> & _)])]]; try done. destruct Hf. auto.
  - (* nothing else *)
    intros x. rewrite Htools, !elem_of_app, Hadded.
    intros [?|[?|(_ & [(_ & -> & _)|(_ & ->)])]]; auto.
Qed.

End Bookkeeping.

(** A run keeps the books to its end. *)
Lemma run_bookkeeping (env : Env) (q : string) (m : Memory) :
  exists state visited m' fr,
    ainvoke env (initial_state q) m = (Ok (state, visited), m') /\
    final_response state = Some fr /\
    (forall x, x ∈ FinalResponse.agents_involved fr <->
       exists k, k ∈ visited /\ k <> synthesizer /\ fault env k = None /\
                 agent_name k = x) /\
    (forall k, populated k state <->
       k ∈ visited /\ k <> router /\ k <> synthesizer /\ fault env k = None) /\
    (forall x, x ∈ FinalResponse.tools_used fr <->
       (x = "code_executor" /\
        exists ch, code_help state = Some ch /\
                   Py.truthy_opt (CodeHelp.code_example ch) = true) \/
       (x = "schedule_tool" /\ is_Some (study_plan state))) /\
    distinct_ranks visited /\
    router ∈ visited /\
    (fault env synthesizer = None ->
       NoDup (FinalResponse.agents_involved fr) /\ NoDup (FinalResponse.tools_used fr)).
Proof.
  destruct (ainvoke_total env (initial_state q) m) as (state & visited & m' & Hrun).
  pose proof Hrun as Hpost. unfold ainvoke in Hpost.
  eapply (run_from_post env
            (fun n st _ vis =>
               bookkeeping env st vis /\ (forall k, k ∈ vis -> rank n < rank k) /\
               distinct_ranks vis /\ (n = router \/ router ∈ vis))
            (fun st _ vis =>
               exists fr, final_response st = Some fr /\
                 (forall x, x ∈ FinalResponse.agents_involved fr <->
                    exists k, k ∈ vis /\ k <> synthesizer /\ fault env k = None /\
                              agent_name k = x) /\
                 (forall k, populated k st <->
                    k ∈ vis /\ k <> router /\ k <> synthesizer /\ fault env k = None) /\
                 (forall x, x ∈ FinalResponse.tools_used fr <->
                    (x = "code_executor" /\
                     exists ch, code_help st = Some ch /\
                                Py.truthy_opt (CodeHelp.code_example ch) = true) \/
                    (x = "schedule_tool" /\ is_Some (study_plan st))) /\
                 distinct_ranks vis /\
                 router ∈ vis /\
                 (fault env synthesizer = None ->
                    NoDup (FinalResponse.agents_involved fr) /\
                    NoDup (FinalResponse.tools_used fr))))
    in Hpost; [| | |apply entry_ok_router].
  - destruct Hpost as (fr & Hfr & H). exists state, visited, m', fr. auto.
  - intros n st m0 vis returned m1 (Hbook & Hranks & Hdistinct & Hrouter) Hentry Hnode.
    assert (Hrouter' : router ∈ vis ++ [n]).
    { rewrite elem_of_app, list_elem_of_singleton. destruct Hrouter; auto. }
    destruct (next_node_ok n (apply_update st returned)) as (o & -> & Ho).
    assert (Hnew : n ∉ vis) by (intros Hin; apply Hranks in Hin; lia).
    assert (Hdistinct' : distinct_ranks (vis ++ [n])).
    { intros a b. rewrite !elem_of_app, !list_elem_of_singleton.
      intros [Ha| ->] [Hb| ->] Hrank; auto.
      - apply Hranks in Ha. lia.
      - apply Hranks in Hb. lia. }
    destruct o as [n'|].
    + (* a stage before the synthesizer *)
      assert (Hn : n <> synthesizer) by (intros ->; destruct n'; cbn in Ho; lia).
      split; [eapply bookkeeping_step; eauto|]. split; [|auto].
      intros k. rewrite elem_of_app, list_elem_of_singleton.
      intros [Hk| ->]; [apply Hranks in Hk; lia|done].
    + (* the synthesizer *)
      subst n. cbn [node_fn] in Hnode.
      pose proof Hnode as Hframe.
      apply synthesizer_node_frame in Hframe as (_ & _ & Ht & Hc & Hp & Hmu & _ & _).
      apply synthesizer_summary in Hnode
        as (_ & _ & _ & _ & fr & Hfr & Hfragents & Hfrtools & Hnodup).
      destruct Hbook as (Hagents & Hpop & Hce & Hsched & Honly).
      assert (Hsame : forall k, populated k (apply_update st returned) <-> populated k st).
      { intros k. rewrite populated_apply_update.
        destruct k; cbn [populated]; by rewrite ?Ht, ?Hc, ?Hp, ?Hmu. }
      exists fr. split; [done|]. split; [|split; [|split; [|done]]].
      * intros x. rewrite Hfragents. split.
        -- intros [Hx|[_ Hx]].
           ++ apply Hagents in Hx as (k & Hk & Hfault & Hname).
              exists k. rewrite elem_of_app. repeat split; auto.
              intros ->. done.
           ++ apply contributors_populated in Hx as (k & Hk & Hname).
              apply Hpop in Hk as (Hk & _ & Hfault).
              exists k. rewrite elem_of_app. repeat split; auto. intros ->. done.
        -- intros (k & Hk & Hsyn & Hfault & Hname).
           apply elem_of_app in Hk as [Hk|Hk]; [|by apply list_elem_of_singleton in Hk].
           left. apply Hagents. eauto.
      * intros k. rewrite Hsame, Hpop, elem_of_app, list_elem_of_singleton. split.
        -- intros (Hk & ? & ?). repeat split; auto. intros ->. done.
        -- intros ([?|?] & ? & ? & ?); done.
      * intros x. rewrite Hfrtools.
        cbn [apply_update with_tools_used with_agents_involved code_help study_plan].
        rewrite Hc, Hp. split.
        -- intros Hx. destruct (Honly x Hx) as [-> | ->].
           ++ left. split; [done|]. by apply Hce.
           ++ right. split; [done|]. by apply Hsched.
        -- intros [[-> H]|[-> H]]; [by apply Hce|by apply Hsched].
  - split; [|split; [|split; [|by left]]].
    + unfold bookkeeping.
      cbn [initial_state agents_involved tools_used code_help study_plan].
      split; [|split; [|split; [|split]]].
      * intros x. rewrite elem_of_nil. split; [done|].
        intros (k & H & _). by apply elem_of_nil in H.
      * intros k. rewrite elem_of_nil. split; [|by intros [? _]].
        destruct k; cbn; try done; intros [? ?]; done.
      * rewrite elem_of_nil. split; [done|]. intros (ch & ? & _). done.
      * rewrite elem_of_nil. split; [done|]. intros [? ?]. done.
      * intros x H. by apply elem_of_nil in H.
    + intros k H. by apply elem_of_nil in H.
    + intros a b H. by apply elem_of_nil in H.
Qed.

(** The agents reported in the final response are exactly the stages,
    other than the synthesizer, that ran and did not fail; the router is
    among them unless it failed.  When the synthesizer does not fail the list
    has no repetitions. *)
Theorem agents_involved_are_completed_stages (env : Env) (q : string) (m : Memory) :
  exists state visited m' fr,
    ainvoke env (initial_state q) m = (Ok (state, visited), m') /\
    final_response state = Some fr /\
    (forall x, x ∈ FinalResponse.agents_involved fr <->
       exists k, k ∈ visited /\ k <> synthesizer /\ fault env k = None /\
                 agent_name k = x) /\
    ("router" ∈ FinalResponse.agents_involved fr <-> fault env router = None) /\
    (fault env synthesizer = None -> NoDup (FinalResponse.agents_involved fr)).
Proof.
  destruct (run_bookkeeping env q m)
    as (state & visited & m' & fr & Hrun & Hfr & Hagents & _ & _ & _ & Hrouter & Hnodup).
  exists state, visited, m', fr. repeat (split; [done|]). split; [|by intros H; apply Hnodup].
  rewrite Hagents. split.
  - intros (k & _ & _ & Hfault & Hname). by destruct k.
  - intros Hfault. exists router. by repeat split.
Qed.

(** A result field of the final state is filled in exactly when its stage
    ran and did not fail, and a run fills in at most one of the three
    specialist results. *)
Theorem results_are_from_stages_that_ran (env : Env) (q : string) (m : Memory) :
  exists state visited m',
    ainvoke env (initial_state q) m = (Ok (state, visited), m') /\
    (is_Some (theory_explanation state) <->
       theory_explainer ∈ visited /\ fault env theory_explainer = None) /\
    (is_Some (code_help state) <-> code_helper ∈ visited /\ fault env code_helper = None) /\
    (is_Some (study_plan state) <-> planner ∈ visited /\ fault env planner = None) /\
    (is_Some (memory_update state) <->
       memory_manager ∈ visited /\ fault env memory_manager = None) /\
    ~ (is_Some (theory_explanation state) /\ is_Some (code_help state)) /\
    ~ (is_Some (theory_explanation state) /\ is_Some (study_plan state)) /\
    ~ (is_Some (code_help state) /\ is_Some (study_plan state)).
Proof.
  destruct (run_bookkeeping env q m)
    as (state & visited & m' & fr & Hrun & _ & _ & Hpop & _ & Hdistinct & _ & _).
  exists state, visited, m'. split; [done|].
  pose proof (Hpop theory_explainer) as Ht. pose proof (Hpop code_helper) as Hc.
  pose proof (Hpop planner) as Hp. pose proof (Hpop memory_manager) as Hm.
  cbn [populated] in Ht, Hc, Hp, Hm.
  split; [rewrite Ht; split; [intros (? & _ & _ & ?); auto|intros [? ?]; by repeat split]|].
  split; [rewrite Hc; split; [intros (? & _ & _ & ?); auto|intros [? ?]; by repeat split]|].
  split; [rewrite Hp; split; [intros (? & _ & _ & ?); auto|intros [? ?]; by repeat split]|].
  split; [rewrite Hm; split; [intros (? & _ & _ & ?); auto|intros [? ?]; by repeat split]|].
  split; [|split].
  - intros [H1 H2]. apply Ht in H1 as [H1 _]. apply Hc in H2 as [H2 _].
    by pose proof (Hdistinct _ _ H1 H2 eq_refl).
  - intros [H1 H2]. apply Ht in H1 as [H1 _]. apply Hp in H2 as [H2 _].
    by pose proof (Hdistinct _ _ H1 H2 eq_refl).
  - intros [H1 H2]. apply Hc in H1 as [H1 _]. apply Hp in H2 as [H2 _].
    by pose proof (Hdistinct _ _ H1 H2 eq_refl).
Qed.

(** The tools reported in the final response: "schedule_tool" exactly when
    the planner produced a plan, "code_executor" exactly when the code helper
    produced help with a non-empty example, and nothing else; never both. *)
Theorem tools_used_reflect_results (env : Env) (q : string) (m : Memory) :
  exists state visited m' fr,
    ainvoke env (initial_state q) m = (Ok (state, visited), m') /\
    final_response state = Some fr /\
    (forall x, x ∈ FinalResponse.tools_used fr <->
       (x = "code_executor" /\
        exists ch, code_help state = Some ch /\
                   Py.truthy_opt (CodeHelp.code_example ch) = true) \/
       (x = "schedule_tool" /\ is_Some (study_plan state))) /\
    ~ ("code_executor" ∈ FinalResponse.tools_used fr /\
       "schedule_tool" ∈ FinalResponse.tools_used fr).
Proof.
  destruct (run_bookkeeping env q m)
    as (state & visited & m' & fr & Hrun & Hfr & _ & Hpop & Htools & Hdistinct & _ & _).
  exists state, visited, m', fr. repeat (split; [done|]).
  intros [Hce Hsched]. apply Htools in Hce as [(_ & ch & Hch & _)|[? _]]; [|done].
  apply Htools in Hsched as [[? _]|(_ & Hplan)]; [done|].
  assert (H1 : populated code_helper state) by (cbn; rewrite Hch; eauto).
  assert (H2 : populated planner state) by done.
  apply Hpop in H1 as [H1 _]. apply Hpop in H2 as [H2 _].
  by pose proof (Hdistinct _ _ H1 H2 eq_refl).
Qed.

Section Paths.

Variable env : Env.

Lemma router_decides state m returned m' :
  router_node env state m = (Ok returned, m') ->
  exists r, routing_decision returned = Some r /\ router_decided env (user_query state) m r.
Proof.
  intros H. unfold router_decided. open_stage.
  destruct (fault env router).
  - simplify_eq. cbn. eauto.
  - destruct (route_query_ok env (user_query state) m) as [d Hd]. rewrite Hd in H.
    simplify_eq. cbn. eauto.
Qed.

(** Where the graph goes after the router and after the memory stage, in
    terms of the routing decision. *)
Lemma next_after_router state r :
  routing_decision state = Some r ->
  next_node router state =
  inl (Some (if RoutingDecision.needs_memory r then memory_manager
             else match specialist_of (RoutingDecision.target_agents r) with
                  | s :: _ => s
                  | [] => synthesizer
                  end)) /\
  (RoutingDecision.needs_memory r = false ->
   forall s, specialist_of (RoutingDecision.target_agents r) = [s] -> rank s = 2).
Proof.
  intros Hr. unfold next_node, route_after_router, specialist_of. rewrite Hr.
  destruct (RoutingDecision.needs_memory r);
    destruct (first_target_cases (RoutingDecision.target_agents r)) as [->|[->|[->| ->]]];
    cbn; split; try done; intros _ s [= <-]; done.
Qed.

Lemma next_after_memory state r :
  routing_decision state = Some r ->
  next_node memory_manager state =
  inl (Some (match specialist_of (RoutingDecision.target_agents r) with
             | s :: _ => s
             | [] => synthesizer
             end)).
Proof.
  intros Hr. unfold next_node, route_after_memory, specialist_of. rewrite Hr.
  by destruct (first_target_cases (RoutingDecision.target_agents r)) as [->|[->|[->| ->]]].
Qed.

Lemma specialist_of_cases targets :
  specialist_of targets = [] \/
  exists s, specialist_of targets = [s] /\ rank s = 2.
Proof.
  unfold specialist_of.
  destruct (first_target_cases targets) as [->|[->|[->| ->]]]; cbn; eauto.
Qed.

End Paths.

(** The path of a run is fixed by the decision the router stage leaves in
    the state. *)
Lemma run_path (env : Env) (q : string) (m : Memory) :
  exists state visited m' r,
    ainvoke env (initial_state q) m = (Ok (state, visited), m') /\
    routing_decision state = Some r /\
    router_decided env q m r /\
    visited = path_of r.
Proof.
  destruct (ainvoke_total env (initial_state q) m) as (state & visited & m' & Hrun).
  pose proof Hrun as Hpost. unfold ainvoke in Hpost.
  eapply (run_from_post env
            (fun n st m0 vis =>
               match n with
               | router => vis = [] /\ m0 = m /\ user_query st = q
               | _ =>
                   exists r, routing_decision st = Some r /\ router_decided env q m r /\
                     vis = stages_before n r /\
                     (n = memory_manager -> RoutingDecision.needs_memory r = true) /\
                     (rank n = 2 -> specialist_of (RoutingDecision.target_agents r) = [n])
               end)
            (fun st _ vis =>
               exists r, routing_decision st = Some r /\ router_decided env q m r /\
                         vis = path_of r))
    in Hpost; [| |done|apply entry_ok_router].
  - destruct Hpost as (r & Hr & Hdecided & Hpath). by exists state, visited, m', r.
  - intros n st m0 vis returned m1 HP Hentry Hnode. destruct n.
    + (* router *)
      destruct HP as (-> & -> & Hq). cbn [node_fn] in Hnode.
      apply router_decides in Hnode as (r & Hr & Hdecided). rewrite Hq in Hdecided.
      destruct (next_after_router (apply_update st returned) r Hr) as [-> Hrank].
      unfold stages_before, memory_hop in *.
      destruct (RoutingDecision.needs_memory r) eqn:Hneeds.
      * exists r. by repeat split.
      * destruct (specialist_of_cases (RoutingDecision.target_agents r))
          as [Hs|(s & Hs & Hrk)]; rewrite Hs.
        -- exists r. rewrite ?Hneeds, ?Hs. by repeat split.
        -- destruct s; try discriminate; exists r; rewrite ?Hneeds, ?Hs; by repeat split.
    + (* memory manager *)
      destruct HP as (r & Hr & Hdecided & -> & Hneeds & _).
      specialize (Hneeds eq_refl).
      apply stage_summary in Hnode as (_ & Hrouting & _); [|done|done].
      assert (Hr' : routing_decision (apply_update st returned) = Some r)
        by (cbn; rewrite Hrouting; done).
      rewrite (next_after_memory (apply_update st returned) r Hr').
      destruct (specialist_of_cases (RoutingDecision.target_agents r))
        as [Hs|(s & Hs & Hrk)]; rewrite Hs.
      * exists r. unfold stages_before, memory_hop. rewrite Hneeds, Hs. by repeat split.
      * destruct s; try discriminate; exists r; unfold stages_before, memory_hop;
          rewrite Hneeds; by repeat split.
    + (* theory explainer *)
      destruct HP as (r & Hr & Hdecided & -> & _ & Hs). specialize (Hs eq_refl).
      apply stage_summary in Hnode as (_ & Hrouting & _); [|done|done].
      cbn [next_node]. exists r. cbn. rewrite Hrouting by done.
      rewrite Hs. split; [done|]. split; [done|]. by repeat split.
    + (* code helper *)
      destruct HP as (r & Hr & Hdecided & -> & _ & Hs). specialize (Hs eq_refl).
      apply stage_summary in Hnode as (_ & Hrouting & _); [|done|done].
      cbn [next_node]. exists r. cbn. rewrite Hrouting by done.
      rewrite Hs. split; [done|]. split; [done|]. by repeat split.
    + (* planner *)
      destruct HP as (r & Hr & Hdecided & -> & _ & Hs). specialize (Hs eq_refl).
      apply stage_summary in Hnode as (_ & Hrouting & _); [|done|done].
      cbn [next_node]. exists r. cbn. rewrite Hrouting by done.
      rewrite Hs. split; [done|]. split; [done|]. by repeat split.
    + (* synthesizer *)
      destruct HP as (r & Hr & Hdecided & -> & _).
      apply synthesizer_summary in Hnode as (Hrouting & _).
      cbn [next_node]. exists r. cbn. rewrite Hrouting.
      split; [done|]. split; [done|]. unfold path_of. by rewrite !app_assoc.
Qed.

(** The stages a run goes through are those the routing decision in the
    state leads through: the router, the memory stage exactly when the
    decision asks for memory, then the specialist named first among the
    target agents, if it names one, then the synthesizer.  Target agents
    after the first play no part. *)
Theorem run_follows_routing_decision (env : Env) (q : string) (m : Memory) :
  exists state visited m' r,
    ainvoke env (initial_state q) m = (Ok (state, visited), m') /\
    routing_decision state = Some r /\
    router_decided env q m r /\
    visited = path_of r /\
    (memory_manager ∈ visited <-> RoutingDecision.needs_memory r = true) /\
    (forall s, rank s = 2 ->
       (s ∈ visited <-> specialist_of (RoutingDecision.target_agents r) = [s])) /\
    (forall t rest, specialist_of (t :: rest) = specialist_of [t]).
Proof.
  destruct (run_path env q m) as (state & visited & m' & r & Hrun & Hr & Hdecided & ->).
  exists state, (path_of r), m', r. repeat (split; [done|]).
  unfold path_of, memory_hop.
  split; [|split; [|done]].
  - rewrite elem_of_cons, !elem_of_app, list_elem_of_singleton.
    destruct (RoutingDecision.needs_memory r).
    + split; [done|]. intros _. right. left. apply list_elem_of_here.
    + split; [|done]. intros [?|[H|[H|?]]]; try done.
      * by apply elem_of_nil in H.
      * destruct (specialist_of_cases (RoutingDecision.target_agents r))
          as [Hs|(s & Hs & Hrk)]; rewrite Hs in H.
        -- by apply elem_of_nil in H.
        -- apply list_elem_of_singleton in H as <-. done.
  - intros s Hrk. rewrite elem_of_cons, !elem_of_app, list_elem_of_singleton. split.
    + intros [->|[H|[H| ->]]]; try done.
      * destruct (RoutingDecision.needs_memory r).
        -- apply list_elem_of_singleton in H as ->. done.
        -- by apply elem_of_nil in H.
      * destruct (specialist_of_cases (RoutingDecision.target_agents r))
          as [Hs|(s' & Hs & _)]; rewrite Hs in *.
        -- by apply elem_of_nil in H.
        -- by apply list_elem_of_singleton in H as ->.
    + intros ->. right. right. left. apply list_elem_of_here.
Qed.

(** When the router stage itself fails, the run goes to the theory explainer
    without consulting memory, and the router is not among the agents
    reported. *)
Theorem router_failure_goes_to_theory (env : Env) (q : string) (m : Memory) (e : string) :
  fault env router = Some e ->
  exists state visited m',
    ainvoke env (initial_state q) m = (Ok (state, visited), m') /\
    visited = [router; theory_explainer; synthesizer] /\
    routing_decision state =
      Some (RoutingDecision.mk GENERAL ["theory_explainer"] "Fallback routing" 1 false false).
Proof.
  intros Hfault.
  destruct (run_path env q m) as (state & visited & m' & r & Hrun & Hr & Hdecided & ->).
  unfold router_decided in Hdecided. rewrite Hfault in Hdecided. subst r.
  eexists state, _, m'. split; [exact Hrun|]. by split.
Qed.

(** When the router's chain fails, the keyword fallback always names a
    specialist: the run goes through the memory stage exactly when the
    history is not empty, then through the theory explainer, the code helper
    or the planner as the keywords decide, and never straight to the
    synthesizer. *)
Theorem keyword_fallback_reaches_a_specialist (env : Env) (q : string) (m : Memory) :
  fault env router = None ->
  router_chain env q (retrieve_recent_context 2 m) = None ->
  exists state visited m',
    ainvoke env (initial_state q) m = (Ok (state, visited), m') /\
    visited =
      router ::
      (if bool_decide (session_history m <> []) then [memory_manager] else []) ++
      [ if Py.any_in theory_keywords (Py.lower q) then theory_explainer
        else if Py.any_in code_keywords (Py.lower q) then code_helper
        else if Py.any_in planning_keywords (Py.lower q) then planner
        else theory_explainer;
        synthesizer ].
Proof.
  intros Hfault Hchain.
  destruct (run_path env q m) as (state & visited & m' & r & Hrun & Hr & Hdecided & ->).
  eexists state, _, m'. split; [exact Hrun|].
  unfold router_decided in Hdecided. rewrite Hfault in Hdecided.
  unfold route_query, bind, read_store, ret in Hdecided. rewrite Hchain in Hdecided.
  assert (Hneeds : (0 <? length (retrieve_recent_context 2 m))%nat =
                   bool_decide (session_history m <> [])).
  { unfold retrieve_recent_context. destruct (session_history m) as [|i h] eqn:Eh.
    - by rewrite bool_decide_eq_false_2 by (intros H; by apply H).
    - rewrite bool_decide_eq_true_2 by done. apply Nat.ltb_lt.
      rewrite last_n_length by lia. cbn [length]. lia. }
  rewrite Hneeds in Hdecided. unfold path_of, memory_hop.
  destruct (Py.any_in theory_keywords (Py.lower q));
    [|destruct (Py.any_in code_keywords (Py.lower q));
      [|destruct (Py.any_in planning_keywords (Py.lower q))]];
    simplify_eq; cbn [RoutingDecision.needs_memory RoutingDecision.target_agents];
    by destruct (bool_decide (session_history m <> [])).
Qed.

Lemma last_fault_snoc env visited n :
  last_fault env (visited ++ [n]) =
  match fault env n with
  | Some e => Some (error_prefix n +:+ e)
  | None => last_fault env visited
  end.
Proof. unfold last_fault. by rewrite foldl_app. Qed.

Lemma last_fault_none env visited :
  last_fault env visited = None <-> forall k, k ∈ visited -> fault env k = None.
Proof.
  induction visited as [|n visited IH] using rev_ind.
  - split; [|done]. intros _ k H. by apply elem_of_nil in H.
  - rewrite last_fault_snoc. destruct (fault env n) eqn:Hfault.
    + split; [done|]. intros H. rewrite H in Hfault; [done|].
      apply elem_of_app. right. by apply list_elem_of_singleton.
    + rewrite IH. split.
      * intros H k. rewrite elem_of_app, list_elem_of_singleton. intros [?| ->]; auto.
      * intros H k Hk. apply H. apply elem_of_app. by left.
Qed.

(** The error slot keeps the message of the last stage that failed, with
    that stage's prefix; it is empty exactly when no stage of the run
    failed. *)
Theorem error_is_the_last_failure (env : Env) (q : string) (m : Memory) :
  exists state visited m',
    ainvoke env (initial_state q) m = (Ok (state, visited), m') /\
    error state = last_fault env visited /\
    (error state = None <-> forall k, k ∈ visited -> fault env k = None) /\
    (forall e, fault env synthesizer = Some e ->
       error state = Some ("Synthesizer error: " +:+ e)).
Proof.
  destruct (ainvoke_total env (initial_state q) m) as (state & visited & m' & Hrun).
  pose proof Hrun as Hpost. unfold ainvoke in Hpost.
  eapply (run_from_post env
            (fun _ st _ vis => error st = last_fault env vis)
            (fun st _ vis => error st = last_fault env vis /\ last vis = Some synthesizer))
    in Hpost; [| |done|apply entry_ok_router].
  - destruct Hpost as [Herror Hlast]. exists state, visited, m'.
    split; [done|]. split; [done|]. split; [rewrite Herror; apply last_fault_none|].
    intros e Hfault. rewrite Herror.
    destruct visited as [|k visited _] using rev_ind; [done|].
    rewrite last_snoc in Hlast. simplify_eq. by rewrite last_fault_snoc, Hfault.
  - intros n st m0 vis returned m1 Herror Hentry Hnode.
    destruct (next_node_ok n (apply_update st returned)) as (o & -> & Ho).
    assert (Hstep : error (apply_update st returned) = last_fault env (vis ++ [n])).
    { rewrite last_fault_snoc, <- Herror.
      cbn [apply_update with_tools_used with_agents_involved error].
      destruct (decide (n = synthesizer)) as [->|Hn].
      - by apply synthesizer_summary in Hnode as (_ & _ & _ & -> & _).
      - by apply stage_summary in Hnode as (_ & _ & -> & _). }
    destruct o as [n'|]; [done|]. subst n. split; [done|]. apply last_snoc.
Qed.

(** * The confidence policy *)

(** The synthesizer's list of agents is the list of stages with output. *)
Lemma contributors_contributed state :
  contributors state = List.map agent_name (contributed state).
Proof.
  unfold contributors, contributed, collect_outputs. cbn [List.filter has_output].
  destruct (theory_explanation state) as [exp|], (code_help state) as [ch|],
    (study_plan state) as [sp|], (memory_update state) as [[? ? ? [ctx|] ?]|];
    cbn -[Py.slice_to bullets List.flat_map Py.truthy];
    try destruct (Py.truthy ctx);
    reflexivity.
Qed.

Lemma contributed_populated state k :
  context_retrieved state -> (k ∈ contributed state <-> populated k state).
Proof.
  intros Hctx. unfold contributed. rewrite list_elem_of_In, filter_In.
  destruct k; cbn [has_output populated].
  - split; [by intros [_ ?]|done].
  - destruct (memory_update state) as [mu|] eqn:Emu.
    + split; [by eauto|]. intros _. split; [cbn; tauto|]. by apply Hctx.
    + split; [by intros [_ ?]|]. by intros [? ?].
  - destruct (theory_explanation state).
    + split; [by eauto|]. intros _. split; [cbn; tauto|done].
    + split; [by intros [_ ?]|]. by intros [? ?].
  - destruct (code_help state).
    + split; [by eauto|]. intros _. split; [cbn; tauto|done].
    + split; [by intros [_ ?]|]. by intros [? ?].
  - destruct (study_plan state).
    + split; [by eauto|]. intros _. split; [cbn; tauto|done].
    + split; [by intros [_ ?]|]. by intros [? ?].
  - split; [by intros [_ ?]|done].
Qed.

Lemma contributed_NoDup state : NoDup (contributed state).
Proof.
  unfold contributed. cbn [List.filter].
  destruct (has_output state theory_explainer), (has_output state code_helper),
    (has_output state planner), (has_output state memory_manager);
    apply (bool_decide_unpack _); vm_compute; exact I.
Qed.

(** With at most one stage of each rank, more than one contributor means
    the memory stage and one specialist. *)
Lemma contributed_pair state :
  (forall a b, a ∈ contributed state -> b ∈ contributed state -> rank a = rank b -> a = b) ->
  (1 < length (contributed state) <->
     memory_manager ∈ contributed state /\
     exists s, rank s = 2 /\ s ∈ contributed state).
Proof.
  unfold contributed. cbn [List.filter]. intros Hone.
  destruct (has_output state theory_explainer), (has_output state code_helper),
    (has_output state planner), (has_output state memory_manager);
    cbn [length];
    try (exfalso;
         first [ by pose proof (Hone theory_explainer code_helper
                                  ltac:(set_solver) ltac:(set_solver) eq_refl)
               | by pose proof (Hone theory_explainer planner
                                  ltac:(set_solver) ltac:(set_solver) eq_refl)
               | by pose proof (Hone code_helper planner
                                  ltac:(set_solver) ltac:(set_solver) eq_refl) ]);
    (split;
     [ intros Hlen; try lia;
       (split; [set_solver|]);
       first [ exists theory_explainer; split; [done|set_solver]
             | exists code_helper; split; [done|set_solver]
             | exists planner; split; [done|set_solver] ]
     | intros [Hm (s & Hrk & Hs)]; try lia; exfalso;
       first [ by apply elem_of_nil in Hm
             | by apply elem_of_nil in Hs
             | (apply list_elem_of_singleton in Hm; by subst)
             | (apply list_elem_of_singleton in Hs; by subst) ] ]).
Qed.

(** The confidence a run ends with, in terms of the synthesizer's list. *)
Lemma run_confidence (env : Env) (q : string) (m : Memory) :
  exists state visited m' fr,
    ainvoke env (initial_state q) m = (Ok (state, visited), m') /\
    final_response state = Some fr /\
    context_retrieved state /\
    (FinalResponse.confidence fr = "low" <-> error state <> None) /\
    (FinalResponse.confidence fr = "high" <->
       error state = None /\ 1 < length (contributors state)) /\
    (FinalResponse.confidence fr = "medium" <->
       error state = None /\ length (contributors state) <= 1).
Proof.
  destruct (ainvoke_total env (initial_state q) m) as (state & visited & m' & Hrun).
  pose proof Hrun as Hpost. unfold ainvoke in Hpost.
  eapply (run_from_post env
            (fun _ st _ _ => error_ok st /\ context_retrieved st)
            (fun st _ _ =>
               context_retrieved st /\
               exists fr, final_response st = Some fr /\
                 (FinalResponse.confidence fr = "low" <-> error st <> None) /\
                 (FinalResponse.confidence fr = "high" <->
                    error st = None /\ 1 < length (contributors st)) /\
                 (FinalResponse.confidence fr = "medium" <->
                    error st = None /\ length (contributors st) <= 1)))
    in Hpost; [| |split; [by intros e He|by intros mu Hmu]|apply entry_ok_router].
  - destruct Hpost as (Hctx & fr & Hfr & Hlow & Hhigh & Hmed).
    by exists state, visited, m', fr.
  - intros n st m0 vis returned m1 [Hok Hctx] Hentry Hnode.
    assert (Hctx' : context_retrieved (apply_update st returned)).
    { unfold context_retrieved. cbn [apply_update with_tools_used with_agents_involved
                                      memory_update].
      destruct (decide (n = synthesizer)) as [->|Hsynth].
      - apply synthesizer_node_frame in Hnode as (_ & _ & _ & _ & _ & -> & _). exact Hctx.
      - destruct (decide (n = memory_manager)) as [->|Hmem].
        + destruct (Hentry eq_refl) as (r & Hr & Hneeds).
          apply (memory_manager_node_frame env st m0 returned m1 r Hr Hneeds) in Hnode
            as (_ & _ & _ & H).
          destruct (fault env memory_manager).
          * destruct H as (_ & -> & _). exact Hctx.
          * destruct H as (_ & ctx & _ & -> & Htruthy). intros mu [= <-]. exact Htruthy.
        + apply stage_summary in Hnode; [|done|done].
          destruct Hnode as (_ & _ & _ & _ & _ & _ & _ & _ & _ & _ & _ & Hsame & _).
          rewrite Hsame; [exact Hctx|]. intros [? _]. done. }
    destruct (next_node_ok n (apply_update st returned)) as (o & -> & Ho).
    destruct o as [n'|].
    + split; [|exact Hctx']. eapply node_error_ok in Hnode; [|exact Hok]. exact Hnode.
    + subst n. split; [exact Hctx'|]. cbn [node_fn] in Hnode.
      destruct (synthesizer_confidence env st m0 returned m1 Hok Hnode)
        as (-> & fr & Hfr & H).
      exists fr. split; [done|]. exact H.
Qed.

(** C3.  In every run the confidence of the final response is "low" exactly
    when the state holds an error, "high" exactly when it holds none and more
    than one agent contributed, and "medium" exactly when it holds none and
    at most one agent contributed.  The agents that contributed are those
    with output in the state; they are distinct, and they are exactly the
    stages between the router and the synthesizer that ran and did not fail
    (the router and the synthesizer themselves never count).  So more than
    one agent contributed exactly when the memory stage and one specialist
    both did. *)
Theorem confidence_policy (env : Env) (q : string) (m : Memory) :
  exists state visited m' fr,
    ainvoke env (initial_state q) m = (Ok (state, visited), m') /\
    process_query env q m = (Ok state, m') /\
    final_response state = Some fr /\
    (FinalResponse.confidence fr = "low" <-> error state <> None) /\
    (FinalResponse.confidence fr = "high" <->
       error state = None /\ 1 < length (contributed state)) /\
    (FinalResponse.confidence fr = "medium" <->
       error state = None /\ length (contributed state) <= 1) /\
    NoDup (contributed state) /\
    (forall k, k ∈ contributed state <->
       k ∈ visited /\ k <> router /\ k <> synthesizer /\ fault env k = None) /\
    (1 < length (contributed state) <->
       memory_manager ∈ contributed state /\
       exists s, rank s = 2 /\ s ∈ contributed state).
Proof.
  destruct (run_confidence env q m)
    as (state & visited & m' & fr & Hrun & Hfr & Hctx & Hlow & Hhigh & Hmed).
  destruct (run_bookkeeping env q m)
    as (state' & visited' & m'' & fr' & Hrun' & _ & _ & Hpop & _ & Hdistinct & _ & _).
  assert (Hsame : state' = state /\ visited' = visited)
    by (rewrite Hrun in Hrun'; by simplify_eq).
  destruct Hsame as [-> ->]. clear Hrun'.
  rewrite contributors_contributed, length_map in Hhigh, Hmed.
  assert (Hmembers : forall k, k ∈ contributed state <->
            k ∈ visited /\ k <> router /\ k <> synthesizer /\ fault env k = None).
  { intros k. rewrite (contributed_populated state k Hctx). apply Hpop. }
  exists state, visited, m', fr. split; [done|].
  split; [apply process_query_ainvoke; eauto|].
  repeat (split; [done|]). split; [apply contributed_NoDup|]. split; [exact Hmembers|].
  apply contributed_pair. intros a b Ha Hb. apply Hdistinct.
  - by apply Hmembers in Ha as [? _].
  - by apply Hmembers in Hb as [? _].
Qed.

(** "What is recursion?" after one earlier exchange, every chain failing:
    the keyword fallback asks for memory because the history is not empty,
    the memory stage and the theory explainer both contribute and the
    confidence is "high". *)
Example scenario_memory_and_theory :
  exists state visited m' fr,
    ainvoke quiet_env (initial_state "What is recursion?") one_exchange
      = (Ok (state, visited), m') /\
    visited = [router; memory_manager; theory_explainer; synthesizer] /\
    final_response state = Some fr /\
    contributed state = [theory_explainer; memory_manager] /\
    error state = None /\
    FinalResponse.confidence fr = "high".
Proof.
  pose (r := ainvoke quiet_env (initial_state "What is recursion?") one_exchange).
  assert (Hr : ainvoke quiet_env (initial_state "What is recursion?") one_exchange = r)
    by reflexivity.
  vm_compute in r. subst r.
  eexists _, _, _, _. split; [exact Hr|]. by repeat split.
Qed.

(** * The store across a run *)

Lemma update_user_profile_extends key key' value m items :
  user_profile m !! key = Some (PList items) ->
  exists more, user_profile (update_user_profile key' value m) !! key
               = Some (PList (items ++ more)).
Proof.
  intros Hitems. destruct (decide (key' = key)) as [->|Hne].
  - rewrite (update_user_profile_list _ _ _ _ Hitems). case_bool_decide.
    + exists []. by rewrite app_nil_r.
    + by exists [value].
  - exists []. by rewrite app_nil_r, update_user_profile_other.
Qed.

(** What a stage does to the profile: nothing, or one update under one of
    the predefined keys. *)
Lemma stage_profile env n state m returned m' :
  entry_ok n state ->
  node_fn env n state m = (Ok returned, m') ->
  user_profile m' = user_profile m \/
  exists k v, k ∈ predefined_list_keys /\ m' = update_user_profile k v m.
Proof.
  intros Hentry H. destruct n.
  - apply router_node_frame in H as (-> & _). by left.
  - destruct (Hentry eq_refl) as (r & Hr & Hneeds).
    apply (memory_manager_node_frame env state m returned m' r Hr Hneeds) in H as (-> & _).
    by left.
  - open_stage. destruct (fault env theory_explainer); [simplify_eq; by left|].
    destruct (explain_ok env (user_query state) (memory_context state) m) as [exp Hexp].
    rewrite Hexp in H. simplify_eq. right. eexists _, _. split; [|done].
    apply list_elem_of_here.
  - open_stage. destruct (fault env code_helper); [simplify_eq; by left|].
    destruct (help_with_code_result env (user_query state) (memory_context state) m)
      as (ch & Hch & _).
    rewrite Hch in H.
    destruct (Py.contains "python" (Py.lower (user_query state))); simplify_eq; [|by left].
    right. eexists _, _. split; [|done].
    apply list_elem_of_further, list_elem_of_here.
  - open_stage. destruct (fault env planner); [simplify_eq; by left|].
    destruct (create_plan_ok env (user_query state) (get_user_profile m) m) as [plan Hplan].
    rewrite Hplan in H. simplify_eq. right. eexists _, _. split; [|done].
    apply list_elem_of_further, list_elem_of_further, list_elem_of_here.
  - apply synthesizer_node_frame in H as (? & _). by left.
Qed.

(** A run changes the profile only under the three predefined keys, and
    only by adding to their lists: every other key keeps its value, every
    list keeps its items in place, and a profile of the shape the program
    builds keeps that shape. *)
Theorem run_only_extends_profile_lists (env : Env) (q : string) (m : Memory) :
  exists state m',
    process_query env q m = (Ok state, m') /\
    (forall k, k ∉ predefined_list_keys -> user_profile m' !! k = user_profile m !! k) /\
    (forall k items, user_profile m !! k = Some (PList items) ->
       exists more, user_profile m' !! k = Some (PList (items ++ more))) /\
    (profile_ok (user_profile m) -> profile_ok (user_profile m')).
Proof.
  destruct (ainvoke_total env (initial_state q) m) as (state & visited & m' & Hrun).
  pose proof Hrun as Hpost. unfold ainvoke in Hpost.
  pose (J := fun (m0 : Memory) =>
    (forall k, k ∉ predefined_list_keys -> user_profile m0 !! k = user_profile m !! k) /\
    (forall k items, user_profile m !! k = Some (PList items) ->
       exists more, user_profile m0 !! k = Some (PList (items ++ more))) /\
    (profile_ok (user_profile m) -> profile_ok (user_profile m0))).
  eapply (run_from_post env (fun _ _ m0 _ => J m0) (fun _ m0 _ => J m0))
    in Hpost; [| | |apply entry_ok_router].
  - exists state, m'. split; [apply process_query_ainvoke; eauto|]. exact Hpost.
  - intros n st m0 vis returned m1 (Hother & Hgrow & Hok) Hentry Hnode.
    assert (HJ : J m1).
    { destruct (stage_profile env n st m0 returned m1 Hentry Hnode)
        as [Hsame|(k & v & Hk & ->)].
      - unfold J. rewrite Hsame. done.
      - split; [|split].
        + intros k' Hk'. rewrite update_user_profile_other; [by apply Hother|].
          intros ->. done.
        + intros k' items Hitems. destruct (Hgrow k' items Hitems) as [more Hmore].
          destruct (update_user_profile_extends k' k v m0 _ Hmore) as [more' Hmore'].
          exists (more ++ more'). by rewrite app_assoc.
        + intros H. by apply update_user_profile_ok, Hok. }
    by destruct (next_node n (apply_update st returned)) as [[?|]|].
  - split; [done|]. split; [|done]. intros k items Hitems. exists []. by rewrite app_nil_r.
Qed.

(** When the synthesizer does not fail, a run writes the history exactly
    once, at its end: the entry holds the query, the first 500 characters of
    the answer and the agents of the final response, older entries beyond the
    twentieth are dropped, and a history within the bound stays within it. *)
Theorem run_appends_one_interaction (env : Env) (q : string) (m : Memory) :
  fault env synthesizer = None ->
  exists state m' fr,
    process_query env q m = (Ok state, m') /\
    final_response state = Some fr /\
    session_history m' =
      Py.last_n 20
        (session_history m ++
           [ {| timestamp := now env; query := q;
                response := Py.slice_to 500 (FinalResponse.answer fr);
                agents := FinalResponse.agents_involved fr |} ]) /\
    last (session_history m') =
      Some {| timestamp := now env; query := q;
              response := Py.slice_to 500 (FinalResponse.answer fr);
              agents := FinalResponse.agents_involved fr |} /\
    (length (session_history m) <= 20 -> length (session_history m') <= 20).
Proof.
  intros Hfault.
  destruct (ainvoke_total env (initial_state q) m) as (state & visited & m' & Hrun).
  pose proof Hrun as Hpost. unfold ainvoke in Hpost.
  eapply (run_from_post env
            (fun _ st m0 _ => session_history m0 = session_history m /\ user_query st = q)
            (fun st m0 _ =>
               exists fr, final_response st = Some fr /\
                 session_history m0 =
                   Py.last_n 20
                     (session_history m ++
                        [ {| timestamp := now env; query := q;
                             response := Py.slice_to 500 (FinalResponse.answer fr);
                             agents := FinalResponse.agents_involved fr |} ])))
    in Hpost; [| |done|apply entry_ok_router].
  - destruct Hpost as (fr & Hfr & Hhist). exists state, m', fr.
    split; [apply process_query_ainvoke; eauto|]. split; [done|]. split; [done|].
    rewrite Hhist. split.
    + rewrite last_n_snoc by lia. apply last_snoc.
    + intros _. rewrite last_n_length by lia. lia.
  - intros n st m0 vis returned m1 [Hhist Hq] Hentry Hnode.
    destruct (next_node_ok n (apply_update st returned)) as (o & -> & Ho).
    destruct o as [n'|].
    + assert (Hn : n <> synthesizer) by (intros ->; destruct n'; cbn in Ho; lia).
      split.
      * rewrite <- Hhist. by eapply node_history.
      * apply stage_summary in Hnode as (Hquery & _); [|done|done].
        cbn. by rewrite Hquery.
    + subst n. apply synthesizer_node_frame in Hnode as (_ & _ & _ & _ & _ & _ & _ & H).
      rewrite Hfault in H. destruct H as (_ & fr & Hfr & _ & _ & _ & H).
      exists fr. split; [done|]. by rewrite H, Hhist, Hq.
Qed.

(** * The theory and planner stages *)

(** The theory stage, when it does not fail, records the concept of its
    explanation among the topics asked, also when the chain failed and the
    concept is only the start of the query; the history is left alone. *)
Theorem theory_stage_records_topic (env : Env) (state : MultiAgentState.t) (m : Memory) :
  fault env theory_explainer = None ->
  exists returned exp,
    explain env (user_query state) (memory_context state) m = (Ok exp, m) /\
    theory_explainer_node env state m =
      (Ok returned, update_user_profile "topics_asked" (TheoryExplanation.concept exp) m) /\
    theory_explanation returned = Some exp /\
    agents_involved returned = ["theory_explainer"] /\
    error returned = error state /\
    (forall topics, user_profile m !! "topics_asked" = Some (PList topics) ->
       exists topics',
         user_profile (update_user_profile "topics_asked" (TheoryExplanation.concept exp) m)
           !! "topics_asked" = Some (PList topics') /\
         TheoryExplanation.concept exp ∈ topics') /\
    (theory_chain env (user_query state) (memory_context state) = None ->
       TheoryExplanation.concept exp =
         (if Py.contains "?" (user_query state)
          then Py.before_char "?" (user_query state)
          else Py.slice_to 50 (user_query state))).
Proof.
  intros Hfault.
  destruct (explain_ok env (user_query state) (memory_context state) m) as [exp Hexp].
  unfold theory_explainer_node, try_except, bind, check_fault, modify_store, ret.
  rewrite Hfault. cbv beta iota zeta. rewrite Hexp.
  eexists _, exp. split; [done|]. split; [reflexivity|]. repeat (split; [done|]). split.
  - intros topics Htopics. rewrite (update_user_profile_list _ _ _ _ Htopics).
    case_bool_decide; eexists; (split; [reflexivity|]); [done|].
    apply elem_of_app. right. by apply list_elem_of_singleton.
  - intros Hchain. unfold explain, ret in Hexp. rewrite Hchain in Hexp. by simplify_eq.
Qed.

(** The planner stage, when it does not fail, asks for a plan with the
    profile as it stands, records the goal of the plan among the study goals
    and marks "schedule_tool", also when the chain failed; the canned plan
    then has the raw query as goal and two steps. *)
Theorem planner_stage_records_goal (env : Env) (state : MultiAgentState.t) (m : Memory) :
  fault env planner = None ->
  exists returned plan,
    create_plan env (user_query state) (user_profile m) m = (Ok plan, m) /\
    planner_node env state m =
      (Ok returned, update_user_profile "study_goals" (StudyPlan.goal plan) m) /\
    study_plan returned = Some plan /\
    tools_used returned = tools_used state ++ ["schedule_tool"] /\
    (forall goals, user_profile m !! "study_goals" = Some (PList goals) ->
       exists goals',
         user_profile (update_user_profile "study_goals" (StudyPlan.goal plan) m)
           !! "study_goals" = Some (PList goals') /\
         StudyPlan.goal plan ∈ goals') /\
    (planner_chain env (user_query state) (user_profile m) = None ->
       StudyPlan.goal plan = user_query state /\
       length (StudyPlan.steps plan) = 2 /\
       StudyPlan.total_estimated_time plan = "5 hours").
Proof.
  intros Hfault.
  destruct (create_plan_ok env (user_query state) (user_profile m) m) as [plan Hplan].
  unfold planner_node, try_except, bind, check_fault, modify_store, read_store, ret,
    get_user_profile.
  rewrite Hfault. cbv beta iota zeta. rewrite Hplan.
  eexists _, plan. split; [done|]. split; [reflexivity|]. repeat (split; [done|]). split.
  - intros goals Hgoals. rewrite (update_user_profile_list _ _ _ _ Hgoals).
    case_bool_decide; eexists; (split; [reflexivity|]); [done|].
    apply elem_of_app. right. by apply list_elem_of_singleton.
  - intros Hchain. unfold create_plan, ret in Hplan. rewrite Hchain in Hplan.
    by simplify_eq.
Qed.

(** * Further instances on concrete inputs *)

Lemma stored_interaction_is_most_recent_witness :
  last (retrieve_recent_context 3
          (store_interaction "2024-01-01T00:00:00" "What is recursion?"
             "A function that calls itself." ["router"] one_exchange)) =
  Some {| timestamp := "2024-01-01T00:00:00"; query := "What is recursion?";
          response := Py.slice_to 500 "A function that calls itself.";
          agents := ["router"] |}.
Proof.
  assert (Hlimit : 0 < 3) by lia.
  pose proof (stored_interaction_is_most_recent "2024-01-01T00:00:00" "What is recursion?"
                "A function that calls itself." ["router"] one_exchange 3 Hlimit) as H.
  cbv zeta in H. destruct H as [Hlast _]. exact Hlast.
Defined.


Lemma update_user_profile_commutes_witness :
  update_user_profile "topics_asked" "recursion"
    (update_user_profile "level" "beginner" _init_memory) =
  update_user_profile "level" "beginner"
    (update_user_profile "topics_asked" "recursion" _init_memory).
Proof. apply update_user_profile_commutes. discriminate. Defined.

Lemma profile_lists_only_grow_witness :
  exists more,
    user_profile (update_user_profile "topics_asked" "recursion" _init_memory)
      !! "topics_asked" = Some (PList ([] ++ more)).
Proof.
  assert (Hitems : user_profile _init_memory !! "topics_asked" = Some (PList []))
    by reflexivity.
  destruct (profile_lists_only_grow "topics_asked" "topics_asked" "recursion"
              _init_memory [] Hitems) as (more & Hmore & _).
  exists more. exact Hmore.
Defined.

Lemma manage_memory_on_empty_history_witness :
  manage_memory true "What is recursion?" "auto" _init_memory =
  (Ok (MemoryUpdate.mk "retrieve" "session_context" None (Some "No previous context found")
         "Retrieved recent session history and related discussions"), _init_memory).
Proof.
  apply manage_memory_on_empty_history.
  - reflexivity.
  - right. split; reflexivity.
Defined.

Lemma explain_fallback_concept_witness :
  exists exp,
    explain quiet_env "What is recursion? Please." None _init_memory
      = (Ok exp, _init_memory) /\
    TheoryExplanation.concept exp = "What is recursion".
Proof.
  destruct (explain_fallback_concept quiet_env "What is recursion? Please." None
              _init_memory eq_refl) as (exp & Hexp & _ & _ & Hmark & _).
  exists exp. split; [exact Hexp|]. rewrite (Hmark eq_refl). reflexivity.
Defined.

Lemma execute_python_denylist_witness :
  success (execute_python env_example_prints "Import OS") = false /\
  exec_error (execute_python env_example_prints "Import OS") = Some "Security restriction".
Proof.
  destruct (execute_python_denylist env_example_prints "Import OS") as (Hrefuse & _).
  destruct (Hrefuse "import os") as (Hsuccess & Herror & _).
  - apply list_elem_of_here.
  - reflexivity.
  - split; [exact Hsuccess|exact Herror].
Defined.

Lemma help_with_code_keeps_produced_witness :
  exists ch,
    help_with_code env_example_prints "print the answer" None _init_memory
      = (Ok ch, _init_memory) /\
    CodeHelp.problem_description ch = "print the answer" /\
    CodeHelp.code_example ch = Some "print(6 * 7)".
Proof.
  destruct (help_with_code_keeps_produced env_example_prints "print the answer" None
              _init_memory
              (CodeHelp.mk "print the answer" "Call print" (Some "print(6 * 7)")
                 "Use print." [] [])
              eq_refl) as (ch & suffix & Hrun & Hch & _).
  exists ch. split; [exact Hrun|]. rewrite Hch. split; reflexivity.
Defined.

Lemma calculate_guard_witness :
  CalculatorTool.calculate eval_two_plus_two "2 + 2" = "4" /\
  CalculatorTool.calculate eval_two_plus_two "2 ** x" =
    "Error: Invalid characters in expression".
Proof.
  destruct (calculate_guard eval_two_plus_two "2 + 2") as (Hok & _).
  destruct (calculate_guard eval_two_plus_two "2 ** x") as (_ & _ & Hbad).
  split.
  - rewrite (Hok eq_refl). reflexivity.
  - apply Hbad; reflexivity.
Defined.

Lemma search_finds_mentioned_key_witness :
  is_Some (KnowledgeBaseTool.search KnowledgeBaseTool.knowledge "What is LangGraph?").
Proof.
  destruct (search_finds_mentioned_key KnowledgeBaseTool.knowledge "What is LangGraph?")
    as (Hfound & _).
  eapply (Hfound "langgraph").
  - apply list_elem_of_further, list_elem_of_here.
  - reflexivity.
Defined.


Lemma main_quits_on_sentinel_witness :
  exists r m',
    main quiet_env ["main.py"] "QUIT" one_exchange = (Ok r, m') /\
    r = None /\ m' = one_exchange.
Proof.
  destruct (main_quits_on_sentinel quiet_env ["main.py"] "QUIT" one_exchange)
    as (r & m' & Hmain & Hquit & Hsame & _).
  assert (Hr : r = None).
  { apply Hquit. apply list_elem_of_here. }
  exists r, m'. split; [exact Hmain|]. split; [exact Hr|]. exact (Hsame Hr).
Defined.

Lemma router_failure_goes_to_theory_witness :
  exists state visited m',
    ainvoke env_router_fails (initial_state "Create a study plan") one_exchange
      = (Ok (state, visited), m') /\
    visited = [router; theory_explainer; synthesizer].
Proof.
  destruct (router_failure_goes_to_theory env_router_fails "Create a study plan"
              one_exchange "boom" eq_refl) as (state & visited & m' & Hrun & Hvisited & _).
  exists state, visited, m'. split; [exact Hrun|exact Hvisited].
Defined.

Lemma keyword_fallback_reaches_a_specialist_witness :
  exists state visited m',
    ainvoke quiet_env (initial_state "Create a study plan") one_exchange
      = (Ok (state, visited), m') /\
    visited = [router; memory_manager; planner; synthesizer].
Proof.
  destruct (keyword_fallback_reaches_a_specialist quiet_env "Create a study plan"
              one_exchange eq_refl eq_refl) as (state & visited & m' & Hrun & Hvisited).
  exists state, visited, m'. split; [exact Hrun|]. rewrite Hvisited. reflexivity.
Defined.

Lemma error_is_the_last_failure_witness :
  exists state visited m',
    ainvoke env_synthesizer_fails (initial_state "What is recursion?") _init_memory
      = (Ok (state, visited), m') /\
    error state = Some "Synthesizer error: boom".
Proof.
  destruct (error_is_the_last_failure env_synthesizer_fails "What is recursion?"
              _init_memory) as (state & visited & m' & Hrun & _ & _ & Hsynth).
  exists state, visited, m'. split; [exact Hrun|]. exact (Hsynth "boom" eq_refl).
Defined.

Lemma run_appends_one_interaction_witness :
  exists state m' fr,
    process_query quiet_env "What is recursion?" one_exchange = (Ok state, m') /\
    final_response state = Some fr /\
    last (session_history m') =
      Some {| timestamp := "2024-01-01T00:00:00"; query := "What is recursion?";
              response := Py.slice_to 500 (FinalResponse.answer fr);
              agents := FinalResponse.agents_involved fr |}.
Proof.
  destruct (run_appends_one_interaction quiet_env "What is recursion?" one_exchange
              eq_refl) as (state & m' & fr & Hrun & Hfr & _ & Hlast & _).
  exists state, m', fr. split; [exact Hrun|]. split; [exact Hfr|exact Hlast].
Defined.

Lemma theory_stage_records_topic_witness :
  exists returned,
    theory_explainer_node quiet_env (initial_state "What is recursion?") _init_memory =
    (Ok returned, update_user_profile "topics_asked" "What is recursion" _init_memory).
Proof.
  destruct (theory_stage_records_topic quiet_env (initial_state "What is recursion?")
              _init_memory eq_refl)
    as (returned & exp & _ & Hnode & _ & _ & _ & _ & Hconcept).
  exists returned. rewrite Hnode, (Hconcept eq_refl). reflexivity.
Defined.

Lemma planner_stage_records_goal_witness :
  exists returned,
    planner_node quiet_env (initial_state "Create a study plan") _init_memory =
    (Ok returned, update_user_profile "study_goals" "Create a study plan" _init_memory).
Proof.
  destruct (planner_stage_records_goal quiet_env (initial_state "Create a study plan")
              _init_memory eq_refl)
    as (returned & plan & _ & Hnode & _ & _ & _ & Hcanned).
  exists returned. rewrite Hnode. destruct (Hcanned eq_refl) as (-> & _). reflexivity.
Defined.
